(** * The MHM isotope finder: a shallow embedding of
      [optimized_mhm_isotope_finder.py] and the properties of its
      estimator, classifier, search and validation routines.

    Numbers.  Python [int]s are [Z].  A finite Python [float] or
    [numpy.float64] is modelled by the real number it denotes, and the
    arithmetic of finite floats is exact arithmetic on [R]: rounding,
    signed zeros and the overflow of a float operation to an infinity
    are not followed.  The statements about the estimator and the
    classifier are therefore made for arguments below 2^64 in absolute
    value, where no float operation of the program can overflow.  What
    the model does follow:
    - the exceptions of the operations: [ZeroDivisionError] when a
      Python number is divided by zero, [OverflowError] when an [int]
      of magnitude 2^1024 - 2^970 or more has to become a float,
      [TypeError] when [numpy.sqrt] or [numpy.log] gets a Python [int]
      outside the 64-bit range;
    - the infinities and the NaN that numpy gives for a division by
      zero and for the mean of an empty list: they are values, and the
      program goes on with them. *)

From Stdlib Require Import ZArith List String Reals Lra Lia Bool.
From Stdlib Require Import Permutation Sorted DecimalString.
Import ListNotations.

Set Implicit Arguments.

(** ** Python values, outcomes and arithmetic *)

Module Py.

(** The exceptions the modelled operations can raise. *)
Inductive exc : Type :=
| ZeroDivisionError
| TypeError
| OverflowError.

(** What evaluating an expression gives: a value or a raised
    exception. *)
Inductive outcome (A : Type) : Type :=
| Ok (a : A)
| Raise (e : exc).

Arguments Ok {A} a.
Arguments Raise {A} e.

Definition bind {A B : Type} (c : outcome A) (k : A -> outcome B) : outcome B :=
  match c with
  | Ok a => k a
  | Raise e => Raise e
  end.

(** [for x in l: acc = body x acc], stopping at the first exception. *)
Fixpoint for_each {A S : Type} (l : list A) (body : A -> S -> outcome S) (acc : S)
  : outcome S :=
  match l with
  | [] => Ok acc
  | x :: l' => bind (body x acc) (for_each l' body)
  end.

(** A number at run time: a finite Python [float]; a [numpy.float64],
    finite, infinite or NaN; a complex number with finite parts, with
    the flag [np] set when it is a [numpy.complex128] rather than a
    Python [complex].  A complex appears when a negative base is raised
    to a fractional power; the non-finite values appear when numpy
    divides by zero or averages an empty list. *)
Inductive pynum : Type :=
| PyFloat (x : R)
| NpFloat (x : R)
| NpInf (negative : bool)
| NpNaN
| Complex (np : bool) (re im : R).

(** The least [int] that is too large for a float: [float(z)] raises
    [OverflowError] exactly when [|z|] reaches it (the largest double is
    2^1024 - 2^971, and the conversion rounds to nearest). *)
Definition float_max_int : Z := (2 ^ 1024 - 2 ^ 970)%Z.

(** An [int] operand of float arithmetic is converted to the float of
    the same value. *)
Definition float_of_int (z : Z) : outcome R :=
  if (Z.abs z <? float_max_int)%Z then Ok (IZR z) else Raise OverflowError.

Definition is_np (a : pynum) : bool :=
  match a with
  | PyFloat _ => false
  | NpFloat _ | NpInf _ | NpNaN => true
  | Complex np _ _ => np
  end.

Definition is_complex (a : pynum) : bool :=
  match a with Complex _ _ _ => true | _ => false end.

Definition is_finite (a : pynum) : bool :=
  match a with NpInf _ | NpNaN => false | _ => true end.

(** The real and imaginary parts of a finite number (0 for an infinity
    and for NaN, which have none in [R]). *)
Definition re (a : pynum) : R :=
  match a with
  | PyFloat x | NpFloat x => x
  | Complex _ r _ => r
  | NpInf _ | NpNaN => 0%R
  end.

Definition im (a : pynum) : R :=
  match a with Complex _ _ i => i | _ => 0%R end.

(** *** The arithmetic of doubles with infinities and NaN *)

(** The value of a double: a real, an infinity or NaN. *)
Inductive xreal : Type :=
| Fin (x : R)
| Inf (negative : bool)
| NaN.

Definition Rltb (x y : R) : bool := if Rlt_dec x y then true else false.
Definition Reqb (x y : R) : bool := if Req_dec_T x y then true else false.

Definition xadd (a b : xreal) : xreal :=
  match a, b with
  | Fin x, Fin y => Fin (x + y)
  | NaN, _ | _, NaN => NaN
  | Inf s, Inf t => if Bool.eqb s t then Inf s else NaN
  | Inf s, Fin _ | Fin _, Inf s => Inf s
  end.

Definition xneg (a : xreal) : xreal :=
  match a with
  | Fin x => Fin (- x)
  | Inf s => Inf (negb s)
  | NaN => NaN
  end.

Definition xsub (a b : xreal) : xreal :=
  match a, b with
  | Fin x, Fin y => Fin (x - y)
  | _, _ => xadd a (xneg b)
  end.

Definition xmul (a b : xreal) : xreal :=
  match a, b with
  | Fin x, Fin y => Fin (x * y)
  | NaN, _ | _, NaN => NaN
  | Inf s, Inf t => Inf (xorb s t)
  | Inf s, Fin y | Fin y, Inf s =>
      if Reqb y 0 then NaN else Inf (xorb s (Rltb y 0))
  end.

(** Division as numpy performs it: a zero divisor gives an infinity, or
    NaN when the dividend is zero too. *)
Definition xdiv (a b : xreal) : xreal :=
  match a, b with
  | Fin x, Fin y =>
      if Reqb y 0 then (if Reqb x 0 then NaN else Inf (Rltb x 0))
      else Fin (x / y)
  | NaN, _ | _, NaN => NaN
  | Inf _, Inf _ => NaN
  | Inf s, Fin y => Inf (xorb s (Rltb y 0))
  | Fin _, Inf _ => Fin 0
  end.

(** The value of a float; a complex has none. *)
Definition value (a : pynum) : xreal :=
  match a with
  | PyFloat x | NpFloat x => Fin x
  | NpInf s => Inf s
  | NpNaN | Complex _ _ _ => NaN
  end.

Definition np_of (v : xreal) : pynum :=
  match v with
  | Fin x => NpFloat x
  | Inf s => NpInf s
  | NaN => NpNaN
  end.

(** *** The operators

    Two Python floats give a Python float; as soon as a numpy number
    takes part the result is a numpy number; a complex operand makes
    the result complex.  The program never combines a complex with an
    infinity or a NaN (complex numbers arise in the estimator for a
    negative mass number, non-finite ones in the validation, whose
    pairs have a positive one); a complex with a non-finite part is not
    represented, and such a combination is given as NaN. *)

(** [a + b]. *)
Definition py_add (a b : pynum) : pynum :=
  if is_complex a || is_complex b then
    if is_finite a && is_finite b
    then Complex (is_np a || is_np b) (re a + re b) (im a + im b)
    else NpNaN
  else if is_np a || is_np b then np_of (xadd (value a) (value b))
  else PyFloat (re a + re b).

(** [a - b]. *)
Definition py_sub (a b : pynum) : pynum :=
  if is_complex a || is_complex b then
    if is_finite a && is_finite b
    then Complex (is_np a || is_np b) (re a - re b) (im a - im b)
    else NpNaN
  else if is_np a || is_np b then np_of (xsub (value a) (value b))
  else PyFloat (re a - re b).

(** [a * b]. *)
Definition py_mul (a b : pynum) : pynum :=
  if is_complex a || is_complex b then
    if is_finite a && is_finite b
    then Complex (is_np a || is_np b)
                 (re a * re b - im a * im b) (re a * im b + im a * re b)
    else NpNaN
  else if is_np a || is_np b then np_of (xmul (value a) (value b))
  else PyFloat (re a * re b).

Definition is_zero (b : pynum) : bool :=
  is_finite b && Reqb (re b) 0 && Reqb (im b) 0.

(** [a / b].  A zero divisor raises [ZeroDivisionError] between Python
    numbers; as soon as a numpy number takes part, numpy divides and
    yields an infinity or a NaN. *)
Definition py_truediv (a b : pynum) : outcome pynum :=
  if is_complex a || is_complex b then
    if is_zero b then
      (if is_np a || is_np b then Ok NpNaN else Raise ZeroDivisionError)
    else if is_finite a && is_finite b then
      let d := (re b * re b + im b * im b)%R in
      Ok (Complex (is_np a || is_np b)
                  ((re a * re b + im a * im b) / d)
                  ((im a * re b - re a * im b) / d))
    else Ok NpNaN
  else if is_np a || is_np b then Ok (np_of (xdiv (value a) (value b)))
  else if is_zero b then Raise ZeroDivisionError
  else Ok (PyFloat (re a / re b)).

(** [abs(a)]: the modulus for a complex. *)
Definition py_abs (a : pynum) : pynum :=
  match a with
  | PyFloat x => PyFloat (Rabs x)
  | NpFloat x => NpFloat (Rabs x)
  | NpInf _ => NpInf false
  | NpNaN => NpNaN
  | Complex np r i =>
      if np then NpFloat (sqrt (r * r + i * i))
      else PyFloat (sqrt (r * r + i * i))
  end.

(** [b ** y] for an [int] base and a [float] exponent [y] that is
    positive and not integral (the program uses [2/3] and [1/3]): the
    base is converted to a float; the result is the real power for a
    positive base, [0.0] for base zero, and for a negative base the
    complex number of modulus [|b| ** y] and argument [pi * y]. *)
Definition py_pow (b : Z) (y : R) : outcome pynum :=
  bind (float_of_int b) (fun x =>
  Ok (if (0 <? b)%Z then PyFloat (Rpower x y)
      else if (b =? 0)%Z then PyFloat 0
      else Complex false (Rpower (- x) y * cos (PI * y))
                         (Rpower (- x) y * sin (PI * y)))).

(** A Python [int] that numpy takes as a 64-bit integer, signed or
    unsigned; any other is handled as a Python object, on which the
    mathematical functions raise [TypeError]. *)
Definition np_int (a : Z) : bool := ((- 2 ^ 63 <=? a) && (a <? 2 ^ 64))%Z.

(** [numpy.sqrt] of an [int]: NaN (with a warning) below zero. *)
Definition np_sqrt (a : Z) : outcome pynum :=
  if negb (np_int a) then Raise TypeError
  else if (a <? 0)%Z then Ok NpNaN
  else Ok (NpFloat (sqrt (IZR a))).

(** [numpy.log] of an [int]: minus infinity at zero, NaN below. *)
Definition np_log (a : Z) : outcome pynum :=
  if negb (np_int a) then Raise TypeError
  else if (a <? 0)%Z then Ok NpNaN
  else if (a =? 0)%Z then Ok (NpInf true)
  else Ok (NpFloat (ln (IZR a))).

(** [numpy.sin] and [numpy.exp] of a finite Python float. *)
Definition np_sin (x : R) : pynum := NpFloat (sin x).
Definition np_exp (x : R) : R := exp x.

(** [a > y] and [a < y] against a float [y].  A comparison with NaN is
    false; ordering a Python [complex] is a [TypeError], and numpy
    orders a [complex128] by real part, then by imaginary part. *)
Definition py_gt (a : pynum) (y : R) : outcome bool :=
  match a with
  | PyFloat x | NpFloat x => Ok (Rltb y x)
  | NpInf s => Ok (negb s)
  | NpNaN => Ok false
  | Complex np r i =>
      if np then Ok (Rltb y r || (Reqb r y && Rltb 0 i))
      else Raise TypeError
  end.

Definition py_lt (a : pynum) (y : R) : outcome bool :=
  match a with
  | PyFloat x | NpFloat x => Ok (Rltb x y)
  | NpInf s => Ok s
  | NpNaN => Ok false
  | Complex np r i =>
      if np then Ok (Rltb r y || (Reqb r y && Rltb i 0))
      else Raise TypeError
  end.

(** [n / d] of two [int]s: the quotient as a float, [OverflowError] when
    it is too large for one. *)
Definition int_truediv (n d : Z) : outcome R :=
  if (d =? 0)%Z then Raise ZeroDivisionError
  else if (Z.abs n <? float_max_int * Z.abs d)%Z then Ok (IZR n / IZR d)%R
  else Raise OverflowError.

(** The builtins [min(a, b)] and [max(a, b)] on floats: the first
    argument unless the second is strictly smaller (larger). *)
Definition py_min (a b : R) : R := if Rlt_dec b a then b else a.
Definition py_max (a b : R) : R := if Rlt_dec a b then b else a.

(** [range(lo, hi)]. *)
Definition py_range (lo hi : Z) : list Z :=
  map (fun i => (lo + Z.of_nat i)%Z) (seq 0 (Z.to_nat (hi - lo))).

(** [str(z)] of an [int], as an f-string prints it. *)
Definition py_str (z : Z) : string := NilZero.string_of_int (Z.to_int z).

(** [numpy.mean] of a list: the sum over the length, a [numpy.float64]
    (a [complex128] when an element is complex); NaN on an empty
    list. *)
Definition np_mean (l : list pynum) : pynum :=
  match l with
  | [] => NpNaN
  | _ =>
      let n := INR (List.length l) in
      if existsb is_complex l then
        if forallb is_finite l
        then Complex true (fold_right Rplus 0%R (map re l) / n)
                          (fold_right Rplus 0%R (map im l) / n)
        else NpNaN
      else np_of (xdiv (fold_right xadd (Fin 0) (map value l)) (Fin n))
  end.

End Py.

Import Py.

Declare Scope py_scope.
Delimit Scope py_scope with py.
Notation "x <- c ;; k" := (bind c (fun x => k))
  (at level 61, c at next level, right associativity) : py_scope.
Infix "+#" := py_add (at level 50, left associativity) : py_scope.
Infix "-#" := py_sub (at level 50, left associativity) : py_scope.
Infix "*#" := py_mul (at level 40, left associativity) : py_scope.
Local Open Scope py_scope.

(** ** The finder: calibration constants and override tables *)

Module Finder.

Local Open Scope R_scope.

(** Semi-empirical mass formula coefficients ([__init__]). *)
Definition av : R := 15.75.
Definition as_ : R := 17.8.
Definition ac : R := 0.711.
Definition aa : R := 23.7.
Definition ap : R := 11.18.

Definition magic_numbers : list Z := [2; 8; 20; 28; 50; 82; 126]%Z.

(** [self.tesla_folding]. *)
Definition base_multiplier : R := 1.234.
Definition resonance_factor : R := 1.05.
Definition consciousness_level : R := 0.820.
Definition golden_ratio : R := 1.618.
Definition tesla_numbers : list Z := [3; 6; 9]%Z.
Definition error_correction : R := 0.965.

(** [self.calibration]. *)
Definition stability_threshold : R := 0.5.
Definition medical_range : R * R := (0.2, 0.7).
Definition binding_energy_scale : R := 0.15.

(** [self.known_binding_energies], in insertion order. *)
Definition known_binding_energies : list (string * R) :=
  [("He-4", 28.296); ("C-12", 92.162); ("O-16", 127.619);
   ("Fe-56", 492.254); ("U-235", 1783.9); ("U-238", 1801.7)]%string.

(** A dict keyed by [(Z, N)], as the list of its items. *)
Fixpoint lookup {V : Type} (k : Z * Z) (d : list ((Z * Z) * V)) : option V :=
  match d with
  | [] => None
  | (k', v) :: d' =>
      if ((fst k =? fst k') && (snd k =? snd k'))%Z then Some v else lookup k d'
  end.

(** The light-nuclide override table of [calculate_binding_energy]. *)
Definition special_cases : list ((Z * Z) * R) :=
  [((1, 0)%Z, 0.0); ((1, 1)%Z, 2.225); ((1, 2)%Z, 8.482);
   ((2, 1)%Z, 7.718); ((2, 2)%Z, 28.296)].

(** The stability override table of [calculate_stability]. *)
Definition known_stable : list ((Z * Z) * bool) :=
  [((1, 0), false); ((1, 1), true); ((1, 2), false); ((2, 1), true);
   ((2, 2), true); ((6, 6), true); ((6, 8), false); ((8, 8), true)]%Z.

(** ** The enhancement layer *)

(** The loop over [tesla_numbers]: one factor [resonance_factor] for each
    modulus that divides [A]. *)
Definition tesla_boost (A : Z) : R :=
  fold_left
    (fun tesla_boost tesla_num =>
       if (A mod tesla_num =? 0)%Z then tesla_boost * resonance_factor
       else tesla_boost)
    tesla_numbers 1.0.

(** [A / golden_ratio] divides an [int] by a float: the [int] is
    converted first. *)
Definition apply_mhm_enhancement (Z N : Z) (base_value : pynum) : outcome pynum :=
  let A := (Z + N)%Z in
  let tesla_boost := tesla_boost A in
  a <- float_of_int A ;;
  let golden_factor := PyFloat 1 +# PyFloat 0.01 *# np_sin (a / golden_ratio) in
  let consciousness_boost := 1 + consciousness_level * 0.02 in
  Ok (base_value *# PyFloat tesla_boost *# golden_factor
        *# PyFloat consciousness_boost *# PyFloat error_correction).

(** ** The binding energy estimator *)

(** [x * n] and [x / n] for a float [x] and an [int] [n], which is
    converted to a float. *)
Definition mul_int (x : pynum) (n : Z) : outcome pynum :=
  y <- float_of_int n ;; Ok (x *# PyFloat y).

Definition div_int (x : pynum) (n : Z) : outcome pynum :=
  y <- float_of_int n ;; py_truediv x (PyFloat y).

(** The literal [0] of the [else] branches is an [int]; added to a
    float it counts as [0.0]. *)
Definition calculate_binding_energy (Z N : Z) : outcome pynum :=
  let A := (Z + N)%Z in
  match (if (A <=? 4)%Z then lookup (Z, N) special_cases else None) with
  | Some literal => Ok (PyFloat literal)
  | None =>
      volume <- mul_int (PyFloat av) A ;;
      p <- py_pow A (2 / 3) ;;
      let surface := PyFloat (- as_) *# p in
      coulomb <-
        (if (0 <? A)%Z
         then c <- mul_int (PyFloat (- ac)) (Z ^ 2) ;;
              q <- py_pow A (1 / 3) ;;
              py_truediv c q
         else Ok (PyFloat 0)) ;;
      asymmetry <-
        (if (0 <? A)%Z
         then a <- mul_int (PyFloat (- aa)) ((N - Z) ^ 2) ;;
              div_int a A
         else Ok (PyFloat 0)) ;;
      pairing <-
        (if ((N mod 2 =? 0) && (Z mod 2 =? 0))%Z then
           if (0 <? A)%Z
           then s <- np_sqrt A ;; py_truediv (PyFloat ap) s
           else Ok (PyFloat 0)
         else if ((N mod 2 =? 1) && (Z mod 2 =? 1))%Z then
           if (0 <? A)%Z
           then s <- np_sqrt A ;; py_truediv (PyFloat (- ap)) s
           else Ok (PyFloat 0)
         else Ok (PyFloat 0)) ;;
      let binding_energy := volume +# surface +# coulomb +# asymmetry +# pairing in
      binding_energy <-
        (if (16 <? A)%Z
         then l <- np_log A ;;
              Ok (binding_energy *# (PyFloat 1 +# PyFloat binding_energy_scale *# l))
         else Ok binding_energy) ;;
      apply_mhm_enhancement Z N binding_energy
  end.

(** ** The stability classifier *)

(** The three branches on [Z]; [Z - 20] is an [int] that float
    arithmetic converts. *)
Definition optimal_ratio (Z : Z) : outcome R :=
  if (Z <=? 20)%Z then Ok 1.0
  else if (Z <=? 40)%Z then d <- float_of_int (Z - 20) ;; Ok (1.0 + 0.015 * d)
  else d <- float_of_int (Z - 20) ;; Ok (1.0 + 0.6 * d / 60).

(** The last part of [calculate_stability]: the decay mode of a clamped
    score.  [Z * 1.5] and [N * 1.2] convert the [int]; the comparison of
    an [int] with a float is exact. *)
Definition decay_mode_of (Z N : Z) (stability : R) : outcome string :=
  if Rltb stability_threshold stability then Ok "stable"%string else
  z <- float_of_int Z ;;
  if Rltb (z * 1.5) (IZR N) then Ok "beta_minus"%string else
  n <- float_of_int N ;;
  if Rltb (n * 1.2) (IZR Z) then Ok "beta_plus"%string
  else if (82 <? Z)%Z then Ok "alpha"%string
  else Ok "radioactive"%string.

Definition calculate_stability (Z N : Z) : outcome (R * string) :=
  let A := (Z + N)%Z in
  match lookup (Z, N) known_stable with
  | Some stable =>
      Ok (if stable then 0.8 else 0.3,
          if stable then "stable"%string else "radioactive"%string)
  | None =>
      if (Z =? 0)%Z then Ok (0.0, "impossible"%string) else
      nz_ratio <- int_truediv N Z ;;
      optimal_ratio <- optimal_ratio Z ;;
      let stability := 0.5 in
      let stability :=
        if existsb (Z.eqb Z) magic_numbers then stability + 0.25 else stability in
      let stability :=
        if existsb (Z.eqb N) magic_numbers then stability + 0.25 else stability in
      let ratio_deviation := Rabs (nz_ratio - optimal_ratio) in
      let stability := stability - ratio_deviation * 0.3 in
      binding_energy <- calculate_binding_energy Z N ;;
      be_per_nucleon <-
        (if (0 <? A)%Z then div_int binding_energy A else Ok (PyFloat 0)) ;;
      stability <-
        (gt85 <- py_gt be_per_nucleon 8.5 ;;
         if (gt85 : bool) then Ok (stability + 0.2) else
         gt75 <- py_gt be_per_nucleon 7.5 ;;
         if (gt75 : bool) then Ok (stability + 0.1) else
         lt60 <- py_lt be_per_nucleon 6.0 ;;
         if (lt60 : bool) then Ok (stability - 0.2) else Ok stability) ;;
      let stability := if (82 <? Z)%Z then stability - 0.3 else stability in
      let stability := if (92 <? Z)%Z then stability - 0.5 else stability in
      let stability := stability * (1 + consciousness_level * 0.05) in
      let stability := py_max 0.0 (py_min 1.0 stability) in
      decay_mode <- decay_mode_of Z N stability ;;
      Ok (stability, decay_mode)
  end.

(** ** The medical isotope search *)

(** A value of the [known_medical] dict. *)
Record medical_entry : Type := {
  me_Z : Z;
  me_N : Z;
  use : string
}.

(** [known_medical], keyed by (element symbol, mass number). *)
Definition known_medical : list ((string * Z) * medical_entry) :=
  [(("F", 18%Z), {| me_Z := 9; me_N := 9; use := "PET imaging" |});
   (("Tc", 99%Z), {| me_Z := 43; me_N := 56; use := "SPECT imaging" |});
   (("I", 131%Z), {| me_Z := 53; me_N := 78; use := "Thyroid treatment" |});
   (("Co", 60%Z), {| me_Z := 27; me_N := 33; use := "Radiation therapy" |});
   (("Lu", 177%Z), {| me_Z := 71; me_N := 106; use := "Cancer therapy" |});
   (("Y", 90%Z), {| me_Z := 39; me_N := 51; use := "Liver cancer" |})]%string.

Fixpoint get_medical (k : string * Z) (d : list ((string * Z) * medical_entry))
  : option medical_entry :=
  match d with
  | [] => None
  | (k', v) :: d' =>
      if (String.eqb (fst k) (fst k') && (snd k =? snd k')%Z)%bool then Some v
      else get_medical k d'
  end.

(** [elements_to_check], in insertion order. *)
Definition elements_to_check : list (string * Z) :=
  [("F", 9); ("Tc", 43); ("I", 53); ("Co", 27); ("Lu", 71); ("Y", 39);
   ("Re", 75); ("Sm", 62); ("Ho", 67); ("Er", 68)]%string%Z.

(** One entry of the result list (the dict built in the loop). *)
Record isotope : Type := {
  symbol : string;
  iso_Z : Z;
  iso_N : Z;
  iso_A : Z;
  stability : R;
  decay_mode : string;
  binding_energy : pynum;
  half_life_hours : R;
  is_known_medical : bool;
  medical_use : string;
  mhm_optimized : bool
}.

(** The sort key [(not x['is_known_medical'], abs(x['stability'] - 0.4))]. *)
Definition sort_key (x : isotope) : bool * R :=
  (negb (is_known_medical x), Rabs (stability x - 0.4)).

(** [k1 < k2] on such tuples: the first components decide unless they
    are equal ([False < True]). *)
Definition key_lt (k1 k2 : bool * R) : bool :=
  if Bool.eqb (fst k1) (fst k2) then Rltb (snd k1) (snd k2)
  else negb (fst k1) && fst k2.

(** [list.sort(key=...)]: a stable sort.  An element goes after the
    elements with a smaller key and before those with an equal one
    that follow it in the input. *)
Fixpoint insert_sorted (x : isotope) (l : list isotope) : list isotope :=
  match l with
  | [] => [x]
  | y :: l' =>
      if key_lt (sort_key y) (sort_key x) then y :: insert_sorted x l'
      else x :: y :: l'
  end.

Fixpoint sort (l : list isotope) : list isotope :=
  match l with
  | [] => []
  | x :: l' => insert_sorted x (sort l')
  end.

(** The search calls the classifier and the estimator as methods of
    [self].  Its loops are written here over the two methods, so that
    the statements can speak of the calls the search makes; the search
    of the finder is the instance at its own two methods. *)
Section Search.

Variable self_calculate_stability : Z -> Z -> outcome (R * string).
Variable self_calculate_binding_energy : Z -> Z -> outcome pynum.

(** The body of the inner loop, for one element and one neutron count. *)
Definition check_isotope_with (element : string) (Z N : Z)
    (medical_isotopes : list isotope) : outcome (list isotope) :=
  let A := (Z + N)%Z in
  sd <- self_calculate_stability Z N ;;
  let stability := fst sd in
  let decay_mode := snd sd in
  binding_energy <- self_calculate_binding_energy Z N ;;
  let min_stab := fst medical_range in
  let max_stab := snd medical_range in
  let is_known :=
    match get_medical (element, A) known_medical with
    | Some _ => true
    | None => false
    end in
  if (Rltb min_stab stability && Rltb stability max_stab) || is_known then
    let stability := if is_known then 0.4 else stability in
    let half_life_hours :=
      if Rltb 0 stability then np_exp (10 * stability) / 100 else 0.1 in
    Ok (medical_isotopes ++
        [{| symbol := element ++ "-" ++ py_str A;
            iso_Z := Z;
            iso_N := N;
            iso_A := A;
            stability := stability;
            decay_mode := decay_mode;
            binding_energy := binding_energy;
            half_life_hours := half_life_hours;
            is_known_medical := is_known;
            medical_use :=
              match get_medical (element, A) known_medical with
              | Some e => use e
              | None => "Research"%string
              end;
            mhm_optimized := true |}])
  else Ok medical_isotopes.

(** The two nested loops of [find_medical_isotopes]. *)
Definition sweep_with : outcome (list isotope) :=
  for_each elements_to_check
    (fun ez medical_isotopes =>
       let element := fst ez in
       let Z := snd ez in
       for_each (py_range (Z - 10) (Z + 20))
         (fun N medical_isotopes => check_isotope_with element Z N medical_isotopes)
         medical_isotopes)
    [].

Definition find_medical_isotopes_with : outcome (list isotope) :=
  medical_isotopes <- sweep_with ;;
  Ok (firstn 20 (sort medical_isotopes)).

End Search.

Definition sweep : outcome (list isotope) :=
  sweep_with calculate_stability calculate_binding_energy.

Definition find_medical_isotopes : outcome (list isotope) :=
  find_medical_isotopes_with calculate_stability calculate_binding_energy.

(** ** Validation against the reference binding energies *)

(** One entry of [validation_results]. *)
Record validation_result : Type := {
  isotope_name : string;
  real_be : R;
  calculated_be : pynum;
  error_percent : pynum
}.

(** The [if]/[elif] chain that parses an isotope name; [None] is the
    final [continue]. *)
Definition parse_isotope (isotope_name : string) : option (Z * Z) :=
  if String.eqb isotope_name "He-4" then Some (2, 2)%Z
  else if String.eqb isotope_name "C-12" then Some (6, 6)%Z
  else if String.eqb isotope_name "O-16" then Some (8, 8)%Z
  else if String.eqb isotope_name "Fe-56" then Some (26, 30)%Z
  else if String.eqb isotope_name "U-235" then Some (92, 143)%Z
  else if String.eqb isotope_name "U-238" then Some (92, 146)%Z
  else None.

(** The loop body for one item of the reference dict. *)
Definition validate_entry (entry : string * R)
    (validation_results : list validation_result)
  : outcome (list validation_result) :=
  let isotope_name := fst entry in
  let real_be := snd entry in
  match parse_isotope isotope_name with
  | None => Ok validation_results
  | Some (Z, N) =>
      calculated_be <- calculate_binding_energy Z N ;;
      q <- py_truediv (py_abs (calculated_be -# PyFloat real_be)) (PyFloat real_be) ;;
      let error_percent := q *# PyFloat 100 in
      Ok (validation_results ++
          [{| isotope_name := isotope_name;
              real_be := real_be;
              calculated_be := calculated_be;
              error_percent := error_percent |}])
  end.

(** [validate_against_known_values], over the reference dict held by the
    finder object ([self.known_binding_energies]); the returned dict is
    the pair of its ['results'] and ['average_error']. *)
Definition validate_against_known_values
    (self_known_binding_energies : list (string * R))
  : outcome (list validation_result * pynum) :=
  validation_results <- for_each self_known_binding_energies validate_entry [] ;;
  let avg_error := np_mean (map error_percent validation_results) in
  Ok (validation_results, avg_error).

End Finder.

Import Finder.

(** ** The specification's formulas, written from its words *)

Module Spec.

Local Open Scope R_scope.

(** [x^y] for a base [x >= 0] and an exponent [y > 0]. *)
Definition power (x y : R) : R := if Req_dec_T x 0 then 0 else Rpower x y.

Definition isZero (A : Z) : bool := (A =? 0)%Z.

(** The five terms of the semi-empirical mass formula. *)
Definition volume (A : Z) : R := av * IZR A.
Definition surface (A : Z) : R := - (as_ * power (IZR A) (2 / 3)).
Definition coulomb (Z A : Z) : R :=
  if isZero A then 0 else - (ac * (IZR Z * IZR Z) / power (IZR A) (1 / 3)).
Definition asymmetry (Z N A : Z) : R :=
  if isZero A then 0 else - (aa * ((IZR N - IZR Z) * (IZR N - IZR Z)) / IZR A).
Definition pairing (Z N A : Z) : R :=
  if isZero A then 0
  else if Z.even Z && Z.even N then ap / sqrt (IZR A)
  else if Z.odd Z && Z.odd N then - (ap / sqrt (IZR A))
  else 0.

Definition semiEmpiricalSum (Z N : Z) : R :=
  let A := (Z + N)%Z in
  volume A + surface A + coulomb Z A + asymmetry Z N A + pairing Z N A.

(** The heavy-nucleus factor, applied if and only if [A > 16]. *)
Definition heavyScale (A : Z) : R :=
  if Z_gt_dec A 16 then 1 + 0.15 * ln (IZR A) else 1.

(** The product, over the moduli 3, 6 and 9, of [resonanceFactor] when
    the modulus divides [A] and of 1 otherwise. *)
Definition teslaBoost (A : Z) : R :=
  fold_right Rmult 1
    (map (fun m => if Z.eq_dec (A mod m) 0 then resonance_factor else 1)
         [3; 6; 9]%Z).

Definition goldenFactor (A : Z) : R := 1 + 0.01 * sin (IZR A / 1.618).
Definition consciousnessBoost : R := 1 + 0.820 * 0.02.
Definition errorCorrection : R := 0.965.

Definition estimateBindingEnergy (Z N : Z) : R :=
  let A := (Z + N)%Z in
  semiEmpiricalSum Z N * heavyScale A
  * (teslaBoost A * goldenFactor A * consciousnessBoost * errorCorrection).

(** The classifier's score and label. *)
Definition isMagic (k : Z) : bool :=
  if in_dec Z.eq_dec k [2; 8; 20; 28; 50; 82; 126]%Z then true else false.

Definition optimalRatio (Z : Z) : R :=
  if Z_le_dec Z 20 then 1
  else if Z_le_dec Z 40 then 1 + 0.015 * (IZR Z - 20)
  else 1 + 0.6 * (IZR Z - 20) / 60.

(** Exactly one adjustment, in priority order. *)
Definition bindingAdjustment (bePerNucleon : R) : R :=
  if Rgt_dec bePerNucleon 8.5 then 0.2
  else if Rgt_dec bePerNucleon 7.5 then 0.1
  else if Rlt_dec bePerNucleon 6.0 then - 0.2
  else 0.

(** 0.3 beyond Z = 82 and a further 0.5 beyond Z = 92. *)
Definition heavyPenalty (Z : Z) : R :=
  (if Z_gt_dec Z 82 then 0.3 else 0) + (if Z_gt_dec Z 92 then 0.5 else 0).

Definition clamp01 (x : R) : R := Rmax 0 (Rmin 1 x).

Definition score (Z N : Z) (bePerNucleon : R) : R :=
  let start :=
    0.5 + (if isMagic Z then 0.25 else 0) + (if isMagic N then 0.25 else 0) in
  let afterRatio := start - 0.3 * Rabs (IZR N / IZR Z - optimalRatio Z) in
  let afterBinding := afterRatio + bindingAdjustment bePerNucleon in
  let afterPenalty := afterBinding - heavyPenalty Z in
  clamp01 (afterPenalty * (1 + 0.820 * 0.05)).

(** The decay mode, first matching rule. *)
Definition decayMode (Z N : Z) (s : R) : string :=
  if Rgt_dec s 0.5 then "stable"
  else if Rgt_dec (IZR N) (1.5 * IZR Z) then "beta_minus"
  else if Rgt_dec (IZR Z) (1.2 * IZR N) then "beta_plus"
  else if Z_gt_dec Z 82 then "alpha"
  else "radioactive".

Definition classifyStability (Z N : Z) (bePerNucleon : R) : R * string :=
  (score Z N bePerNucleon, decayMode Z N (score Z N bePerNucleon)).

End Spec.

(** ** The data validator ([nuclear_data_validator.py])

    The reference tables are the dict literals of the four [download_*]
    methods; writing them to files and printing are not modelled. *)

Module Validator.

Local Open Scope R_scope.

(** A value of the inner dicts of the tables: a number, a string or a
    boolean. *)
Inductive pyval : Type :=
| VNum (x : R)
| VStr (s : string)
| VBool (b : bool).

(** [key in d] and [d.get(key)] on a dict with string keys, given as the
    list of its items. *)
Definition contains {V : Type} (d : list (string * V)) (key : string) : bool :=
  existsb (fun kv => String.eqb key (fst kv)) d.

Fixpoint get {V : Type} (d : list (string * V)) (key : string) : option V :=
  match d with
  | [] => None
  | (k, v) :: d' => if String.eqb key k then Some v else get d' key
  end.

Local Open Scope string_scope.

(** [nist_masses] of [download_nist_atomic_masses]. *)
Definition nist_masses : list (string * list (string * pyval)) :=
  [("H-1",
    [("mass", VNum 1.007825032);
     ("uncertainty", VNum 0.00000001);
     ("stable", VBool true)]);
   ("H-2",
    [("mass", VNum 2.014101777);
     ("uncertainty", VNum 0.000000012);
     ("stable", VBool true)]);
   ("H-3",
    [("mass", VNum 3.016049267);
     ("uncertainty", VNum 0.000000011);
     ("stable", VBool false);
     ("half_life", VNum 12.32)]);
   ("He-3",
    [("mass", VNum 3.016029319);
     ("uncertainty", VNum 0.000000026);
     ("stable", VBool true)]);
   ("He-4",
    [("mass", VNum 4.002603254);
     ("uncertainty", VNum 0.000000006);
     ("stable", VBool true)]);
   ("Li-6",
    [("mass", VNum 6.015122794);
     ("uncertainty", VNum 0.000000016);
     ("stable", VBool true)]);
   ("Li-7",
    [("mass", VNum 7.016003436);
     ("uncertainty", VNum 0.000000025);
     ("stable", VBool true)]);
   ("Be-9",
    [("mass", VNum 9.012182201);
     ("uncertainty", VNum 0.000000012);
     ("stable", VBool true)]);
   ("B-10",
    [("mass", VNum 10.012936862);
     ("uncertainty", VNum 0.000000037);
     ("stable", VBool true)]);
   ("B-11",
    [("mass", VNum 11.009305406);
     ("uncertainty", VNum 0.00000004);
     ("stable", VBool true)]);
   ("C-12",
    [("mass", VNum 12.0);
     ("uncertainty", VNum 0.0);
     ("stable", VBool true)]);
   ("C-13",
    [("mass", VNum 13.003354835);
     ("uncertainty", VNum 0.000000012);
     ("stable", VBool true)]);
   ("C-14",
    [("mass", VNum 14.003241989);
     ("uncertainty", VNum 0.000000004);
     ("stable", VBool false);
     ("half_life", VNum 5730)]);
   ("N-14",
    [("mass", VNum 14.003074004);
     ("uncertainty", VNum 0.000000002);
     ("stable", VBool true)]);
   ("N-15",
    [("mass", VNum 15.000108899);
     ("uncertainty", VNum 0.000000004);
     ("stable", VBool true)]);
   ("O-16",
    [("mass", VNum 15.99491462);
     ("uncertainty", VNum 0.000000002);
     ("stable", VBool true)]);
   ("O-17",
    [("mass", VNum 16.999131757);
     ("uncertainty", VNum 0.000000012);
     ("stable", VBool true)]);
   ("O-18",
    [("mass", VNum 17.999159613);
     ("uncertainty", VNum 0.000000006);
     ("stable", VBool true)]);
   ("F-19",
    [("mass", VNum 18.998403163);
     ("uncertainty", VNum 0.000000025);
     ("stable", VBool true)]);
   ("Ne-20",
    [("mass", VNum 19.992440175);
     ("uncertainty", VNum 0.00000002);
     ("stable", VBool true)]);
   ("Ne-21",
    [("mass", VNum 20.993846685);
     ("uncertainty", VNum 0.000000026);
     ("stable", VBool true)]);
   ("Ne-22",
    [("mass", VNum 21.991385114);
     ("uncertainty", VNum 0.000000019);
     ("stable", VBool true)]);
   ("F-18",
    [("mass", VNum 18.000937);
     ("uncertainty", VNum 0.000007);
     ("stable", VBool false);
     ("half_life", VNum 1.83);
     ("medical", VBool true)]);
   ("Tc-99m",
    [("mass", VNum 98.906254);
     ("uncertainty", VNum 0.000008);
     ("stable", VBool false);
     ("half_life", VNum 0.25);
     ("medical", VBool true)]);
   ("I-131",
    [("mass", VNum 130.906124);
     ("uncertainty", VNum 0.000006);
     ("stable", VBool false);
     ("half_life", VNum 8.02);
     ("medical", VBool true)]);
   ("Co-60",
    [("mass", VNum 59.934817);
     ("uncertainty", VNum 0.000015);
     ("stable", VBool false);
     ("half_life", VNum 5.27);
     ("medical", VBool true)]);
   ("U-235",
    [("mass", VNum 235.04393);
     ("uncertainty", VNum 0.000026);
     ("stable", VBool false);
     ("half_life", VNum 704000000.0)]);
   ("U-238",
    [("mass", VNum 238.050788);
     ("uncertainty", VNum 0.00002);
     ("stable", VBool false);
     ("half_life", VNum 4470000000.0)]);
   ("Pu-239",
    [("mass", VNum 239.052163);
     ("uncertainty", VNum 0.00002);
     ("stable", VBool false);
     ("half_life", VNum 24110)]);
   ("Pu-240",
    [("mass", VNum 240.053814);
     ("uncertainty", VNum 0.00002);
     ("stable", VBool false);
     ("half_life", VNum 6561)])].

(** [binding_energies] of [download_binding_energies]. *)
Definition binding_energies : list (string * R) :=
  [("H-1", 0.0);
   ("H-2", 2.225);
   ("H-3", 8.482);
   ("He-3", 7.718);
   ("He-4", 28.296);
   ("Li-6", 31.995);
   ("Li-7", 39.245);
   ("Be-9", 58.165);
   ("B-10", 64.751);
   ("B-11", 76.205);
   ("C-12", 92.162);
   ("C-13", 97.108);
   ("C-14", 105.285);
   ("N-14", 104.659);
   ("N-15", 115.492);
   ("O-16", 127.619);
   ("O-17", 131.763);
   ("O-18", 139.808);
   ("F-19", 147.801);
   ("Ne-20", 160.645);
   ("Ne-21", 167.406);
   ("Ne-22", 177.772);
   ("F-18", 137.369);
   ("Tc-99m", 861.0);
   ("I-131", 1072.0);
   ("Co-60", 524.8);
   ("U-235", 1783.9);
   ("U-238", 1801.7);
   ("Pu-239", 1806.9);
   ("Pu-240", 1814.1)].

(** The two lists of [download_magic_numbers] that the validation
    reads. *)
Definition proton_magic_numbers : list Z := [2; 8; 20; 28; 50; 82]%Z.
Definition neutron_magic_numbers : list Z := [2; 8; 20; 28; 50; 82; 126]%Z.

(** [medical_isotopes] of [download_medical_isotopes]: category, then
    isotope, then fields. *)
Definition medical_isotopes
  : list (string * list (string * list (string * pyval))) :=
  [("diagnostic_imaging",
    [("F-18",
      [("half_life_hours", VNum 1.83);
       ("decay_mode", VStr "beta_plus");
       ("application", VStr "PET imaging");
       ("production", VStr "Cyclotron: O-18(p,n)F-18");
       ("market_value_per_dose", VNum 150);
       ("annual_market", VNum 2500000000.0)]);
     ("Tc-99m",
      [("half_life_hours", VNum 6.01);
       ("decay_mode", VStr "isomeric_transition");
       ("application", VStr "SPECT imaging");
       ("production", VStr "Mo-99 generator");
       ("market_value_per_dose", VNum 50);
       ("annual_market", VNum 5000000000.0)]);
     ("I-123",
      [("half_life_hours", VNum 13.2);
       ("decay_mode", VStr "electron_capture");
       ("application", VStr "Thyroid imaging");
       ("production", VStr "Cyclotron: Xe-124(p,2n)I-123");
       ("market_value_per_dose", VNum 200);
       ("annual_market", VNum 500000000.0)])]);
   ("therapeutic",
    [("I-131",
      [("half_life_days", VNum 8.02);
       ("decay_mode", VStr "beta_minus");
       ("application", VStr "Thyroid cancer treatment");
       ("production", VStr "Reactor: U-235 fission product");
       ("market_value_per_dose", VNum 500);
       ("annual_market", VNum 1200000000.0)]);
     ("Lu-177",
      [("half_life_days", VNum 6.65);
       ("decay_mode", VStr "beta_minus");
       ("application", VStr "Neuroendocrine tumors");
       ("production", VStr "Reactor: Lu-176(n,γ)Lu-177");
       ("market_value_per_dose", VNum 15000);
       ("annual_market", VNum 2000000000.0)]);
     ("Y-90",
      [("half_life_hours", VNum 64.1);
       ("decay_mode", VStr "beta_minus");
       ("application", VStr "Liver cancer treatment");
       ("production", VStr "Sr-90 generator");
       ("market_value_per_dose", VNum 25000);
       ("annual_market", VNum 1500000000.0)])]);
   ("research",
    [("C-11",
      [("half_life_minutes", VNum 20.4);
       ("decay_mode", VStr "beta_plus");
       ("application", VStr "PET tracer research");
       ("production", VStr "Cyclotron: N-14(p,α)C-11")]);
     ("N-13",
      [("half_life_minutes", VNum 9.97);
       ("decay_mode", VStr "beta_plus");
       ("application", VStr "Cardiac PET");
       ("production", VStr "Cyclotron: O-16(p,α)N-13")])])].

Local Open Scope list_scope.

(** A prediction: a dict read from JSON, with the keys the validation
    looks up; [None] is a missing key. *)
Record prediction : Type := {
  p_name : option string;
  p_symbol : option string;
  p_binding_energy : option R;
  p_Z : option Z;
  p_N : option Z;
  p_discovery_score : option R;
  p_potential_applications : option (list string)
}.

(** An entry of ['novel_discoveries']. *)
Record discovery : Type := {
  d_isotope : string;
  d_Z : Z;
  d_N : Z;
  d_discovery_score : R;
  d_predicted_applications : list string
}.

(** The [validation_results] dict. *)
Record validation_results : Type := {
  total_predictions : Z;
  validated_against_nist : Z;
  binding_energy_accuracy : list R;
  magic_number_predictions : Z;
  medical_isotope_matches : Z;
  novel_discoveries : list discovery;
  accuracy_metrics : list (string * pynum)
}.

(** [prediction.get('name', prediction.get('symbol', ''))]. *)
Definition isotope_name_of (prediction : prediction) : string :=
  match p_name prediction with
  | Some n => n
  | None => match p_symbol prediction with Some s => s | None => "" end
  end.

(** The inner loop over the categories, with its [break]. *)
Fixpoint medical_loop (categories : list (list (string * list (string * pyval))))
    (isotope_name : string) (matches : Z) : Z :=
  match categories with
  | [] => matches
  | category :: rest =>
      if contains category isotope_name then (matches + 1)%Z
      else medical_loop rest isotope_name matches
  end.

(** The body of the loop over the predictions. *)
Definition validate_prediction (prediction : prediction)
    (vr : validation_results) : validation_results :=
  let isotope_name := isotope_name_of prediction in
  let validated := validated_against_nist vr in
  let accuracies := binding_energy_accuracy vr in
  let validated' :=
    if contains nist_masses isotope_name then (validated + 1)%Z else validated in
  let accuracies' :=
    if contains nist_masses isotope_name then
      match get binding_energies isotope_name with
      | Some real_be =>
          let predicted_be :=
            match p_binding_energy prediction with Some b => b | None => 0 end in
          if Rltb 0 real_be
          then accuracies ++ [1 - Rabs (predicted_be - real_be) / real_be]
          else accuracies
      | None => accuracies
      end
    else accuracies in
  let Z := match p_Z prediction with Some z => z | None => 0%Z end in
  let N := match p_N prediction with Some n => n | None => 0%Z end in
  let magic' :=
    if existsb (Z.eqb Z) proton_magic_numbers
       || existsb (Z.eqb N) neutron_magic_numbers
    then (magic_number_predictions vr + 1)%Z
    else magic_number_predictions vr in
  let medical' :=
    medical_loop (map snd medical_isotopes) isotope_name
      (medical_isotope_matches vr) in
  let discovery_score :=
    match p_discovery_score prediction with Some x => x | None => 0 end in
  let novel' :=
    if negb (contains nist_masses isotope_name) && Rltb 0.5 discovery_score
    then novel_discoveries vr ++
         [{| d_isotope := isotope_name;
             d_Z := Z;
             d_N := N;
             d_discovery_score := discovery_score;
             d_predicted_applications :=
               match p_potential_applications prediction with
               | Some l => l
               | None => []
               end |}]
    else novel_discoveries vr in
  {| total_predictions := total_predictions vr;
     validated_against_nist := validated';
     binding_energy_accuracy := accuracies';
     magic_number_predictions := magic';
     medical_isotope_matches := medical';
     novel_discoveries := novel';
     accuracy_metrics := accuracy_metrics vr |}.

(** [validate_isotope_finder_predictions]. *)
Definition validate_isotope_finder_predictions (predictions : list prediction)
  : outcome validation_results :=
  let vr :=
    fold_left (fun vr prediction => validate_prediction prediction vr)
      predictions
      {| total_predictions := Z.of_nat (List.length predictions);
         validated_against_nist := 0;
         binding_energy_accuracy := [];
         magic_number_predictions := 0;
         medical_isotope_matches := 0;
         novel_discoveries := [];
         accuracy_metrics := [] |} in
  metrics <-
    (match binding_energy_accuracy vr with
     | [] => Ok (accuracy_metrics vr)
     | _ :: _ =>
         let avg_accuracy := np_mean (map PyFloat (binding_energy_accuracy vr)) in
         Ok (accuracy_metrics vr ++ [("binding_energy_accuracy", avg_accuracy)])
     end) ;;
  rate <-
    int_truediv (validated_against_nist vr) (total_predictions vr) ;;
  Ok {| total_predictions := total_predictions vr;
        validated_against_nist := validated_against_nist vr;
        binding_energy_accuracy := binding_energy_accuracy vr;
        magic_number_predictions := magic_number_predictions vr;
        medical_isotope_matches := medical_isotope_matches vr;
        novel_discoveries := novel_discoveries vr;
        accuracy_metrics :=
          metrics ++ [("nist_validation_rate", PyFloat rate)] |}.

(** *** Vocabulary of the statements about the validator *)

(** The prediction's name is a key of the NIST table. *)
Definition in_nist (p : prediction) : bool :=
  contains nist_masses (isotope_name_of p).

(** Its proton count or its neutron count is magic. *)
Definition has_magic_number (p : prediction) : bool :=
  existsb (Z.eqb (match p_Z p with Some z => z | None => 0%Z end))
          proton_magic_numbers
  || existsb (Z.eqb (match p_N p with Some n => n | None => 0%Z end))
             neutron_magic_numbers.

(** Its name is an isotope of some medical category. *)
Definition is_medical (p : prediction) : bool :=
  existsb (fun category => contains (snd category) (isotope_name_of p))
          medical_isotopes.

(** It is reported as a novel discovery. *)
Definition is_novel (p : prediction) : bool :=
  negb (in_nist p)
  && Rltb 0.5 (match p_discovery_score p with Some x => x | None => 0 end).

(** The accuracy it contributes, if any. *)
Definition accuracy_of (p : prediction) : list R :=
  if in_nist p then
    match get binding_energies (isotope_name_of p) with
    | Some real_be =>
        if Rltb 0 real_be
        then [1 - Rabs (match p_binding_energy p with Some b => b | None => 0 end
                        - real_be) / real_be]
        else []
    | None => []
    end
  else [].

(** The entry of ['novel_discoveries'] made from a prediction. *)
Definition discovery_of (p : prediction) : discovery :=
  {| d_isotope := isotope_name_of p;
     d_Z := match p_Z p with Some z => z | None => 0%Z end;
     d_N := match p_N p with Some n => n | None => 0%Z end;
     d_discovery_score :=
       match p_discovery_score p with Some x => x | None => 0 end;
     d_predicted_applications :=
       match p_potential_applications p with Some l => l | None => [] end |}.

(** How many predictions satisfy a test. *)
Definition count (f : prediction -> bool) (l : list prediction) : Z :=
  Z.of_nat (List.length (filter f l)).

(** The counters and lists after the loop over [ps], started from [vr]. *)
Definition after_loop (ps : list prediction) (vr : validation_results)
  : validation_results :=
  {| total_predictions := total_predictions vr;
     validated_against_nist := (validated_against_nist vr + count in_nist ps)%Z;
     binding_energy_accuracy :=
       binding_energy_accuracy vr ++ flat_map accuracy_of ps;
     magic_number_predictions :=
       (magic_number_predictions vr + count has_magic_number ps)%Z;
     medical_isotope_matches :=
       (medical_isotope_matches vr + count is_medical ps)%Z;
     novel_discoveries :=
       novel_discoveries vr ++ map discovery_of (filter is_novel ps);
     accuracy_metrics := accuracy_metrics vr |}.

End Validator.

(** ** Vocabulary of the statements about the search and the validation *)

Section Vocabulary.

Local Open Scope R_scope.

(** The arguments for which the statements about the estimator and the
    classifier are made: [Z] and [N] below 2^64 in absolute value, and a
    mass number below 2^64.  There numpy takes the mass number as a
    64-bit integer, every [int] of the program converts to a float and
    no float operation overflows. *)
Definition in_range (Z N : Z) : Prop :=
  (Z.abs Z < 2 ^ 64 /\ Z.abs N < 2 ^ 64 /\ Z + N < 2 ^ 64)%Z.

(** Whether (element, mass number) is a key of [known_medical]. *)
Definition is_known_key (element : string) (A : Z) : bool :=
  match get_medical (element, A) known_medical with
  | Some _ => true
  | None => false
  end.

(** [c] is the entry that the loop body appends for [element], [Z] and
    [N]: the classifier gave the score [s] and the label [m], the
    estimator gave [be], and the entry was accepted. *)
Definition candidate_of (element : string) (Z N : Z) (s : R) (m : string)
    (be : pynum) (c : isotope) : Prop :=
  calculate_stability Z N = Ok (s, m) /\
  calculate_binding_energy Z N = Ok be /\
  (is_known_key element (Z + N) = true \/ 0.2 < s < 0.7) /\
  c = {| symbol := element ++ "-" ++ py_str (Z + N);
         iso_Z := Z;
         iso_N := N;
         iso_A := (Z + N)%Z;
         stability := if is_known_key element (Z + N) then 0.4 else s;
         decay_mode := m;
         binding_energy := be;
         half_life_hours :=
           exp (10 * (if is_known_key element (Z + N) then 0.4 else s)) / 100;
         is_known_medical := is_known_key element (Z + N);
         medical_use :=
           match get_medical (element, (Z + N)%Z) known_medical with
           | Some e => use e
           | None => "Research"%string
           end;
         mhm_optimized := true |}.

(** [c] was appended while sweeping an element of the table and a
    neutron count of its window. *)
Definition swept (c : isotope) : Prop :=
  exists element Z N s m be,
    In (element, Z) elements_to_check /\
    (Z - 10 <= N < Z + 20)%Z /\
    candidate_of element Z N s m be c.

(** [x] may stand before [y] after the sort: the key of [y] is not
    smaller than the key of [x]. *)
Definition key_le (x y : isotope) : Prop :=
  key_lt (sort_key y) (sort_key x) = false.

(** The entries of [l] that have the sort key [k], in their order in
    [l]. *)
Definition with_key (k : bool * R) (l : list isotope) : list isotope :=
  filter (fun c => Bool.eqb (fst (sort_key c)) (fst k)
                   && Reqb (snd (sort_key c)) (snd k)) l.

(** The number of entries flagged as known medical isotopes. *)
Definition known_count (l : list isotope) : nat :=
  List.length (filter is_known_medical l).

(** The triples (element, Z, N) that the two nested loops go through,
    in order. *)
Definition sweep_pairs : list (string * Z * Z) :=
  flat_map
    (fun ez => map (fun N => (fst ez, snd ez, N))
                   (py_range (snd ez - 10) (snd ez + 20)))
    elements_to_check.

(** What holds of the list after the inner loop has processed the
    neutron counts [done] for one element. *)
Definition inner_inv (element : string) (Z : Z) (acc0 : list isotope)
    (done : list BinNums.Z) (acc : list isotope) : Prop :=
  (Forall swept acc0 -> Forall swept acc) /\
  (known_count acc <=
   known_count acc0
   + List.length (filter (fun N => is_known_key element (Z + N)) done))%nat /\
  (forall c, In c acc0 -> In c acc) /\
  (forall N s m, In N done -> calculate_stability Z N = Ok (s, m) ->
     is_known_key element (Z + N) = true \/ 0.2 < s < 0.7 ->
     exists be c, In c acc /\ candidate_of element Z N s m be c).

(** How many neutron counts of one element's window give a key of
    [known_medical], and how many pairs of the whole sweep do. *)
Definition hits (ez : string * Z) : nat :=
  List.length
    (filter (fun N => is_known_key (fst ez) (snd ez + N))
            (py_range (snd ez - 10) (snd ez + 20))).

Definition known_hits : nat := list_sum (map hits elements_to_check).

(** What holds of the list after the outer loop has processed the
    elements [done]. *)
Definition outer_inv (done : list (string * Z)) (acc : list isotope) : Prop :=
  Forall swept acc /\
  (known_count acc <= list_sum (map hits done))%nat /\
  (forall element Z N s m, In (element, Z) done -> (Z - 10 <= N < Z + 20)%Z ->
     calculate_stability Z N = Ok (s, m) ->
     is_known_key element (Z + N) = true \/ 0.2 < s < 0.7 ->
     exists be c, In c acc /\ candidate_of element Z N s m be c).

(** A validation record is well formed: its name parses to a pair, its
    estimate is the finite float that the estimator gives for that
    pair, its reference is not zero and its percent error is the finite
    float [|estimate - reference| / reference * 100]. *)
Definition record_ok (r : validation_result) : Prop :=
  exists Z N,
    parse_isotope (isotope_name r) = Some (Z, N) /\
    calculate_binding_energy Z N = Ok (calculated_be r) /\
    is_complex (calculated_be r) = false /\
    real_be r <> 0 /\
    is_complex (error_percent r) = false /\
    re (error_percent r)
    = Rabs (re (calculated_be r) - real_be r) / real_be r * 100 /\
    is_finite (calculated_be r) = true /\
    is_finite (error_percent r) = true.

(** A finite float, Python's or numpy's. *)
Definition is_float (a : pynum) : Prop :=
  is_complex a = false /\ is_finite a = true.

(** The name of an item of the reference dict is one of the six that
    the validation parses. *)
Definition recognised (e : string * R) : bool :=
  match parse_isotope (fst e) with
  | Some _ => true
  | None => false
  end.

(** The shape of any record the validation makes: its percent error is
    a float; it is an infinity or a NaN when the reference is zero, and
    the record is well formed when the reference is not zero. *)
Definition record_shape (r : validation_result) : Prop :=
  is_complex (error_percent r) = false /\
  (real_be r = 0 -> is_finite (error_percent r) = false) /\
  (real_be r <> 0 -> record_ok r).

(** What holds of the records once the loop has processed the items
    [done] of the reference dict. *)
Definition validate_inv (done : list (string * R))
    (acc : list validation_result) : Prop :=
  map (fun r => (isotope_name r, real_be r)) acc = done /\
  Forall record_ok acc.

End Vocabulary.

(** ** Basic facts about the Python operations *)

(** Decimal literals become fractions of integers, which [field] and
    [ring] compute with. *)
Ltac dec2frac := unfold Q2R; cbn [QArith_base.Qnum QArith_base.Qden].
Ltac real_eq := dec2frac; first [ring | field].

(** Arithmetic on numbers whose kinds are known. *)
Ltac py_simpl :=
  cbn [py_add py_sub py_mul py_abs is_complex is_np is_finite orb andb negb
       np_of xadd xsub xmul value re im bind].

Section PyFacts.

Local Open Scope R_scope.

Lemma Rltb_true (x y : R) : Rltb x y = true <-> x < y.
Proof.
  unfold Rltb. destruct (Rlt_dec x y); split; intros; auto; discriminate.
Qed.

Lemma Rltb_false (x y : R) : Rltb x y = false <-> y <= x.
Proof.
  unfold Rltb. destruct (Rlt_dec x y); split; intros; auto; try discriminate; lra.
Qed.

Lemma Reqb_true (x y : R) : Reqb x y = true <-> x = y.
Proof.
  unfold Reqb. destruct (Req_dec_T x y); split; intros; auto; discriminate.
Qed.

Lemma Reqb_false (x y : R) : Reqb x y = false <-> x <> y.
Proof.
  unfold Reqb. destruct (Req_dec_T x y); split; intros; auto;
    try discriminate; contradiction.
Qed.

Lemma Reqb_refl (x : R) : Reqb x x = true.
Proof. now apply Reqb_true. Qed.

(** Every [int] below 2^130 in absolute value converts to a float. *)
Lemma float_max_int_large : (2 ^ 130 < float_max_int)%Z.
Proof. reflexivity. Qed.

Lemma float_of_int_conv (z : Z) :
  (Z.abs z < float_max_int)%Z -> float_of_int z = Ok (IZR z).
Proof.
  intros H. unfold float_of_int. apply Z.ltb_lt in H. now rewrite H.
Qed.

Lemma float_of_int_ok (z : Z) :
  (Z.abs z < 2 ^ 130)%Z -> float_of_int z = Ok (IZR z).
Proof.
  intros H. unfold float_of_int.
  assert (E : (Z.abs z <? float_max_int)%Z = true).
  { apply Z.ltb_lt. pose proof float_max_int_large. lia. }
  now rewrite E.
Qed.

Lemma float_of_int_overflow (z : Z) :
  (float_max_int <= Z.abs z)%Z -> float_of_int z = Raise OverflowError.
Proof.
  intros H. unfold float_of_int.
  assert (E : (Z.abs z <? float_max_int)%Z = false) by (apply Z.ltb_ge; lia).
  now rewrite E.
Qed.

Lemma float_of_int_cases (z : Z) :
  float_of_int z = Ok (IZR z) \/ float_of_int z = Raise OverflowError.
Proof. unfold float_of_int. destruct (Z.abs z <? float_max_int)%Z; auto. Qed.

Lemma int_truediv_ok (n d : Z) :
  d <> 0%Z -> (Z.abs n < 2 ^ 130)%Z -> int_truediv n d = Ok (IZR n / IZR d).
Proof.
  intros Hd Hn. unfold int_truediv.
  assert (E0 : (d =? 0)%Z = false) by now apply Z.eqb_neq.
  assert (E : (Z.abs n <? float_max_int * Z.abs d)%Z = true).
  { apply Z.ltb_lt. pose proof float_max_int_large.
    assert (1 <= Z.abs d)%Z by lia. nia. }
  now rewrite E0, E.
Qed.

(** A quotient of magnitude at most 1 is a float. *)
Lemma int_truediv_le (n d : Z) :
  d <> 0%Z -> (Z.abs n <= Z.abs d)%Z -> int_truediv n d = Ok (IZR n / IZR d).
Proof.
  intros Hd Hn. unfold int_truediv.
  assert (E0 : (d =? 0)%Z = false) by now apply Z.eqb_neq.
  assert (E : (Z.abs n <? float_max_int * Z.abs d)%Z = true).
  { apply Z.ltb_lt. pose proof float_max_int_large.
    assert (1 <= Z.abs d)%Z by lia. nia. }
  now rewrite E0, E.
Qed.

Lemma np_sqrt_ok (a : Z) :
  (0 <= a < 2 ^ 64)%Z -> np_sqrt a = Ok (NpFloat (sqrt (IZR a))).
Proof.
  intros H. unfold np_sqrt, np_int.
  assert (E1 : (- 2 ^ 63 <=? a)%Z = true) by (apply Z.leb_le; lia).
  assert (E2 : (a <? 2 ^ 64)%Z = true) by (apply Z.ltb_lt; lia).
  assert (E3 : (a <? 0)%Z = false) by (apply Z.ltb_ge; lia).
  now rewrite E1, E2, E3.
Qed.

Lemma np_log_ok (a : Z) :
  (0 < a < 2 ^ 64)%Z -> np_log a = Ok (NpFloat (ln (IZR a))).
Proof.
  intros H. unfold np_log, np_int.
  assert (E1 : (- 2 ^ 63 <=? a)%Z = true) by (apply Z.leb_le; lia).
  assert (E2 : (a <? 2 ^ 64)%Z = true) by (apply Z.ltb_lt; lia).
  assert (E3 : (a <? 0)%Z = false) by (apply Z.ltb_ge; lia).
  assert (E4 : (a =? 0)%Z = false) by (apply Z.eqb_neq; lia).
  now rewrite E1, E2, E3, E4.
Qed.

Lemma np_sqrt_large (a : Z) : (2 ^ 64 <= a)%Z -> np_sqrt a = Raise TypeError.
Proof.
  intros H. unfold np_sqrt, np_int.
  assert (E2 : (a <? 2 ^ 64)%Z = false) by (apply Z.ltb_ge; lia).
  now rewrite E2, andb_false_r.
Qed.

Lemma np_log_large (a : Z) : (2 ^ 64 <= a)%Z -> np_log a = Raise TypeError.
Proof.
  intros H. unfold np_log, np_int.
  assert (E2 : (a <? 2 ^ 64)%Z = false) by (apply Z.ltb_ge; lia).
  now rewrite E2, andb_false_r.
Qed.

Lemma is_zero_float_false (x : R) : x <> 0 -> is_zero (PyFloat x) = false.
Proof.
  intros Hx. unfold is_zero. cbn [is_finite re im andb].
  apply Reqb_false in Hx. now rewrite Hx.
Qed.

Lemma is_zero_float_true : is_zero (PyFloat 0) = true.
Proof. unfold is_zero. cbn [is_finite re im andb]. now rewrite Reqb_refl. Qed.

Lemma py_truediv_float (x y : R) :
  y <> 0 -> py_truediv (PyFloat x) (PyFloat y) = Ok (PyFloat (x / y)).
Proof.
  intros Hy. unfold py_truediv. cbn [is_complex is_np orb re].
  now rewrite is_zero_float_false.
Qed.

Lemma py_truediv_float_np (x y : R) :
  y <> 0 -> py_truediv (PyFloat x) (NpFloat y) = Ok (NpFloat (x / y)).
Proof.
  intros Hy. unfold py_truediv. cbn [is_complex is_np orb value xdiv np_of].
  apply Reqb_false in Hy. now rewrite Hy.
Qed.

Lemma py_truediv_np_float (x y : R) :
  y <> 0 -> py_truediv (NpFloat x) (PyFloat y) = Ok (NpFloat (x / y)).
Proof.
  intros Hy. unfold py_truediv. cbn [is_complex is_np orb value xdiv np_of].
  apply Reqb_false in Hy. now rewrite Hy.
Qed.

Lemma py_truediv_float_zero (x : R) :
  py_truediv (PyFloat x) (PyFloat 0) = Raise ZeroDivisionError.
Proof.
  unfold py_truediv. cbn [is_complex is_np orb]. now rewrite is_zero_float_true.
Qed.

(** A numpy float over the float zero: an infinity, or NaN for zero
    over zero; nothing is raised. *)
Lemma py_truediv_np_zero (x : R) :
  py_truediv (NpFloat x) (PyFloat 0)
  = Ok (if Reqb x 0 then NpNaN else NpInf (Rltb x 0)).
Proof.
  unfold py_truediv. cbn [is_complex is_np orb value xdiv np_of].
  rewrite Reqb_refl. now destruct (Reqb x 0).
Qed.

Lemma clamp_bounds (s : R) : 0 <= py_max 0.0 (py_min 1.0 s) <= 1.
Proof.
  unfold py_max, py_min.
  destruct (Rlt_dec s 1.0); destruct (Rlt_dec 0.0 _); lra.
Qed.

Lemma clamp_spec (s : R) : py_max 0.0 (py_min 1.0 s) = Spec.clamp01 s.
Proof.
  unfold py_max, py_min, Spec.clamp01, Rmax, Rmin.
  destruct (Rlt_dec s 1.0); destruct (Rle_dec 1 s); try lra;
    destruct (Rlt_dec 0.0 _); destruct (Rle_dec 0 _); lra.
Qed.

Lemma py_range_In (lo hi k : Z) : In k (py_range lo hi) <-> (lo <= k < hi)%Z.
Proof.
  unfold py_range. rewrite in_map_iff. split.
  - intros [i [<- Hi]]. apply in_seq in Hi. lia.
  - intros Hk. exists (Z.to_nat (k - lo)). split; [lia | apply in_seq; lia].
Qed.

Lemma py_range_length (lo hi : Z) :
  List.length (py_range lo hi) = Z.to_nat (hi - lo).
Proof. unfold py_range. now rewrite length_map, length_seq. Qed.

End PyFacts.

(** ** The binding energy estimator *)

Section BindingEnergy.

Local Open Scope R_scope.

Lemma mod2_even (k : Z) : (k mod 2 =? 0)%Z = Z.even k.
Proof. rewrite Zmod_even. now destruct (Z.even k). Qed.

Lemma mod2_odd (k : Z) : (k mod 2 =? 1)%Z = Z.odd k.
Proof. rewrite Zmod_odd. now destruct (Z.odd k). Qed.

(** Every key of the light-nuclide table has mass number at most 4, so
    the guard [A <= 4] in front of the lookup hides no entry. *)
Lemma special_cases_small (Z N : Z) (v : R) :
  lookup (Z, N) special_cases = Some v -> (0 < Z + N <= 4)%Z.
Proof.
  unfold special_cases. simpl.
  repeat match goal with
  | |- context [(?a =? ?b)%Z] => destruct (Z.eqb_spec a b); simpl
  end;
  intros H; first [discriminate H | lia].
Qed.

Lemma guarded_lookup_none (Z N : Z) :
  lookup (Z, N) special_cases = None ->
  (if (Z + N <=? 4)%Z then lookup (Z, N) special_cases else None) = None.
Proof. intros H. destruct (Z + N <=? 4)%Z; [exact H | reflexivity]. Qed.

Lemma guarded_lookup_some (Z N : Z) (v : R) :
  lookup (Z, N) special_cases = Some v ->
  (if (Z + N <=? 4)%Z then lookup (Z, N) special_cases else None) = Some v.
Proof.
  intros H. pose proof (special_cases_small _ _ H) as [_ Hs].
  apply Z.leb_le in Hs. now rewrite Hs.
Qed.

Lemma below_one_no_override (Z N : Z) :
  (Z + N <= 0)%Z -> lookup (Z, N) special_cases = None.
Proof.
  intros HA. destruct (lookup (Z, N) special_cases) as [v |] eqn:E; [| reflexivity].
  apply special_cases_small in E. lia.
Qed.

Lemma above_four_no_override (Z N : Z) :
  (4 < Z + N)%Z -> lookup (Z, N) special_cases = None.
Proof.
  intros HA. destruct (lookup (Z, N) special_cases) as [v |] eqn:E; [| reflexivity].
  apply special_cases_small in E. lia.
Qed.

(** The loop over the moduli computes the specification's product. *)
Lemma tesla_boost_spec (A : Z) : tesla_boost A = Spec.teslaBoost A.
Proof.
  unfold tesla_boost, Spec.teslaBoost, tesla_numbers. simpl.
  destruct (Z.eqb_spec (A mod 3) 0); destruct (Z.eq_dec (A mod 3) 0); try contradiction;
  destruct (Z.eqb_spec (A mod 6) 0); destruct (Z.eq_dec (A mod 6) 0); try contradiction;
  destruct (Z.eqb_spec (A mod 9) 0); destruct (Z.eq_dec (A mod 9) 0); try contradiction;
  real_eq.
Qed.

Lemma Rpower_nonzero (x y : R) : Rpower x y <> 0.
Proof. unfold Rpower. pose proof (exp_pos (y * ln x)). lra. Qed.

Lemma IZR_pos_nonzero (A : Z) : (0 < A)%Z -> IZR A <> 0.
Proof. intros H. apply IZR_lt in H. lra. Qed.

Lemma sqrt_IZR_nonzero (A : Z) : (0 < A)%Z -> sqrt (IZR A) <> 0.
Proof. intros H. apply IZR_lt in H. pose proof (sqrt_lt_R0 _ H). lra. Qed.

(** In range, every [int] that the estimator and the classifier hand
    to float arithmetic converts. *)
Lemma in_range_bounds (Z N : Z) :
  in_range Z N ->
  (Z.abs (Z + N) < 2 ^ 130 /\ Z.abs (Z ^ 2) < 2 ^ 130 /\
   Z.abs ((N - Z) ^ 2) < 2 ^ 130 /\ Z.abs Z < 2 ^ 130 /\
   Z.abs N < 2 ^ 130 /\ Z.abs (Z - 20) < 2 ^ 130)%Z.
Proof.
  intros (HZ & HN & HA).
  assert (Hsq : forall k : BinNums.Z, (Z.abs k < 2 ^ 65 -> Z.abs (k ^ 2) < 2 ^ 130)%Z).
  { intros k Hk. rewrite Z.abs_pow.
    change (2 ^ 130)%Z with ((2 ^ 65) ^ 2)%Z.
    apply Z.pow_lt_mono_l; lia. }
  repeat split; try lia; apply Hsq; lia.
Qed.

(** The enhancement of a float is a [numpy.float64] with the product of
    the four factors, as long as the mass number converts to a float. *)
Lemma apply_mhm_enhancement_float (Z N : Z) (x : R) :
  (Z.abs (Z + N) < float_max_int)%Z ->
  apply_mhm_enhancement Z N (PyFloat x) =
  Ok (NpFloat (x * (Spec.teslaBoost (Z + N) * Spec.goldenFactor (Z + N)
                    * Spec.consciousnessBoost * Spec.errorCorrection))).
Proof.
  intros HA. unfold apply_mhm_enhancement, np_sin.
  rewrite (float_of_int_conv _ HA). py_simpl. rewrite tesla_boost_spec.
  do 2 f_equal. unfold Spec.goldenFactor, Spec.consciousnessBoost, Spec.errorCorrection,
    golden_ratio, consciousness_level, error_correction. real_eq.
Qed.

Lemma apply_mhm_enhancement_np (Z N : Z) (x : R) :
  (Z.abs (Z + N) < float_max_int)%Z ->
  apply_mhm_enhancement Z N (NpFloat x) =
  Ok (NpFloat (x * (Spec.teslaBoost (Z + N) * Spec.goldenFactor (Z + N)
                    * Spec.consciousnessBoost * Spec.errorCorrection))).
Proof.
  intros HA. unfold apply_mhm_enhancement, np_sin.
  rewrite (float_of_int_conv _ HA). py_simpl. rewrite tesla_boost_spec.
  do 2 f_equal. unfold Spec.goldenFactor, Spec.consciousnessBoost, Spec.errorCorrection,
    golden_ratio, consciousness_level, error_correction. real_eq.
Qed.

(** A mass number too large for a float stops the enhancement at
    [A / golden_ratio]. *)
Lemma apply_mhm_enhancement_overflow (Z N : Z) (v : pynum) :
  (float_max_int <= Z.abs (Z + N))%Z ->
  apply_mhm_enhancement Z N v = Raise OverflowError.
Proof.
  intros HA. unfold apply_mhm_enhancement.
  now rewrite (float_of_int_overflow _ HA).
Qed.

End BindingEnergy.

(** ** The estimator computes the formula of the specification *)

Section Estimator.
Local Open Scope R_scope.

Lemma calculate_binding_energy_pos (Z N : Z) :
  (0 < Z + N)%Z -> in_range Z N ->
  lookup (Z, N) special_cases = None ->
  calculate_binding_energy Z N = Ok (NpFloat (Spec.estimateBindingEnergy Z N)).
Proof.
  intros HA Hr Hl. unfold calculate_binding_energy.
  rewrite (guarded_lookup_none _ _ Hl).
  pose proof (in_range_bounds Hr) as (BA & BZ & BD & _).
  destruct Hr as (_ & _ & H64).
  assert (HA' : (0 <? Z + N)%Z = true) by now apply Z.ltb_lt.
  rewrite HA'. unfold mul_int, div_int, py_pow.
  rewrite !(float_of_int_ok _ BA), (float_of_int_ok _ BZ), (float_of_int_ok _ BD).
  rewrite HA'. py_simpl.
  rewrite py_truediv_float by apply Rpower_nonzero.
  rewrite py_truediv_float by now apply IZR_pos_nonzero.
  cbn [bind].
  rewrite np_sqrt_ok by lia. cbn [bind].
  rewrite !py_truediv_float_np by now apply sqrt_IZR_nonzero.
  rewrite !mod2_even, !mod2_odd, <- !Z.negb_even.
  unfold Spec.estimateBindingEnergy, Spec.semiEmpiricalSum, Spec.volume,
    Spec.surface, Spec.coulomb, Spec.asymmetry, Spec.pairing, Spec.heavyScale,
    Spec.power, Spec.isZero.
  rewrite <- !Z.negb_even.
  assert (Hz : (Z + N =? 0)%Z = false) by (apply Z.eqb_neq; lia).
  rewrite Hz.
  pose proof (IZR_pos_nonzero HA) as HnA.
  pose proof (sqrt_IZR_nonzero HA) as HnS.
  pose proof (Rpower_nonzero (IZR (Z + N)) (1 / 3)) as HnP.
  destruct (Req_dec_T (IZR (Z + N)) 0) as [? | _]; [contradiction |].
  rewrite Z.pow_2_r, Z.pow_2_r, !mult_IZR, !minus_IZR.
  destruct (Z.even N), (Z.even Z); cbn [andb negb bind]; py_simpl;
    (destruct (Z.ltb_spec 16 (Z + N)); destruct (Z_gt_dec (Z + N) 16); try lia;
     rewrite ?np_log_ok by lia; py_simpl;
     rewrite ?apply_mhm_enhancement_float, ?apply_mhm_enhancement_np
       by (pose proof float_max_int_large; lia);
     do 2 f_equal; unfold binding_energy_scale; dec2frac; field; auto).
Qed.

Lemma calculate_binding_energy_zero (Z N : Z) :
  (Z + N = 0)%Z ->
  calculate_binding_energy Z N = Ok (NpFloat (Spec.estimateBindingEnergy Z N)).
Proof.
  intros HA. unfold calculate_binding_energy.
  rewrite (guarded_lookup_none _ _ (@below_one_no_override Z N ltac:(lia))).
  unfold Spec.estimateBindingEnergy, Spec.semiEmpiricalSum, Spec.volume,
    Spec.surface, Spec.coulomb, Spec.asymmetry, Spec.pairing, Spec.heavyScale,
    Spec.power, Spec.isZero.
  assert (B0 : (Z.abs (Z + N) < 2 ^ 130)%Z) by (rewrite HA; reflexivity).
  unfold mul_int, py_pow. rewrite !(float_of_int_ok _ B0).
  pose proof (@apply_mhm_enhancement_float Z N) as He.
  rewrite HA in *. cbn [Z.ltb Z.eqb Z.compare bind]. py_simpl.
  destruct (Req_dec_T 0 0) as [_ | H]; [| exfalso; apply H; reflexivity].
  destruct (Z_gt_dec 0 16); [lia |].
  destruct ((N mod 2 =? 0)%Z && (Z mod 2 =? 0)%Z)%bool;
    [| destruct ((N mod 2 =? 1)%Z && (Z mod 2 =? 1)%Z)%bool];
    cbn [bind]; py_simpl; rewrite He by reflexivity;
    do 2 f_equal; dec2frac; field.
Qed.

(** The product of the four enhancement factors stays near 1. *)
Lemma enhancement_factor_bounds (A : Z) :
  0.971 <=
  Spec.teslaBoost A * Spec.goldenFactor A * Spec.consciousnessBoost
  * Spec.errorCorrection <= 1.147.
Proof.
  assert (Ht : 1 <= Spec.teslaBoost A <= 1.157625).
  { unfold Spec.teslaBoost, resonance_factor. cbn [map fold_right].
    destruct (Z.eq_dec (A mod 3) 0), (Z.eq_dec (A mod 6) 0),
      (Z.eq_dec (A mod 9) 0); lra. }
  assert (Hg : 0.99 <= Spec.goldenFactor A <= 1.01).
  { unfold Spec.goldenFactor. pose proof (SIN_bound (IZR A / 1.618)). lra. }
  unfold Spec.consciousnessBoost, Spec.errorCorrection.
  set (t := Spec.teslaBoost A) in *. set (g := Spec.goldenFactor A) in *.
  assert (Htg : 0.99 <= t * g <= 1.157625 * 1.01) by nra.
  set (tg := t * g) in *. lra.
Qed.

(** With a negative mass number that converts to a float, the surface
    term is a negative base to the power 2/3, a complex number; the
    estimate is a [numpy.complex128] with a negative imaginary part. *)
Lemma calculate_binding_energy_neg (Z N : Z) :
  (Z + N < 0)%Z -> (Z.abs (Z + N) < 2 ^ 130)%Z ->
  exists re im,
    calculate_binding_energy Z N = Ok (Complex true re im) /\ im < 0.
Proof.
  intros HA BA. unfold calculate_binding_energy.
  rewrite (guarded_lookup_none _ _ (@below_one_no_override Z N ltac:(lia))).
  assert (HA' : (0 <? Z + N)%Z = false) by (apply Z.ltb_ge; lia).
  assert (H16 : (16 <? Z + N)%Z = false) by (apply Z.ltb_ge; lia).
  assert (H0 : (Z + N =? 0)%Z = false) by (apply Z.eqb_neq; lia).
  rewrite HA', H16. unfold mul_int, py_pow. rewrite !(float_of_int_ok _ BA).
  rewrite HA', H0. cbn [bind].
  assert (Hp : 0 < Rpower (- IZR (Z + N)) (2 / 3)) by (unfold Rpower; apply exp_pos).
  assert (Hs : 0 < sin (PI * (2 / 3))).
  { pose proof PI_RGT_0. apply sin_gt_0; lra. }
  pose proof (enhancement_factor_bounds (Z + N)) as Hk.
  set (p := Rpower (- IZR (Z + N)) (2 / 3)) in *.
  set (sn := sin (PI * (2 / 3))) in *.
  assert (Hps : 0 < p * sn) by (apply Rmult_lt_0_compat; assumption).
  set (k := Spec.teslaBoost (Z + N) * Spec.goldenFactor (Z + N)
            * Spec.consciousnessBoost * Spec.errorCorrection) in *.
  assert (Him : - as_ * (p * sn) * k < 0).
  { unfold as_. nra. }
  destruct ((N mod 2 =? 0)%Z && (Z mod 2 =? 0)%Z)%bool;
    [| destruct ((N mod 2 =? 1)%Z && (Z mod 2 =? 1)%Z)%bool];
    cbn [bind]; unfold apply_mhm_enhancement, np_sin;
    rewrite (float_of_int_ok _ BA); py_simpl; rewrite tesla_boost_spec;
    do 2 eexists; (split; [reflexivity |]);
    match goal with
    | |- ?e < 0 => replace e with (- as_ * (p * sn) * k); [exact Him |]
    end;
    unfold k, Spec.goldenFactor, Spec.consciousnessBoost, Spec.errorCorrection,
      golden_ratio, consciousness_level, error_correction;
    real_eq.
Qed.

(** In range the estimator returns a number: no branch raises, whatever
    the signs of [Z] and [N]. *)
Lemma calculate_binding_energy_in_range (Z N : Z) :
  in_range Z N -> exists v, calculate_binding_energy Z N = Ok v.
Proof.
  intros Hr. destruct (lookup (Z, N) special_cases) as [v |] eqn:Hl.
  - exists (PyFloat v). unfold calculate_binding_energy.
    now rewrite (guarded_lookup_some _ _ Hl).
  - destruct (Z.lt_trichotomy (Z + N) 0) as [HA | [HA | HA]].
    + destruct (@calculate_binding_energy_neg Z N HA) as (re & im & H & _).
      * now apply in_range_bounds.
      * now exists (Complex true re im).
    + eexists. now apply calculate_binding_energy_zero.
    + eexists. now apply calculate_binding_energy_pos.
Qed.

(** With a positive mass number the result is a float, never a complex. *)
Lemma calculate_binding_energy_float (Z N : Z) :
  (0 < Z + N)%Z -> in_range Z N ->
  exists x, calculate_binding_energy Z N = Ok (PyFloat x)
            \/ calculate_binding_energy Z N = Ok (NpFloat x).
Proof.
  intros HA Hr. destruct (lookup (Z, N) special_cases) as [v |] eqn:Hl.
  - exists v. left. unfold calculate_binding_energy.
    now rewrite (guarded_lookup_some _ _ Hl).
  - eexists. right. now apply calculate_binding_energy_pos.
Qed.

(** For an isotope whose mass number does not fit 64 bits the estimator
    raises: a conversion to float overflows, or [numpy.sqrt] or
    [numpy.log] rejects the mass number. *)
Lemma calculate_binding_energy_large (Z N : Z) :
  (2 ^ 64 <= Z + N)%Z ->
  exists e, calculate_binding_energy Z N = Raise e /\
            (e = TypeError \/ e = OverflowError).
Proof.
  intros HA. unfold calculate_binding_energy.
  rewrite (guarded_lookup_none _ _ (@above_four_no_override Z N ltac:(lia))).
  assert (HA' : (0 <? Z + N)%Z = true) by (apply Z.ltb_lt; lia).
  assert (H16 : (16 <? Z + N)%Z = true) by (apply Z.ltb_lt; lia).
  rewrite HA', H16. unfold mul_int, div_int, py_pow.
  destruct (float_of_int_cases (Z + N)) as [E | E]; rewrite !E; cbn [bind];
    [| eexists; split; [reflexivity | now right]].
  rewrite HA'.
  destruct (float_of_int_cases (Z ^ 2)) as [E2 | E2]; rewrite !E2; cbn [bind];
    [| eexists; split; [reflexivity | now right]].
  py_simpl. rewrite py_truediv_float by apply Rpower_nonzero. cbn [bind].
  destruct (float_of_int_cases ((N - Z) ^ 2)) as [E3 | E3]; rewrite !E3; cbn [bind];
    [| eexists; split; [reflexivity | now right]].
  py_simpl.
  rewrite py_truediv_float by (apply IZR_pos_nonzero; lia). cbn [bind].
  rewrite !(np_sqrt_large HA), (np_log_large HA).
  destruct ((N mod 2 =? 0)%Z && (Z mod 2 =? 0)%Z)%bool;
    [| destruct ((N mod 2 =? 1)%Z && (Z mod 2 =? 1)%Z)%bool];
    cbn [bind]; eexists; (split; [reflexivity | now left]).
Qed.

End Estimator.

(** ** The classifier computes the score and label of the specification *)

Section Classifier.
Local Open Scope R_scope.

(** Every light-nuclide key is also a stability override key: the
    classifier never asks the estimator for an overridden value. *)
Lemma known_stable_covers (Z N : Z) :
  lookup (Z, N) known_stable = None -> lookup (Z, N) special_cases = None.
Proof.
  unfold known_stable, special_cases. simpl.
  repeat match goal with
  | |- context [(?a =? ?b)%Z] => destruct (Z.eqb_spec a b); simpl
  end; intros H; first [discriminate H | reflexivity | lia].
Qed.

Lemma override_has_protons (Z N : Z) (stable : bool) :
  lookup (Z, N) known_stable = Some stable -> (1 <= Z <= 8 /\ 0 <= N <= 8)%Z.
Proof.
  unfold known_stable. simpl.
  repeat match goal with
  | |- context [(?a =? ?b)%Z] => destruct (Z.eqb_spec a b); simpl
  end; intros H; first [discriminate H | lia].
Qed.

Lemma magic_spec (k : Z) : existsb (Z.eqb k) magic_numbers = Spec.isMagic k.
Proof.
  unfold Spec.isMagic, magic_numbers.
  destruct (in_dec Z.eq_dec k [2; 8; 20; 28; 50; 82; 126]%Z) as [Hin | Hn].
  - apply existsb_exists. exists k. split; [exact Hin | apply Z.eqb_refl].
  - destruct (existsb (Z.eqb k) [2; 8; 20; 28; 50; 82; 126]%Z) eqn:E; [| reflexivity].
    apply existsb_exists in E. destruct E as [m [Hm Hk]].
    apply Z.eqb_eq in Hk. subst m. contradiction.
Qed.

(** Whenever [optimal_ratio] returns, it returns the specification's
    ratio; it returns when [Z - 20] converts to a float. *)
Lemma optimal_ratio_returns (Z : Z) (o : R) :
  optimal_ratio Z = Ok o -> o = Spec.optimalRatio Z.
Proof.
  unfold optimal_ratio, Spec.optimalRatio.
  destruct (Z.leb_spec Z 20) as [L1 | L1]; destruct (Z_le_dec Z 20) as [L2 | L2];
    try lia; [intros E; injection E as <-; lra |].
  destruct (float_of_int_cases (Z - 20)) as [E | E]; rewrite E; cbn [bind];
    destruct (Z.leb_spec Z 40) as [L3 | L3]; destruct (Z_le_dec Z 40) as [L4 | L4];
    try lia; intros E'; try discriminate E'; injection E' as <-;
    rewrite minus_IZR; lra.
Qed.

Lemma optimal_ratio_spec (Z : Z) :
  (Z.abs (Z - 20) < 2 ^ 130)%Z -> optimal_ratio Z = Ok (Spec.optimalRatio Z).
Proof.
  intros HB. destruct (optimal_ratio Z) as [o | e] eqn:E.
  - now rewrite (optimal_ratio_returns _ E).
  - exfalso. revert E. unfold optimal_ratio. rewrite (float_of_int_ok _ HB).
    cbn [bind]. destruct (Z <=? 20)%Z; [discriminate |].
    destruct (Z <=? 40)%Z; discriminate.
Qed.

Lemma decay_mode_returns (Z N : Z) (s : R) (m : string) :
  decay_mode_of Z N s = Ok m -> m = Spec.decayMode Z N s.
Proof.
  unfold decay_mode_of, Spec.decayMode, stability_threshold, Rltb.
  destruct (Rlt_dec 0.5 s); destruct (Rgt_dec s 0.5); try lra;
    [intros E; now injection E as <- |].
  destruct (float_of_int_cases Z) as [E | E]; rewrite E; cbn [bind];
    [| discriminate].
  destruct (Rlt_dec (IZR Z * 1.5) (IZR N)); destruct (Rgt_dec (IZR N) (1.5 * IZR Z));
    try lra; [intros E0; now injection E0 as <- |].
  destruct (float_of_int_cases N) as [E' | E']; rewrite E'; cbn [bind];
    [| discriminate].
  destruct (Rlt_dec (IZR N * 1.2) (IZR Z)); destruct (Rgt_dec (IZR Z) (1.2 * IZR N));
    try lra; [intros E0; now injection E0 as <- |].
  destruct (Z.ltb_spec 82 Z); destruct (Z_gt_dec Z 82); try lia;
    intros E0; now injection E0 as <-.
Qed.

Lemma decay_mode_spec (Z N : Z) (s : R) :
  (Z.abs Z < 2 ^ 130)%Z -> (Z.abs N < 2 ^ 130)%Z ->
  decay_mode_of Z N s = Ok (Spec.decayMode Z N s).
Proof.
  intros HZ HN. destruct (decay_mode_of Z N s) as [m | e] eqn:E.
  - now rewrite (decay_mode_returns _ _ _ E).
  - exfalso. revert E. unfold decay_mode_of.
    rewrite (float_of_int_ok _ HZ), (float_of_int_ok _ HN). cbn [bind].
    repeat match goal with
    | |- context [if ?c then _ else _] => destruct c
    end; discriminate.
Qed.

Lemma int_truediv_returns (n d : Z) (r : R) :
  int_truediv n d = Ok r -> r = IZR n / IZR d.
Proof.
  unfold int_truediv. destruct (d =? 0)%Z; [discriminate |].
  destruct (Z.abs n <? float_max_int * Z.abs d)%Z; [| discriminate].
  intros E. now injection E as <-.
Qed.

(** The three comparisons of the binding energy per nucleon add the
    specification's adjustment when it is a float [b]. *)
Lemma adjustment_float (bp : pynum) (b st : R) :
  bp = NpFloat b \/ bp = PyFloat b ->
  (gt85 <- py_gt bp 8.5 ;;
   if (gt85 : bool) then Ok (st + 0.2) else
   gt75 <- py_gt bp 7.5 ;;
   if (gt75 : bool) then Ok (st + 0.1) else
   lt60 <- py_lt bp 6.0 ;;
   if (lt60 : bool) then Ok (st - 0.2) else Ok st)
  = Ok (st + Spec.bindingAdjustment b).
Proof.
  intros [-> | ->]; cbn [py_gt py_lt bind]; unfold Rltb, Spec.bindingAdjustment;
    (destruct (Rlt_dec 8.5 b); destruct (Rgt_dec b 8.5); try lra; [reflexivity |];
     destruct (Rlt_dec 7.5 b); destruct (Rgt_dec b 7.5); try lra; cbn [bind];
       [reflexivity |];
     destruct (Rlt_dec b 6.0); cbn [bind]; f_equal; lra).
Qed.

(** Whatever the number per nucleon, what they add is the adjustment of
    some binding energy. *)
Lemma adjustment_returns (bp : pynum) (st st' : R) :
  (gt85 <- py_gt bp 8.5 ;;
   if (gt85 : bool) then Ok (st + 0.2) else
   gt75 <- py_gt bp 7.5 ;;
   if (gt75 : bool) then Ok (st + 0.1) else
   lt60 <- py_lt bp 6.0 ;;
   if (lt60 : bool) then Ok (st - 0.2) else Ok st)
  = Ok st' ->
  exists b, st' = st + Spec.bindingAdjustment b.
Proof.
  assert (H9 : Spec.bindingAdjustment 9 = 0.2).
  { unfold Spec.bindingAdjustment. destruct (Rgt_dec 9 8.5); lra. }
  assert (H8 : Spec.bindingAdjustment 8 = 0.1).
  { unfold Spec.bindingAdjustment. destruct (Rgt_dec 8 8.5); [lra |].
    destruct (Rgt_dec 8 7.5); lra. }
  assert (H0 : Spec.bindingAdjustment 0 = - 0.2).
  { unfold Spec.bindingAdjustment. destruct (Rgt_dec 0 8.5); [lra |].
    destruct (Rgt_dec 0 7.5); [lra |]. destruct (Rlt_dec 0 6.0); lra. }
  assert (H7 : Spec.bindingAdjustment 7 = 0).
  { unfold Spec.bindingAdjustment. destruct (Rgt_dec 7 8.5); [lra |].
    destruct (Rgt_dec 7 7.5); [lra |]. destruct (Rlt_dec 7 6.0); lra. }
  destruct (py_gt bp 8.5) as [[|] | e1]; cbn [bind]; try discriminate.
  - intros E. injection E as <-. exists 9. now rewrite H9.
  - destruct (py_gt bp 7.5) as [[|] | e2]; cbn [bind]; try discriminate.
    + intros E. injection E as <-. exists 8. now rewrite H8.
    + destruct (py_lt bp 6.0) as [[|] | e3]; cbn [bind]; try discriminate;
        intros E; injection E as <-.
      * exists 0. rewrite H0. lra.
      * exists 7. rewrite H7. lra.
Qed.

(** The score after the adjustment, the penalties, the factor and the
    clamp is the specification's score. *)
Lemma score_steps (Z N : Z) (b s : R) :
  s = 0.5 + (if Spec.isMagic Z then 0.25 else 0) + (if Spec.isMagic N then 0.25 else 0)
      - 0.3 * Rabs (IZR N / IZR Z - Spec.optimalRatio Z)
      + Spec.bindingAdjustment b ->
  py_max 0.0 (py_min 1.0
    ((if (92 <? Z)%Z then (if (82 <? Z)%Z then s - 0.3 else s) - 0.5
      else (if (82 <? Z)%Z then s - 0.3 else s))
     * (1 + consciousness_level * 0.05))) = Spec.score Z N b.
Proof.
  intros ->. rewrite clamp_spec. unfold Spec.score. f_equal.
  unfold Spec.heavyPenalty, consciousness_level.
  destruct (Z.ltb_spec 92 Z); destruct (Z_gt_dec Z 92); try lia;
    destruct (Z.ltb_spec 82 Z); destruct (Z_gt_dec Z 82); try lia; lra.
Qed.

(** The part of [calculate_stability] after the two early returns, once
    the estimator has returned and the division by [A] (or the literal
    0 when [A <= 0]) has given the float [b] per nucleon. *)
Lemma calculate_stability_with (Z N : Z) (v : pynum) (b : R) :
  Z <> 0%Z -> in_range Z N ->
  lookup (Z, N) known_stable = None ->
  calculate_binding_energy Z N = Ok v ->
  (if (0 <? Z + N)%Z then div_int v (Z + N) else Ok (PyFloat 0))
  = Ok (NpFloat b) \/
  (if (0 <? Z + N)%Z then div_int v (Z + N) else Ok (PyFloat 0))
  = Ok (PyFloat b) ->
  calculate_stability Z N = Ok (Spec.classifyStability Z N b).
Proof.
  intros HZ Hr Hl Hv Hb. unfold calculate_stability. rewrite Hl.
  pose proof (in_range_bounds Hr) as (_ & _ & _ & BZ & BN & B20).
  assert (HZ' : (Z =? 0)%Z = false) by now apply Z.eqb_neq.
  rewrite HZ'. rewrite (@int_truediv_ok N Z HZ BN), (@optimal_ratio_spec Z B20).
  cbn [bind]. rewrite Hv. cbn [bind].
  unfold Spec.classifyStability.
  assert (Hb' : exists bp,
    (if (0 <? Z + N)%Z then div_int v (Z + N) else Ok (PyFloat 0)) = Ok bp /\
    (bp = NpFloat b \/ bp = PyFloat b)).
  { destruct Hb as [Hb | Hb]; rewrite Hb; eexists; split; auto. }
  destruct Hb' as (bp & -> & Hbp). cbn [bind].
  rewrite (adjustment_float _ Hbp). cbn [bind].
  rewrite !magic_spec.
  rewrite (@score_steps Z N b), (@decay_mode_spec Z N _ BZ BN); [reflexivity |].
  destruct (Spec.isMagic Z), (Spec.isMagic N); lra.
Qed.

(** With a positive mass number the float per nucleon is the estimate
    over [A]. *)
Lemma calculate_stability_formula (Z N : Z) :
  Z <> 0%Z -> (0 < Z + N)%Z -> in_range Z N ->
  lookup (Z, N) known_stable = None ->
  calculate_stability Z N =
  Ok (Spec.classifyStability Z N
        (Spec.estimateBindingEnergy Z N / IZR (Z + N))).
Proof.
  intros HZ HA Hr Hl.
  apply calculate_stability_with
    with (v := NpFloat (Spec.estimateBindingEnergy Z N)); try assumption.
  - apply calculate_binding_energy_pos; [exact HA | exact Hr |].
    now apply known_stable_covers.
  - left. assert (HA' : (0 <? Z + N)%Z = true) by now apply Z.ltb_lt.
    rewrite HA'. unfold div_int.
    rewrite (float_of_int_ok _ (proj1 (in_range_bounds Hr))). cbn [bind].
    now rewrite py_truediv_np_float by now apply IZR_pos_nonzero.
Qed.

(** Otherwise the guard [A > 0] fails and the float per nucleon is the
    literal 0. *)
Lemma calculate_stability_nonpositive (Z N : Z) :
  Z <> 0%Z -> (Z + N <= 0)%Z -> in_range Z N ->
  lookup (Z, N) known_stable = None ->
  calculate_stability Z N = Ok (Spec.classifyStability Z N 0).
Proof.
  intros HZ HA Hr Hl.
  destruct (calculate_binding_energy_in_range Hr) as [v Hv].
  apply calculate_stability_with with (v := v); try assumption.
  right. assert (HA' : (0 <? Z + N)%Z = false) by (apply Z.ltb_ge; lia).
  now rewrite HA'.
Qed.

Lemma clamp01_bounds (x : R) : 0 <= Spec.clamp01 x <= 1.
Proof. rewrite <- clamp_spec. apply clamp_bounds. Qed.

(** The three ways out of [calculate_stability], in range. *)
Lemma calculate_stability_cases (Z N : Z) :
  in_range Z N ->
  (exists stable,
     lookup (Z, N) known_stable = Some stable /\
     calculate_stability Z N
     = Ok (if stable then 0.8 else 0.3,
           if stable then "stable"%string else "radioactive"%string)) \/
  (Z = 0%Z /\ calculate_stability Z N = Ok (0.0, "impossible"%string)) \/
  (Z <> 0%Z /\ lookup (Z, N) known_stable = None /\
   exists b, calculate_stability Z N = Ok (Spec.classifyStability Z N b)).
Proof.
  intros Hr. destruct (lookup (Z, N) known_stable) as [stable |] eqn:Hl.
  - left. exists stable. split; [reflexivity |].
    unfold calculate_stability. now rewrite Hl.
  - right. destruct (Z.eq_dec Z 0) as [HZ | HZ].
    + left. split; [exact HZ |]. unfold calculate_stability. rewrite Hl.
      subst Z. reflexivity.
    + right. split; [exact HZ |]. split; [reflexivity |].
      destruct (Z_lt_le_dec 0 (Z + N)) as [HA | HA].
      * eexists. now apply calculate_stability_formula.
      * eexists. now apply calculate_stability_nonpositive.
Qed.

(** Whenever the classifier returns, on any pair of integers, it
    returns by one of the three ways, and the scored way gives the
    specification's score and label for some binding energy per
    nucleon. *)
Lemma calculate_stability_returns (Z N : Z) (s : R) (m : string) :
  calculate_stability Z N = Ok (s, m) ->
  (exists stable,
     lookup (Z, N) known_stable = Some stable /\
     (s, m) = (if stable then 0.8 else 0.3,
               if stable then "stable"%string else "radioactive"%string)) \/
  (Z = 0%Z /\ (s, m) = (0.0, "impossible"%string)) \/
  (Z <> 0%Z /\ lookup (Z, N) known_stable = None /\
   exists b, (s, m) = Spec.classifyStability Z N b).
Proof.
  unfold calculate_stability.
  destruct (lookup (Z, N) known_stable) as [stable |] eqn:Hl.
  - intros E. injection E as <- <-. left. now exists stable.
  - destruct (Z.eqb_spec Z 0) as [HZ | HZ].
    + intros E. injection E as <- <-. right. now left.
    + destruct (int_truediv N Z) as [nz | e] eqn:E1; cbn [bind]; [| discriminate].
      apply int_truediv_returns in E1. subst nz.
      destruct (optimal_ratio Z) as [o | e] eqn:E2; cbn [bind]; [| discriminate].
      apply optimal_ratio_returns in E2. subst o.
      destruct (calculate_binding_energy Z N) as [v | e]; cbn [bind]; [| discriminate].
      destruct (if (0 <? Z + N)%Z then div_int v (Z + N) else Ok (PyFloat 0))
        as [bp | e]; cbn [bind]; [| discriminate].
      match goal with
      | |- bind ?blk _ = _ -> _ => destruct blk as [st' | e] eqn:E3
      end; cbn [bind]; [| discriminate].
      apply adjustment_returns in E3. destruct E3 as [b ->].
      rewrite !magic_spec. rewrite (@score_steps Z N b);
        [| destruct (Spec.isMagic Z), (Spec.isMagic N); lra].
      destruct (decay_mode_of Z N (Spec.score Z N b)) as [m' | e] eqn:E4;
        cbn [bind]; [| discriminate].
      apply decay_mode_returns in E4. subst m'.
      intros E. injection E as <- <-. right. right.
      split; [exact HZ |]. split; [reflexivity |]. exists b. reflexivity.
Qed.

(** In range the classifier returns a score and a label, and the score
    lies in [[0, 1]]. *)
Lemma calculate_stability_in_range (Z N : Z) :
  in_range Z N ->
  exists s m, calculate_stability Z N = Ok (s, m) /\ 0 <= s <= 1.
Proof.
  intros Hr.
  destruct (calculate_stability_cases Hr)
    as [[stable [_ H]] | [[_ H] | (_ & _ & b & H)]]; rewrite H.
  - do 2 eexists. split; [reflexivity |]. destruct stable; lra.
  - do 2 eexists. split; [reflexivity | lra].
  - unfold Spec.classifyStability.
    do 2 eexists. split; [reflexivity | apply clamp01_bounds].
Qed.

(** Every score the classifier returns lies in [[0, 1]]. *)
Lemma calculate_stability_score (Z N : Z) (s : R) (m : string) :
  calculate_stability Z N = Ok (s, m) -> 0 <= s <= 1.
Proof.
  intros H.
  destruct (calculate_stability_returns _ _ H)
    as [[stable [_ E]] | [[_ E] | (_ & _ & b & E)]]; injection E as -> _.
  - destruct stable; lra.
  - lra.
  - apply clamp01_bounds.
Qed.

(** An isotope whose mass number does not fit 64 bits makes the
    classifier raise. *)
Lemma calculate_stability_large (Z N : Z) :
  (1 <= Z)%Z -> (0 <= N)%Z -> (2 ^ 64 <= Z + N)%Z ->
  exists e, calculate_stability Z N = Raise e.
Proof.
  intros HZ HN HA. unfold calculate_stability.
  destruct (lookup (Z, N) known_stable) as [stable |] eqn:Hl.
  { apply override_has_protons in Hl. lia. }
  assert (HZ' : (Z =? 0)%Z = false) by (apply Z.eqb_neq; lia).
  rewrite HZ'.
  destruct (int_truediv N Z) as [nz | e]; cbn [bind]; [| eexists; reflexivity].
  destruct (optimal_ratio Z) as [o | e]; cbn [bind]; [| eexists; reflexivity].
  destruct (@calculate_binding_energy_large Z N HA) as [e [-> _]].
  eexists. reflexivity.
Qed.

End Classifier.

(** ** The sweep of the medical isotope search *)

Section Sweep.
Local Open Scope R_scope.

(** The loop body of the finder's own search. *)
Local Abbreviation check_isotope :=
  (check_isotope_with calculate_stability calculate_binding_energy).

Lemma elements_range (element : string) (Z : Z) :
  In (element, Z) elements_to_check -> (9 <= Z <= 75)%Z.
Proof.
  unfold elements_to_check. cbn [In].
  intros H. repeat (destruct H as [H | H]; [injection H as _ <-; lia |]).
  destruct H.
Qed.

(** The pairs of the sweep are far inside the range. *)
Lemma swept_in_range (element : string) (Z N : Z) :
  In (element, Z) elements_to_check -> (Z - 10 <= N < Z + 20)%Z ->
  in_range Z N.
Proof.
  intros Hel HN. apply elements_range in Hel. unfold in_range.
  change (2 ^ 64)%Z with 18446744073709551616%Z. lia.
Qed.

(** A loop whose body keeps an invariant, indexed by the items already
    processed, runs to its end and establishes it for the whole list. *)
Lemma for_each_invariant {A S : Type} (body : A -> S -> outcome S)
    (P : list A -> S -> Prop) (l : list A) :
  (forall done x acc, In x l -> P done acc ->
     exists acc', body x acc = Ok acc' /\ P (done ++ [x]) acc') ->
  forall done acc, P done acc ->
  exists acc', for_each l body acc = Ok acc' /\ P (done ++ l) acc'.
Proof.
  induction l as [| x l IH]; intros Hstep done acc HP.
  - exists acc. rewrite app_nil_r. now split.
  - destruct (Hstep done x acc (or_introl eq_refl) HP) as [acc1 [Hb HP1]].
    destruct (IH (fun d y a Hy => Hstep d y a (or_intror Hy)) (done ++ [x]) acc1 HP1)
      as [acc2 [Hf HP2]].
    exists acc2. cbn [for_each]. rewrite Hb. cbn [bind]. split; [exact Hf |].
    now rewrite <- app_assoc in HP2.
Qed.

Lemma known_count_app (l1 l2 : list isotope) :
  known_count (l1 ++ l2) = (known_count l1 + known_count l2)%nat.
Proof. unfold known_count. now rewrite filter_app, length_app. Qed.

(** One turn of the inner loop: it never raises; it leaves the list
    alone (and then the pair is no key of [known_medical] and the score
    is outside the band) or appends the entry described by
    [candidate_of]. *)
Lemma check_isotope_step (element : string) (Z N : Z) (acc : list isotope) :
  in_range Z N ->
  exists acc', check_isotope element Z N acc = Ok acc' /\
    ((acc' = acc /\ is_known_key element (Z + N) = false /\
      forall s m, calculate_stability Z N = Ok (s, m) -> ~ 0.2 < s < 0.7) \/
     exists s m be c, acc' = acc ++ [c] /\ candidate_of element Z N s m be c).
Proof.
  intros Hr.
  destruct (calculate_stability_in_range Hr) as [s [m [Hs Hb]]].
  destruct (calculate_binding_energy_in_range Hr) as [be Hbe].
  unfold check_isotope_with. rewrite Hs, Hbe. cbn [bind fst snd].
  fold (is_known_key element (Z + N)).
  unfold medical_range, np_exp. cbn [fst snd].
  destruct (is_known_key element (Z + N)) eqn:Hk.
  - rewrite orb_true_r.
    assert (H04 : Rltb 0 0.4 = true) by (apply Rltb_true; lra).
    rewrite H04. eexists. split; [reflexivity |]. right.
    exists s, m, be. eexists. split; [reflexivity |].
    unfold candidate_of. rewrite Hk. repeat split; auto.
  - rewrite orb_false_r.
    destruct (Rltb 0.2 s) eqn:H1; [destruct (Rltb s 0.7) eqn:H2 |]; cbn [andb].
    + apply Rltb_true in H1. apply Rltb_true in H2.
      assert (H0 : Rltb 0 s = true) by (apply Rltb_true; lra).
      rewrite H0. eexists. split; [reflexivity |]. right.
      exists s, m, be. eexists. split; [reflexivity |].
      unfold candidate_of. rewrite Hk. repeat split; auto.
    + eexists. split; [reflexivity |]. left.
      split; [reflexivity | split; [reflexivity |]].
      intros s' m' E [E1 E2]. injection E as <- <-.
      apply Rltb_false in H2. lra.
    + eexists. split; [reflexivity |]. left.
      split; [reflexivity | split; [reflexivity |]].
      intros s' m' E [E1 E2]. injection E as <- <-.
      apply Rltb_false in H1. lra.
Qed.

Lemma candidate_stability (element : string) (Z N : Z) s m be c :
  candidate_of element Z N s m be c -> calculate_stability Z N = Ok (s, m).
Proof. now intros (H & _). Qed.

Lemma candidate_known (element : string) (Z N : Z) s m be c :
  candidate_of element Z N s m be c ->
  is_known_medical c = is_known_key element (Z + N).
Proof. intros (_ & _ & _ & ->). reflexivity. Qed.


Lemma inner_loop (element : string) (Z : Z) (acc0 : list isotope) :
  In (element, Z) elements_to_check ->
  exists acc,
    for_each (py_range (Z - 10) (Z + 20))
      (fun N medical_isotopes => check_isotope element Z N medical_isotopes) acc0
    = Ok acc /\
    inner_inv element Z acc0 (py_range (Z - 10) (Z + 20)) acc.
Proof.
  intros Hel.
  apply (for_each_invariant
           (fun N medical_isotopes => check_isotope element Z N medical_isotopes)
           (inner_inv element Z acc0) (py_range (Z - 10) (Z + 20))) with (done := []).
  - intros done N acc HN (I1 & I2 & I3 & I4).
    apply py_range_In in HN.
    destruct (@check_isotope_step element Z N acc (@swept_in_range element Z N Hel HN))
      as [acc' [Hc [(-> & Hk & Hout) | (s & m & be & c & -> & Hcand)]]];
      eexists; (split; [exact Hc |]).
    + repeat split; auto.
      * rewrite filter_app, length_app. cbn [filter]. rewrite Hk. cbn. lia.
      * intros N' s' m' HN' Hs' Hacc. apply in_app_or in HN'.
        destruct HN' as [HN' | [<- | []]].
        -- now apply (I4 N' s' m').
        -- exfalso. destruct Hacc as [Hacc | Hacc]; [congruence |].
           now apply (Hout s' m').
    + pose proof (candidate_known Hcand) as Hkc.
      repeat split.
      * intros H0. apply Forall_app. split; [now apply I1 |].
        constructor; [| constructor].
        exists element, Z, N, s, m, be.
        split; [exact Hel | split; [exact HN | exact Hcand]].
      * rewrite known_count_app, filter_app, length_app. cbn [filter].
        unfold known_count at 2. cbn [filter]. rewrite Hkc.
        destruct (is_known_key element (Z + N)); cbn; lia.
      * intros c' Hc'. apply in_or_app. left. now apply I3.
      * intros N' s' m' HN' Hs' Hacc. apply in_app_or in HN'.
        destruct HN' as [HN' | [<- | []]].
        -- destruct (I4 N' s' m' HN' Hs' Hacc) as (be' & c' & Hin & Hc').
           exists be', c'. split; [apply in_or_app; now left | exact Hc'].
        -- pose proof (candidate_stability Hcand) as E. rewrite Hs' in E.
           injection E as <- <-.
           exists be, c. split; [apply in_or_app; right; now left | exact Hcand].
  - repeat split; auto; try (now intros ? ? ? []). cbn. lia.
Qed.

(** The sweep never raises, and its list satisfies [outer_inv]. *)
Lemma sweep_spec : exists l, sweep = Ok l /\ outer_inv elements_to_check l.
Proof.
  unfold sweep, sweep_with.
  apply (for_each_invariant
           (fun ez medical_isotopes =>
              let element := fst ez in
              let Z := snd ez in
              for_each (py_range (Z - 10) (Z + 20))
                (fun N medical_isotopes => check_isotope element Z N medical_isotopes)
                medical_isotopes)
           outer_inv elements_to_check) with (done := []).
  - intros done [element Z] acc Hel (O1 & O2 & O3). cbn [fst snd].
    destruct (inner_loop acc Hel) as [acc' [Hf (I1 & I2 & I3 & I4)]].
    exists acc'. split; [exact Hf |]. repeat split.
    + now apply I1.
    + rewrite map_app, list_sum_app. cbn [map list_sum].
      change (hits (element, Z)) with
        (List.length (filter (fun N => is_known_key element (Z + N))
                             (py_range (Z - 10) (Z + 20)))).
      unfold list_sum at 2. cbn [fold_right]. lia.
    + intros element' Z' N' s m Hin Hw Hs Hacc. apply in_app_or in Hin.
      destruct Hin as [Hin | [Heq | []]].
      * destruct (O3 _ _ _ _ _ Hin Hw Hs Hacc) as (be & c & Hc & Hcand).
        exists be, c. split; [now apply I3 | exact Hcand].
      * injection Heq as <- <-. apply (I4 N' s m); [now apply py_range_In | | ]; assumption.
  - repeat split; [constructor | cbn; lia | intros ? ? ? ? ? []].
Qed.

(** The nested loops are one loop over [sweep_pairs]. *)
Lemma for_each_app {A S : Type} (body : A -> S -> outcome S) (l1 l2 : list A)
    (acc : S) :
  for_each (l1 ++ l2) body acc = bind (for_each l1 body acc) (for_each l2 body).
Proof.
  revert acc. induction l1 as [| x l1 IH]; intros acc; cbn [app for_each bind].
  - reflexivity.
  - destruct (body x acc) as [a | e]; cbn [bind]; [apply IH | reflexivity].
Qed.

Lemma for_each_map {A B S : Type} (g : A -> B) (body : B -> S -> outcome S)
    (l : list A) (acc : S) :
  for_each (map g l) body acc = for_each l (fun x => body (g x)) acc.
Proof.
  revert acc. induction l as [| x l IH]; intros acc; cbn [map for_each]; [reflexivity |].
  destruct (body (g x) acc) as [a | e]; cbn [bind]; [apply IH | reflexivity].
Qed.

Lemma for_each_flat_map {A B S : Type} (f : A -> list B)
    (body : B -> S -> outcome S) (l : list A) (acc : S) :
  for_each (flat_map f l) body acc
  = for_each l (fun x a => for_each (f x) body a) acc.
Proof.
  revert acc. induction l as [| x l IH]; intros acc; cbn [flat_map for_each];
    [reflexivity |].
  rewrite for_each_app.
  destruct (for_each (f x) body acc) as [a | e]; cbn [bind]; [apply IH | reflexivity].
Qed.

Lemma for_each_ext {A S : Type} (body1 body2 : A -> S -> outcome S)
    (l : list A) (acc : S) :
  (forall x a, body1 x a = body2 x a) ->
  for_each l body1 acc = for_each l body2 acc.
Proof.
  intros Hb. revert acc. induction l as [| x l IH]; intros acc; cbn [for_each];
    [reflexivity |].
  rewrite Hb. destruct (body2 x acc) as [a | e]; cbn [bind]; [apply IH | reflexivity].
Qed.

Lemma sweep_flat
    (cs : Z -> Z -> outcome (R * string)) (cb : Z -> Z -> outcome pynum) :
  sweep_with cs cb =
  for_each sweep_pairs
    (fun t medical_isotopes =>
       check_isotope_with cs cb (fst (fst t)) (snd (fst t)) (snd t)
         medical_isotopes) [].
Proof.
  unfold sweep_with, sweep_pairs. rewrite for_each_flat_map.
  apply for_each_ext. intros ez a. now rewrite for_each_map.
Qed.

(** The sweep starts with fluorine and the neutron count -1. *)
Lemma sweep_pairs_head :
  exists rest, sweep_pairs = ("F"%string, 9%Z, (-1)%Z) :: rest.
Proof. eexists. reflexivity. Qed.

(** Whatever the two methods are, the search calls the classifier on
    the pair (9, -1) first, and then the estimator on the same pair:
    an exception of either call is the outcome of the search. *)
Lemma first_calls
    (cs : Z -> Z -> outcome (R * string)) (cb : Z -> Z -> outcome pynum) :
  (forall e, cs 9%Z (-1)%Z = Raise e -> sweep_with cs cb = Raise e) /\
  (forall sd e, cs 9%Z (-1)%Z = Ok sd -> cb 9%Z (-1)%Z = Raise e ->
     sweep_with cs cb = Raise e).
Proof.
  rewrite sweep_flat. destruct sweep_pairs_head as [rest ->].
  cbn [for_each fst snd]. unfold check_isotope_with at 1 3.
  split.
  - intros e ->. reflexivity.
  - intros sd e -> ->. reflexivity.
Qed.

End Sweep.

(** ** The sort and the truncation *)

Section Sorting.
Local Open Scope R_scope.

Lemma key_lt_asym (a b : bool * R) : key_lt a b = true -> key_lt b a = false.
Proof.
  destruct a as [a1 a2], b as [b1 b2]. unfold key_lt. cbn [fst snd].
  destruct a1, b1; cbn; try discriminate; try reflexivity;
    intros H; apply Rltb_true in H; apply Rltb_false; lra.
Qed.

Lemma key_lt_trans_neg (a b c : bool * R) :
  key_lt b a = false -> key_lt c b = false -> key_lt c a = false.
Proof.
  destruct a as [a1 a2], b as [b1 b2], c as [c1 c2]. unfold key_lt. cbn [fst snd].
  destruct a1, b1, c1; cbn; try discriminate; try reflexivity;
    intros H1 H2; apply Rltb_false in H1; apply Rltb_false in H2;
    apply Rltb_false; lra.
Qed.

Lemma insert_sorted_In (x y : isotope) (l : list isotope) :
  In y (insert_sorted x l) <-> y = x \/ In y l.
Proof.
  induction l as [| z l IH]; cbn [insert_sorted].
  - cbn. intuition.
  - destruct (key_lt (sort_key z) (sort_key x)); cbn [In]; [rewrite IH |]; intuition.
Qed.

Lemma sort_In (y : isotope) (l : list isotope) : In y (sort l) <-> In y l.
Proof.
  induction l as [| x l IH]; cbn [sort]; [reflexivity |].
  rewrite insert_sorted_In, IH. cbn. intuition.
Qed.

Lemma known_count_cons (x : isotope) (l : list isotope) :
  known_count (x :: l)
  = ((if is_known_medical x then 1 else 0) + known_count l)%nat.
Proof. unfold known_count. cbn [filter]. now destruct (is_known_medical x). Qed.

Lemma insert_sorted_known_count (x : isotope) (l : list isotope) :
  known_count (insert_sorted x l) = known_count (x :: l).
Proof.
  induction l as [| z l IH]; cbn [insert_sorted]; [reflexivity |].
  destruct (key_lt (sort_key z) (sort_key x)); [| reflexivity].
  rewrite known_count_cons, IH, !known_count_cons. lia.
Qed.

Lemma sort_known_count (l : list isotope) : known_count (sort l) = known_count l.
Proof.
  induction l as [| x l IH]; cbn [sort]; [reflexivity |].
  now rewrite insert_sorted_known_count, !known_count_cons, IH.
Qed.

Lemma insert_sorted_sorted (x : isotope) (l : list isotope) :
  StronglySorted key_le l -> StronglySorted key_le (insert_sorted x l).
Proof.
  induction l as [| y l IH]; intros Hs; cbn [insert_sorted].
  - repeat constructor.
  - apply StronglySorted_inv in Hs. destruct Hs as [Hs Hy].
    destruct (key_lt (sort_key y) (sort_key x)) eqn:E.
    + constructor; [now apply IH |].
      apply Forall_forall. intros z Hz. apply insert_sorted_In in Hz.
      destruct Hz as [-> | Hz].
      * unfold key_le. now apply key_lt_asym.
      * rewrite Forall_forall in Hy. now apply Hy.
    + constructor; [now constructor |].
      constructor; [exact E |].
      apply Forall_forall. intros z Hz. rewrite Forall_forall in Hy.
      unfold key_le. apply key_lt_trans_neg with (b := sort_key y); [exact E |].
      now apply Hy.
Qed.

Lemma sort_sorted (l : list isotope) : StronglySorted key_le (sort l).
Proof.
  induction l as [| x l IH]; cbn [sort]; [constructor | now apply insert_sorted_sorted].
Qed.

Lemma insert_sorted_perm (x : isotope) (l : list isotope) :
  Permutation (insert_sorted x l) (x :: l).
Proof.
  induction l as [| y l IH]; cbn [insert_sorted]; [reflexivity |].
  destruct (key_lt (sort_key y) (sort_key x)); [| reflexivity].
  rewrite IH. apply perm_swap.
Qed.

(** The sort rearranges the list: it neither drops nor adds nor
    duplicates an entry. *)
Lemma sort_perm (l : list isotope) : Permutation (sort l) l.
Proof.
  induction l as [| x l IH]; cbn [sort]; [reflexivity |].
  rewrite insert_sorted_perm. now constructor.
Qed.

Lemma key_lt_irrefl_eq (k1 k2 k : bool * R) :
  key_lt k1 k2 = true ->
  Bool.eqb (fst k1) (fst k) && Reqb (snd k1) (snd k) = true ->
  Bool.eqb (fst k2) (fst k) && Reqb (snd k2) (snd k) = false.
Proof.
  destruct k1 as [a1 r1], k2 as [a2 r2], k as [a r]. unfold key_lt. cbn [fst snd].
  intros Hlt Heq. apply andb_true_iff in Heq. destruct Heq as [Ha Hr].
  apply Bool.eqb_prop in Ha. apply Reqb_true in Hr. subst a r.
  destruct (Bool.eqb a2 a1) eqn:E; [| reflexivity]. cbn [andb].
  apply Bool.eqb_prop in E. subst a2. rewrite Bool.eqb_reflx in Hlt.
  apply Rltb_true in Hlt. apply Reqb_false. lra.
Qed.

Lemma insert_sorted_with_key (k : bool * R) (x : isotope) (l : list isotope) :
  with_key k (insert_sorted x l) = with_key k (x :: l).
Proof.
  induction l as [| y l IH]; cbn [insert_sorted]; [reflexivity |].
  destruct (key_lt (sort_key y) (sort_key x)) eqn:E; [| reflexivity].
  unfold with_key in *. cbn [filter] in *. rewrite IH.
  destruct (Bool.eqb (fst (sort_key y)) (fst k) && Reqb (snd (sort_key y)) (snd k))
    eqn:Ey; [| reflexivity].
  now rewrite (@key_lt_irrefl_eq _ _ _ E Ey).
Qed.

(** The sort is stable: the entries that have the same key keep the
    order they have in the input. *)
Lemma sort_stable (k : bool * R) (l : list isotope) :
  with_key k (sort l) = with_key k l.
Proof.
  induction l as [| x l IH]; cbn [sort]; [reflexivity |].
  rewrite insert_sorted_with_key. unfold with_key in *. cbn [filter].
  now rewrite IH.
Qed.

Lemma firstn_In {A : Type} (n : nat) (l : list A) (x : A) :
  In x (firstn n l) -> In x l.
Proof.
  intros H. rewrite <- (firstn_skipn n l). apply in_or_app. now left.
Qed.

Lemma firstn_sorted (n : nat) (l : list isotope) :
  StronglySorted key_le l -> StronglySorted key_le (firstn n l).
Proof.
  revert n. induction l as [| x l IH]; intros [| n] Hs; cbn [firstn];
    try (now constructor).
  apply StronglySorted_inv in Hs. destruct Hs as [Hs Hx]. constructor.
  - now apply IH.
  - apply Forall_forall. intros y Hy. rewrite Forall_forall in Hx.
    apply Hx. eapply firstn_In; eauto.
Qed.

(** In a sorted list an entry may stand before everything that follows
    it. *)
Lemma sorted_before (l1 l2 : list isotope) (x y : isotope) :
  StronglySorted key_le (l1 ++ x :: l2) -> In y l2 -> key_le x y.
Proof.
  induction l1 as [| z l1 IH]; cbn [app]; intros Hs Hy.
  - apply StronglySorted_inv in Hs. destruct Hs as [_ Hx].
    rewrite Forall_forall in Hx. now apply Hx.
  - apply StronglySorted_inv in Hs. destruct Hs as [Hs _]. now apply IH.
Qed.

(** What [key_le] says in terms of the two fields of the key. *)
Lemma key_le_known (x y : isotope) :
  key_le x y -> is_known_medical y = true -> is_known_medical x = true.
Proof.
  unfold key_le, key_lt, sort_key. cbn [fst snd].
  destruct (is_known_medical x), (is_known_medical y); cbn; congruence.
Qed.

Lemma key_le_distance (x y : isotope) :
  key_le x y -> is_known_medical x = is_known_medical y ->
  Rabs (stability x - 0.4) <= Rabs (stability y - 0.4).
Proof.
  unfold key_le, key_lt, sort_key. cbn [fst snd]. intros H E. rewrite E in H.
  rewrite Bool.eqb_reflx in H. now apply Rltb_false in H.
Qed.

End Sorting.

(** ** Fluorine-18: a known medical isotope that the classifier calls stable *)

Section Fluorine18.
Local Open Scope R_scope.

Lemma Rpower_cube (x y : R) : 0 < x -> Rpower x y ^ 3 = Rpower x (y * 3).
Proof.
  intros Hx. rewrite <- Rpower_mult.
  rewrite <- Rpower_pow by (unfold Rpower; apply exp_pos).
  f_equal. simpl. lra.
Qed.

Lemma Rpower_square_int (x : R) : 0 < x -> Rpower x 2 = x * x.
Proof.
  intros Hx. replace 2 with (INR 2) by (simpl; lra).
  rewrite Rpower_pow by exact Hx. ring.
Qed.

Lemma power_18_two_thirds : 0 < Rpower 18 (2 / 3) <= 7.
Proof.
  assert (H0 : 0 < Rpower 18 (2 / 3)) by (unfold Rpower; apply exp_pos).
  split; [exact H0 |].
  assert (H3 : Rpower 18 (2 / 3) ^ 3 = 324).
  { rewrite Rpower_cube by lra. replace (2 / 3 * 3) with 2 by field.
    rewrite Rpower_square_int by lra. lra. }
  destruct (Rle_dec (Rpower 18 (2 / 3)) 7) as [H | H]; [exact H | exfalso].
  apply Rnot_le_lt in H. set (p := Rpower 18 (2 / 3)) in *.
  assert (49 < p * p) by nra. assert (343 < p * p * p) by nra.
  simpl in H3. lra.
Qed.

Lemma power_18_one_third : 2 <= Rpower 18 (1 / 3).
Proof.
  assert (H0 : 0 < Rpower 18 (1 / 3)) by (unfold Rpower; apply exp_pos).
  assert (H3 : Rpower 18 (1 / 3) ^ 3 = 18).
  { rewrite Rpower_cube by lra. replace (1 / 3 * 3) with 1 by field.
    rewrite Rpower_1 by lra. reflexivity. }
  destruct (Rle_dec 2 (Rpower 18 (1 / 3))) as [H | H]; [exact H | exfalso].
  apply Rnot_le_lt in H. set (p := Rpower 18 (1 / 3)) in *.
  assert (p * p < 4) by nra. assert (p * p * p < 8) by nra.
  simpl in H3. lra.
Qed.

Lemma sqrt_18 : 4 <= sqrt 18.
Proof.
  pose proof (sqrt_sqrt 18 ltac:(lra)) as Hs.
  pose proof (sqrt_pos 18) as Hp.
  destruct (Rle_dec 4 (sqrt 18)) as [H | H]; [exact H | exfalso].
  apply Rnot_le_lt in H. nra.
Qed.

Lemma tesla_boost_18 :
  Spec.teslaBoost 18 = resonance_factor * resonance_factor * resonance_factor.
Proof. unfold Spec.teslaBoost. cbn. ring. Qed.

Lemma tesla_boost_17 : Spec.teslaBoost 17 = 1.
Proof. unfold Spec.teslaBoost. cbn. ring. Qed.

(** The estimate for F-18 exceeds 7.5 MeV per nucleon. *)
Lemma f18_per_nucleon : 7.5 < Spec.estimateBindingEnergy 9 9 / IZR (9 + 9).
Proof.
  unfold Spec.estimateBindingEnergy. change (9 + 9)%Z with 18%Z.
  rewrite tesla_boost_18.
  unfold Spec.semiEmpiricalSum, Spec.volume, Spec.surface, Spec.coulomb,
    Spec.asymmetry, Spec.pairing, Spec.heavyScale, Spec.goldenFactor,
    Spec.consciousnessBoost, Spec.errorCorrection, Spec.power.
  change (9 + 9)%Z with 18%Z. cbn [Spec.isZero Z.eqb Z.even Z.odd andb].
  destruct (Req_dec_T 18 0) as [H | _]; [lra |].
  destruct (Z_gt_dec 18 16) as [_ | H]; [| lia].
  destruct power_18_two_thirds as [Hp0 Hp]. pose proof power_18_one_third as Hq.
  pose proof sqrt_18 as Hs.
  assert (Hl : 0 <= ln 18).
  { rewrite <- ln_1. left. apply ln_increasing; lra. }
  pose proof (SIN_bound (18 / 1.618)) as [Hsin _].
  set (p := Rpower 18 (2 / 3)) in Hp0, Hp |- *.
  set (q := Rpower 18 (1 / 3)) in Hq |- *.
  set (r := sqrt 18) in Hs |- *.
  set (l := ln 18) in Hl |- *.
  set (sn := sin (18 / 1.618)) in Hsin |- *.
  assert (Hiq : 0 < / q <= / 2).
  { split; [apply Rinv_0_lt_compat; lra | apply Rinv_le_contravar; lra]. }
  assert (Hir : 0 < / r <= / 4).
  { split; [apply Rinv_0_lt_compat; lra | apply Rinv_le_contravar; lra]. }
  unfold av, as_, ac, aa, ap, resonance_factor, Rdiv.
  set (iq := / q) in Hiq |- *. set (ir := / r) in Hir |- *.
  assert (Hsemi : 127 <=
    15.75 * 18 + - (17.8 * p) + - (0.711 * (9 * 9) * iq)
    + - (23.7 * ((9 - 9) * (9 - 9)) * / 18) + - (11.18 * ir)) by lra.
  set (semi := 15.75 * 18 + - (17.8 * p) + - (0.711 * (9 * 9) * iq)
    + - (23.7 * ((9 - 9) * (9 - 9)) * / 18) + - (11.18 * ir)) in Hsemi |- *.
  assert (Hh : semi <= semi * (1 + 0.15 * l)) by nra.
  assert (Hk : 1.12 <= 1.05 * 1.05 * 1.05 * (1 + 0.01 * sn) * (1 + 0.820 * 0.02) * 0.965)
    by lra.
  set (k := 1.05 * 1.05 * 1.05 * (1 + 0.01 * sn) * (1 + 0.820 * 0.02) * 0.965) in Hk |- *.
  set (sh := semi * (1 + 0.15 * l)) in Hh |- *.
  assert (127 * 1.12 <= sh * k) by nra.
  lra.
Qed.

(** The classifier gives F-18 a score above the threshold, hence the
    label "stable". *)
Lemma f18_stable :
  exists s, calculate_stability 9 9 = Ok (s, "stable"%string) /\ 0.5 < s.
Proof.
  rewrite calculate_stability_formula;
    [| lia | lia | apply (@swept_in_range "F"); [now left | lia] | reflexivity].
  pose proof f18_per_nucleon as Hb.
  set (b := Spec.estimateBindingEnergy 9 9 / IZR (9 + 9)) in Hb |- *.
  unfold Spec.classifyStability.
  assert (Hs : 0.5 < Spec.score 9 9 b).
  { unfold Spec.score, Spec.bindingAdjustment, Spec.heavyPenalty, Spec.optimalRatio,
      Spec.clamp01.
    change (Spec.isMagic 9) with false.
    destruct (Z_le_dec 9 20) as [_ | H]; [| lia].
    destruct (Z_gt_dec 9 82) as [H | _]; [lia |].
    destruct (Z_gt_dec 9 92) as [H | _]; [lia |].
    replace (9 / 9 - 1) with 0 by field. rewrite Rabs_R0.
    destruct (Rgt_dec b 8.5); [| destruct (Rgt_dec b 7.5); [| lra]];
      unfold Rmax, Rmin;
      match goal with |- context [Rle_dec 1 ?x] => destruct (Rle_dec 1 x) end;
      match goal with |- context [Rle_dec 0 ?x] => destruct (Rle_dec 0 x) end; lra. }
  exists (Spec.score 9 9 b). split; [| exact Hs].
  unfold Spec.decayMode. destruct (Rgt_dec (Spec.score 9 9 b) 0.5); [reflexivity | lra].
Qed.

End Fluorine18.

(** ** The pair Z = 9, N = -1 of the fluorine window *)

Section NegativeNeutrons.
Local Open Scope R_scope.

Local Abbreviation check_isotope :=
  (check_isotope_with calculate_stability calculate_binding_energy).

Lemma neg_neutron_estimate :
  calculate_binding_energy 9 (-1)
  = Ok (NpFloat (Spec.estimateBindingEnergy 9 (-1))).
Proof.
  apply calculate_binding_energy_pos;
    [lia | apply (@swept_in_range "F"); [now left | lia] | reflexivity].
Qed.

(** The asymmetry term alone outweighs the volume term there. *)
Lemma neg_neutron_negative : Spec.estimateBindingEnergy 9 (-1) < 0.
Proof.
  unfold Spec.estimateBindingEnergy. change (9 + -1)%Z with 8%Z.
  assert (Ht : Spec.teslaBoost 8 = 1) by (unfold Spec.teslaBoost; cbn; ring).
  rewrite Ht.
  unfold Spec.semiEmpiricalSum, Spec.volume, Spec.surface, Spec.coulomb,
    Spec.asymmetry, Spec.pairing, Spec.heavyScale, Spec.goldenFactor,
    Spec.consciousnessBoost, Spec.errorCorrection, Spec.power.
  change (9 + -1)%Z with 8%Z. cbn [Spec.isZero Z.eqb Z.even Z.odd andb].
  destruct (Req_dec_T 8 0) as [H | _]; [lra |].
  destruct (Z_gt_dec 8 16) as [H | _]; [lia |].
  assert (Hp : 0 < Rpower 8 (2 / 3)) by (unfold Rpower; apply exp_pos).
  assert (Hq : 0 < / Rpower 8 (1 / 3)).
  { apply Rinv_0_lt_compat. unfold Rpower. apply exp_pos. }
  assert (Hr : 0 < / sqrt 8).
  { apply Rinv_0_lt_compat. apply sqrt_lt_R0. lra. }
  pose proof (SIN_bound (8 / 1.618)) as [Hsin _].
  set (p := Rpower 8 (2 / 3)) in Hp |- *.
  set (q := Rpower 8 (1 / 3)) in Hq |- *.
  set (r := sqrt 8) in Hr |- *.
  set (sn := sin (8 / 1.618)) in Hsin |- *.
  unfold av, as_, ac, aa, ap, Rdiv.
  set (iq := / q) in Hq |- *. set (ir := / r) in Hr |- *.
  assert (Hsemi :
    15.75 * 8 + - (17.8 * p) + - (0.711 * (9 * 9) * iq)
    + - (23.7 * ((-1 - 9) * (-1 - 9)) * / 8) + - (11.18 * ir) <= -170) by lra.
  set (semi := 15.75 * 8 + - (17.8 * p) + - (0.711 * (9 * 9) * iq)
    + - (23.7 * ((-1 - 9) * (-1 - 9)) * / 8) + - (11.18 * ir)) in Hsemi |- *.
  assert (Hk : 0.9 <= 1 * (1 + 0.01 * sn) * (1 + 0.820 * 0.02) * 0.965) by lra.
  set (k := 1 * (1 + 0.01 * sn) * (1 + 0.820 * 0.02) * 0.965) in Hk |- *.
  nra.
Qed.

Lemma neg_neutron_stability :
  calculate_stability 9 (-1) = Ok (0, "beta_plus"%string).
Proof.
  rewrite calculate_stability_formula;
    [| lia | lia | apply (@swept_in_range "F"); [now left | lia] | reflexivity].
  pose proof neg_neutron_negative as Hneg.
  assert (Hb : Spec.estimateBindingEnergy 9 (-1) / IZR (9 + -1) < 0).
  { change (9 + -1)%Z with 8%Z. lra. }
  set (b := Spec.estimateBindingEnergy 9 (-1) / IZR (9 + -1)) in Hb |- *.
  unfold Spec.classifyStability.
  assert (Hs : Spec.score 9 (-1) b = 0).
  { unfold Spec.score, Spec.bindingAdjustment, Spec.heavyPenalty, Spec.optimalRatio,
      Spec.clamp01.
    change (Spec.isMagic 9) with false. change (Spec.isMagic (-1)) with false.
    destruct (Z_le_dec 9 20) as [_ | H]; [| lia].
    destruct (Z_gt_dec 9 82) as [H | _]; [lia |].
    destruct (Z_gt_dec 9 92) as [H | _]; [lia |].
    replace (-1 / 9 - 1) with (- (10 / 9)) by field.
    rewrite Rabs_Ropp, Rabs_pos_eq by lra.
    destruct (Rgt_dec b 8.5); [lra |]. destruct (Rgt_dec b 7.5); [lra |].
    destruct (Rlt_dec b 6.0); [| lra].
    unfold Rmax, Rmin;
      match goal with |- context [Rle_dec 1 ?x] => destruct (Rle_dec 1 x) end;
      match goal with |- context [Rle_dec 0 ?x] => destruct (Rle_dec 0 x) end; lra. }
  rewrite Hs. do 2 f_equal. unfold Spec.decayMode.
  destruct (Rgt_dec 0 0.5); [lra |].
  destruct (Rgt_dec (-1) (1.5 * 9)); [lra |].
  destruct (Rgt_dec 9 (1.2 * -1)); [reflexivity | lra].
Qed.

(** The loop body runs both estimators on that pair and rejects it. *)
Lemma neg_neutron_rejected (acc : list isotope) :
  check_isotope "F" 9 (-1) acc = Ok acc.
Proof.
  unfold check_isotope_with.
  rewrite neg_neutron_stability, neg_neutron_estimate.
  cbn [bind fst snd]. change (9 + -1)%Z with 8%Z.
  change (get_medical ("F"%string, 8%Z) known_medical) with (@None medical_entry).
  unfold medical_range. cbn [fst snd].
  assert (H : Rltb 0.2 0 = false) by (apply Rltb_false; lra).
  rewrite H. reflexivity.
Qed.

End NegativeNeutrons.

(** ** The returned list *)

Section Result.
Local Open Scope R_scope.

Lemma no_override_from_9 (Z N : Z) :
  (9 <= Z)%Z -> lookup (Z, N) known_stable = None.
Proof.
  intros HZ. unfold known_stable. simpl.
  repeat match goal with
  | |- context [(?a =? ?b)%Z] => destruct (Z.eqb_spec a b); simpl; try lia
  end.
  reflexivity.
Qed.

(** For a swept pair the classifier and the estimator take their
    formula paths: the score, the label and the energy of an entry are
    the specification's. *)
Lemma swept_values (element : string) (Z N : Z) s m be c :
  In (element, Z) elements_to_check -> (Z - 10 <= N < Z + 20)%Z ->
  candidate_of element Z N s m be c ->
  be = NpFloat (Spec.estimateBindingEnergy Z N) /\
  s = Spec.score Z N (Spec.estimateBindingEnergy Z N / IZR (Z + N)) /\
  m = Spec.decayMode Z N s.
Proof.
  intros Hel HN (Hs & Hbe & _ & _).
  pose proof (@elements_range element Z Hel) as HZ.
  assert (HA : (0 < Z + N)%Z) by lia.
  pose proof (@no_override_from_9 Z N (proj1 HZ)) as Hl.
  pose proof (@swept_in_range element Z N Hel HN) as Hr.
  rewrite calculate_binding_energy_pos in Hbe;
    [| exact HA | exact Hr | now apply known_stable_covers].
  rewrite calculate_stability_formula in Hs; [| lia | exact HA | exact Hr | exact Hl].
  unfold Spec.classifyStability in Hs.
  injection Hbe as <-. injection Hs as <- <-. repeat split.
Qed.

Lemma known_hits_value : known_hits = 4%nat.
Proof. reflexivity. Qed.

Lemma sorted_prefix (l1 l2 : list isotope) (x y : isotope) :
  StronglySorted key_le (l1 ++ x :: l2) -> In y l1 -> key_le y x.
Proof.
  induction l1 as [| z l1 IH]; cbn [app]; intros Hs Hy; [destruct Hy |].
  apply StronglySorted_inv in Hs. destruct Hs as [Hs Hz].
  destruct Hy as [-> | Hy]; [| now apply IH].
  rewrite Forall_forall in Hz. apply Hz. apply in_or_app. right. now left.
Qed.

Lemma all_known_count (l : list isotope) :
  Forall (fun y => is_known_medical y = true) l ->
  known_count l = List.length l.
Proof.
  induction 1 as [| y l Hy _ IH]; [reflexivity |].
  rewrite known_count_cons, Hy, IH. reflexivity.
Qed.

(** A known entry of the sweep survives the truncation: only known
    entries can stand before it, and there are at most four of those. *)
Lemma known_kept (l : list isotope) (c : isotope) :
  (known_count l <= known_hits)%nat ->
  In c l -> is_known_medical c = true ->
  In c (firstn 20 (sort l)).
Proof.
  intros Hcount Hin Hk. apply sort_In in Hin.
  apply in_split in Hin. destruct Hin as [l1 [l2 Hsplit]].
  pose proof (sort_sorted l) as Hsorted. rewrite Hsplit in Hsorted.
  assert (Hpre : Forall (fun y => is_known_medical y = true) l1).
  { apply Forall_forall. intros y Hy.
    apply key_le_known with (y := c); [| exact Hk].
    now apply sorted_prefix with (l1 := l1) (l2 := l2). }
  assert (Hlen : (List.length l1 < 20)%nat).
  { rewrite <- sort_known_count, Hsplit, known_count_app, known_count_cons in Hcount.
    rewrite (@all_known_count l1 Hpre), Hk, known_hits_value in Hcount. lia. }
  rewrite Hsplit, firstn_app. apply in_or_app. right.
  destruct (20 - List.length l1)%nat as [| k] eqn:E; [lia |].
  cbn [firstn]. now left.
Qed.

End Result.

(** ** Validation against the reference binding energies *)

Section Validation.
Local Open Scope R_scope.

Lemma is_float_value (a : pynum) : is_float a -> value a = Fin (re a).
Proof. destruct a; intros [H1 H2]; try discriminate; reflexivity. Qed.

Lemma no_complex (l : list pynum) :
  Forall (fun a => is_complex a = false) l -> existsb is_complex l = false.
Proof.
  induction 1 as [| b k Hb _ IH]; [reflexivity |].
  cbn [existsb]. now rewrite Hb, IH.
Qed.

Lemma sum_floats (l : list pynum) :
  Forall is_float l ->
  fold_right xadd (Fin 0) (map value l) = Fin (fold_right Rplus 0 (map re l)).
Proof.
  induction 1 as [| a l Ha _ IH]; [reflexivity |].
  cbn [map fold_right]. now rewrite IH, (is_float_value Ha).
Qed.

(** A sum of doubles that is finite has finite terms only. *)
Lemma xadd_fin (a b : xreal) (x : R) :
  xadd a b = Fin x -> (exists y, a = Fin y) /\ (exists z, b = Fin z).
Proof.
  destruct a as [y | s |], b as [z | t |]; cbn [xadd]; try discriminate.
  - intros _. split; eexists; reflexivity.
  - destruct (Bool.eqb s t); discriminate.
Qed.

Lemma sum_fin (l : list xreal) (x : R) :
  fold_right xadd (Fin 0) l = Fin x -> Forall (fun v => exists y, v = Fin y) l.
Proof.
  revert x. induction l as [| v l IH]; intros x H; [constructor |].
  cbn [fold_right] in H. apply xadd_fin in H. destruct H as [Hv [z Hz]].
  constructor; [exact Hv | now apply (IH z)].
Qed.

Lemma INR_length_nonzero {A : Type} (l : list A) : l <> [] -> INR (List.length l) <> 0.
Proof.
  intros Hne. destruct l as [| a l]; [contradiction |].
  apply not_0_INR. discriminate.
Qed.

(** The mean of finite floats is their sum over their number. *)
Lemma np_mean_floats (l : list pynum) :
  l <> [] -> Forall is_float l ->
  np_mean l = NpFloat (fold_right Rplus 0 (map re l) / INR (List.length l)).
Proof.
  intros Hne Hf.
  assert (Hc : existsb is_complex l = false).
  { apply no_complex. revert Hf. apply Forall_impl. now intros a [H _]. }
  pose proof (INR_length_nonzero Hne) as Hn. apply Reqb_false in Hn.
  destruct l as [| a l]; [contradiction |].
  unfold np_mean. rewrite Hc, (sum_floats Hf). cbn [xdiv np_of].
  now rewrite Hn.
Qed.

(** The mean of floats is finite only if the list is not empty and all
    of them are finite. *)
Lemma np_mean_finite (l : list pynum) :
  Forall (fun a => is_complex a = false) l ->
  is_finite (np_mean l) = true ->
  l <> [] /\ Forall is_float l.
Proof.
  intros Hc Hfin. apply no_complex in Hc as Hc'.
  destruct l as [| a l]; [discriminate Hfin |]. split; [discriminate |].
  unfold np_mean in Hfin. rewrite Hc' in Hfin.
  destruct (fold_right xadd (Fin 0) (map value (a :: l))) as [x | s |] eqn:E;
    cbn [xdiv np_of is_finite] in Hfin; try discriminate Hfin.
  apply sum_fin in E. rewrite Forall_map in E.
  rewrite Forall_forall in *. intros b Hb. split; [now apply Hc |].
  destruct (E b Hb) as [y Hy]. destruct b; try reflexivity; discriminate Hy.
Qed.

(** The six names the validation parses: helium-4, whose estimate is
    the literal of the override table, and five pairs of mass number
    above 4, whose estimate is the formula's. *)
Lemma parse_isotope_cases (name : string) (Z N : Z) :
  parse_isotope name = Some (Z, N) ->
  (name = "He-4"%string /\ Z = 2%Z /\ N = 2%Z) \/
  (name <> "He-4"%string /\ (4 < Z + N)%Z /\ in_range Z N).
Proof.
  unfold parse_isotope, in_range. change (2 ^ 64)%Z with 18446744073709551616%Z.
  destruct (String.eqb_spec name "He-4") as [E | E].
  - intros H. injection H as <- <-. now left.
  - repeat match goal with
    | |- context [String.eqb name ?s] => destruct (String.eqb name s)
    end; intros H; first [discriminate H | injection H as <- <-; right; split; [exact E | lia]].
Qed.

Lemma parse_isotope_positive (name : string) (Z N : Z) :
  parse_isotope name = Some (Z, N) -> (0 < Z + N)%Z /\ in_range Z N.
Proof.
  intros H. destruct (parse_isotope_cases _ H) as [(_ & -> & ->) | (_ & HA & Hr)].
  - split; [lia |]. unfold in_range.
    change (2 ^ 64)%Z with 18446744073709551616%Z. lia.
  - split; [lia | exact Hr].
Qed.

(** One turn of the validation loop on an item whose name parses and
    whose reference is not zero. *)
Lemma validate_entry_ok (name : string) (real : R) (Z N : Z)
    (acc : list validation_result) :
  parse_isotope name = Some (Z, N) -> real <> 0 ->
  exists r,
    validate_entry (name, real) acc = Ok (acc ++ [r]) /\
    isotope_name r = name /\ real_be r = real /\ record_ok r.
Proof.
  intros Hp Hr. unfold validate_entry. cbn [fst snd]. rewrite Hp.
  destruct (parse_isotope_positive _ Hp) as [HA Hrange].
  destruct (@calculate_binding_energy_float Z N HA Hrange) as [x [Hx | Hx]];
    rewrite Hx; py_simpl.
  - rewrite py_truediv_float by exact Hr. py_simpl.
    eexists. split; [reflexivity |]. cbn [isotope_name real_be].
    split; [reflexivity | split; [reflexivity |]].
    exists Z, N. cbn [isotope_name real_be calculated_be error_percent].
    py_simpl. now repeat split.
  - rewrite py_truediv_np_float by exact Hr. py_simpl.
    eexists. split; [reflexivity |]. cbn [isotope_name real_be].
    split; [reflexivity | split; [reflexivity |]].
    exists Z, N. cbn [isotope_name real_be calculated_be error_percent].
    py_simpl. now repeat split.
Qed.

(** Helium-4 with a zero reference: the estimate is a Python float, and
    the division raises. *)
Lemma validate_entry_helium_zero (acc : list validation_result) :
  validate_entry ("He-4"%string, 0) acc = Raise ZeroDivisionError.
Proof.
  unfold validate_entry. cbn [fst snd].
  change (parse_isotope "He-4") with (Some (2, 2)%Z). cbn iota beta.
  assert (He : calculate_binding_energy 2 2 = Ok (PyFloat 28.296)).
  { unfold calculate_binding_energy.
    now rewrite (@guarded_lookup_some 2 2 28.296 eq_refl). }
  rewrite He. py_simpl. now rewrite py_truediv_float_zero.
Qed.

(** Another name with a zero reference: the estimate is a numpy float,
    numpy divides, and the record holds an infinity or a NaN. *)
Lemma validate_entry_numpy_zero (name : string) (Z N : Z)
    (acc : list validation_result) :
  parse_isotope name = Some (Z, N) -> name <> "He-4"%string ->
  exists r,
    validate_entry (name, 0) acc = Ok (acc ++ [r]) /\
    isotope_name r = name /\ real_be r = 0 /\
    is_complex (error_percent r) = false /\
    is_finite (error_percent r) = false.
Proof.
  intros Hp Hne. unfold validate_entry. cbn [fst snd]. rewrite Hp.
  destruct (parse_isotope_cases _ Hp) as [(E & _) | (_ & HA & Hr)];
    [contradiction |].
  rewrite calculate_binding_energy_pos;
    [| lia | exact Hr | apply above_four_no_override; lia].
  py_simpl. rewrite py_truediv_np_zero. cbn [bind].
  eexists. split; [reflexivity |].
  cbn [isotope_name real_be error_percent].
  split; [reflexivity |]. split; [reflexivity |].
  destruct (Reqb _ 0); py_simpl; [now split |].
  destruct (Reqb 100 0); now split.
Qed.

(** Every item of the reference dict of [__init__] parses and has a
    reference that is not zero. *)
Lemma reference_items (name : string) (real : R) :
  In (name, real) known_binding_energies ->
  exists Z N, parse_isotope name = Some (Z, N) /\ real <> 0.
Proof.
  unfold known_binding_energies. cbn [In].
  intros H.
  repeat (destruct H as [H | H];
          [injection H as <- <-; do 2 eexists;
           split; [reflexivity | lra] |]).
  destruct H.
Qed.

Lemma validation_loop :
  exists results,
    for_each known_binding_energies validate_entry [] = Ok results /\
    validate_inv known_binding_energies results.
Proof.
  apply (for_each_invariant validate_entry validate_inv known_binding_energies)
    with (done := []).
  - intros done [name real] acc Hin [Hmap Hok].
    destruct (@reference_items name real Hin) as (Z & N & Hp & Hr).
    destruct (@validate_entry_ok name real Z N acc Hp Hr)
      as (r & Hv & Hn & Hre & Hrec).
    exists (acc ++ [r]). split; [exact Hv |]. split.
    + rewrite map_app, Hmap. cbn [map]. now rewrite Hn, Hre.
    + apply Forall_app. split; [exact Hok | now repeat constructor].
  - split; [reflexivity | constructor].
Qed.

Lemma record_ok_float (r : validation_result) :
  record_ok r -> is_float (error_percent r).
Proof. intros (Z & N & _ & _ & _ & _ & Hc & _ & _ & Hf). now split. Qed.

End Validation.

(** ** What the truncation keeps *)

Section Truncation.
Local Open Scope R_scope.

Lemma result_swept (lsweep : list isotope) (c : isotope) :
  Forall swept lsweep -> In c (firstn 20 (sort lsweep)) -> swept c.
Proof.
  intros Hall Hc. apply firstn_In in Hc. apply -> sort_In in Hc.
  rewrite Forall_forall in Hall. now apply Hall.
Qed.

Lemma result_length (lsweep : list isotope) :
  List.length (firstn 20 (sort lsweep)) = Nat.min 20 (List.length lsweep).
Proof. now rewrite length_firstn, (Permutation_length (sort_perm lsweep)). Qed.

(** In a sorted list every entry of a prefix may stand before every
    entry of the rest. *)
Lemma sorted_app (l1 l2 : list isotope) (x y : isotope) :
  StronglySorted key_le (l1 ++ l2) -> In x l1 -> In y l2 -> key_le x y.
Proof.
  induction l1 as [| z l1 IH]; cbn [app]; intros Hs Hx Hy; [destruct Hx |].
  apply StronglySorted_inv in Hs. destruct Hs as [Hs Hz].
  destruct Hx as [-> | Hx]; [| now apply IH].
  rewrite Forall_forall in Hz. apply Hz. apply in_or_app. now right.
Qed.

(** An entry of the sweep that the truncation drops has a key that is
    not smaller than the key of any entry it keeps. *)
Lemma dropped_after_kept (lsweep : list isotope) (c x : isotope) :
  In c lsweep -> ~ In c (firstn 20 (sort lsweep)) ->
  In x (firstn 20 (sort lsweep)) -> key_le x c.
Proof.
  intros Hc Hn Hx. apply sort_In in Hc.
  rewrite <- (firstn_skipn 20 (sort lsweep)) in Hc.
  apply in_app_or in Hc. destruct Hc as [Hc | Hc]; [contradiction |].
  apply sorted_app with (l1 := firstn 20 (sort lsweep)) (l2 := skipn 20 (sort lsweep));
    try assumption.
  rewrite firstn_skipn. apply sort_sorted.
Qed.

(** A key of [known_medical] inside a window gives a returned entry. *)
Lemma known_found (lsweep : list isotope) (element : string) (Z N : Z) :
  outer_inv elements_to_check lsweep ->
  In (element, Z) elements_to_check -> (Z - 10 <= N < Z + 20)%Z ->
  is_known_key element (Z + N) = true ->
  exists c,
    In c (firstn 20 (sort lsweep)) /\ is_known_medical c = true /\
    symbol c = (element ++ "-" ++ py_str (Z + N))%string /\
    iso_Z c = Z /\ iso_N c = N.
Proof.
  intros (O1 & O2 & O3) Hel HN Hk.
  destruct (calculate_stability_in_range (@swept_in_range element Z N Hel HN))
    as (s & m & Hs & _).
  destruct (O3 element Z N s m Hel HN Hs (or_introl Hk)) as (be & c & Hc & Hcand).
  pose proof (candidate_known Hcand) as Hkc. rewrite Hk in Hkc.
  exists c. split; [apply known_kept; assumption |].
  split; [exact Hkc |].
  destruct Hcand as (_ & _ & _ & ->). cbn [symbol iso_Z iso_N]. now repeat split.
Qed.

End Truncation.

(** ** The claims *)

Section Claims.
Local Open Scope R_scope.

(** C1, as amended.  Neither the estimator nor the classifier checks the
    sign of its arguments: for every pair in range with [Z < 0] or
    [N < 0] the estimator returns a number and the classifier returns a
    score in [[0, 1]] with a label.  No invalid-input error is
    raised. *)
Theorem C1_negative_inputs_are_evaluated (Z N : Z) :
  (Z < 0 \/ N < 0)%Z -> in_range Z N ->
  (exists v, calculate_binding_energy Z N = Ok v) /\
  (exists s m, calculate_stability Z N = Ok (s, m) /\ 0 <= s <= 1).
Proof.
  intros _ Hr. split.
  - now apply calculate_binding_energy_in_range.
  - now apply calculate_stability_in_range.
Qed.

(** C1 at Z = 9, N = -1. *)
Lemma C1_negative_inputs_witness :
  (9 < 0 \/ -1 < 0)%Z /\ in_range 9 (-1) /\
  (exists v, calculate_binding_energy 9 (-1) = Ok v) /\
  (exists s m, calculate_stability 9 (-1) = Ok (s, m) /\ 0 <= s <= 1).
Proof.
  split; [right; reflexivity |].
  split; [repeat split |].
  apply (@C1_negative_inputs_are_evaluated 9 (-1)).
  - right. reflexivity.
  - repeat split.
Defined.

(** C1 as the specification states it fails at Z = 9, N = -1: the
    neutron count is negative, and both calls return a value where the
    claim wants an invalid-input error. *)
Lemma C1_counterexample :
  (-1 < 0)%Z /\
  calculate_binding_energy 9 (-1)
  = Ok (NpFloat (Spec.estimateBindingEnergy 9 (-1))) /\
  calculate_stability 9 (-1) = Ok (0, "beta_plus"%string) /\
  (forall e, calculate_binding_energy 9 (-1) <> Raise e) /\
  (forall e, calculate_stability 9 (-1) <> Raise e).
Proof.
  split; [reflexivity |].
  split; [exact neg_neutron_estimate |].
  split; [exact neg_neutron_stability |].
  split; intros e.
  - rewrite neg_neutron_estimate. discriminate.
  - rewrite neg_neutron_stability. discriminate.
Qed.

(** C2.  Outside the light-nuclide table, for a mass number that is not
    negative and arguments in range, the estimate is the semi-empirical
    sum, times [1 + 0.15 ln A] if and only if [A > 16], times
    teslaBoost, goldenFactor, consciousnessBoost and errorCorrection;
    teslaBoost is [resonance_factor] cubed at A = 18 and 1 at A = 17. *)
Theorem C2_estimate_is_enhanced_formula :
  (forall Z N : Z,
     lookup (Z, N) special_cases = None -> (0 <= Z + N)%Z -> in_range Z N ->
     calculate_binding_energy Z N
     = Ok (NpFloat (Spec.estimateBindingEnergy Z N))) /\
  Spec.teslaBoost 18 = resonance_factor ^ 3 /\
  Spec.teslaBoost 17 = 1 /\
  tesla_boost 18 = resonance_factor ^ 3 /\
  tesla_boost 17 = 1.
Proof.
  split; [| split; [| split; [| split]]].
  - intros Z N Hl HA Hr. destruct (Z.eq_dec (Z + N) 0) as [H0 | H0].
    + now apply calculate_binding_energy_zero.
    + apply calculate_binding_energy_pos; [lia | exact Hr | exact Hl].
  - rewrite tesla_boost_18. ring.
  - apply tesla_boost_17.
  - rewrite tesla_boost_spec, tesla_boost_18. ring.
  - rewrite tesla_boost_spec. apply tesla_boost_17.
Qed.

(** C2 at Z = 26, N = 30 (Fe-56). *)
Lemma C2_estimate_witness :
  lookup (26, 30)%Z special_cases = None /\ (0 <= 26 + 30)%Z /\
  in_range 26 30 /\
  calculate_binding_energy 26 30
  = Ok (NpFloat (Spec.estimateBindingEnergy 26 30)).
Proof.
  split; [reflexivity |]. split; [discriminate |]. split; [repeat split |].
  apply (proj1 C2_estimate_is_enhanced_formula 26%Z 30%Z).
  - reflexivity.
  - discriminate.
  - repeat split.
Defined.

(** C3.  On each of the five light-nuclide keys the estimator returns
    the literal of the table as it stands, a Python float that went
    through neither the heavy-nucleus scaling nor the enhancement. *)
Theorem C3_overrides_are_literal :
  (forall (Z N : Z) (v : R),
     lookup (Z, N) special_cases = Some v ->
     calculate_binding_energy Z N = Ok (PyFloat v)) /\
  map fst special_cases = [(1, 0); (1, 1); (1, 2); (2, 1); (2, 2)]%Z /\
  calculate_binding_energy 2 2 = Ok (PyFloat 28.296) /\
  calculate_binding_energy 1 1 = Ok (PyFloat 2.225).
Proof.
  assert (H : forall (Z N : Z) (v : R),
             lookup (Z, N) special_cases = Some v ->
             calculate_binding_energy Z N = Ok (PyFloat v)).
  { intros Z N v Hl. unfold calculate_binding_energy.
    now rewrite (guarded_lookup_some _ _ Hl). }
  split; [exact H |]. split; [reflexivity |].
  split; apply H; reflexivity.
Qed.

(** C3 at the key (1, 2) (tritium). *)
Lemma C3_overrides_witness :
  lookup (1, 2)%Z special_cases = Some 8.482 /\
  calculate_binding_energy 1 2 = Ok (PyFloat 8.482).
Proof.
  split; [reflexivity |].
  apply (proj1 C3_overrides_are_literal 1%Z 2%Z 8.482). reflexivity.
Defined.



(** C5.  On each of the eight stability override keys the classifier
    returns (0.8, "stable") or (0.3, "radioactive") as the table says;
    with Z = 0 it returns (0.0, "impossible"). *)
Theorem C5_overrides_and_zero_protons :
  (forall (Z N : Z) (stable : bool),
     lookup (Z, N) known_stable = Some stable ->
     calculate_stability Z N
     = Ok (if stable then (0.8, "stable"%string)
           else (0.3, "radioactive"%string))) /\
  List.length known_stable = 8%nat /\
  (forall N : Z, lookup (0%Z, N) known_stable = None) /\
  (forall N : Z, calculate_stability 0 N = Ok (0.0, "impossible"%string)) /\
  calculate_stability 6 6 = Ok (0.8, "stable"%string) /\
  calculate_stability 0 5 = Ok (0.0, "impossible"%string).
Proof.
  assert (H0 : forall N : Z, lookup (0%Z, N) known_stable = None).
  { intros N. reflexivity. }
  assert (Hz : forall N : Z,
             calculate_stability 0 N = Ok (0.0, "impossible"%string)).
  { intros N. unfold calculate_stability. now rewrite H0. }
  assert (Ho : forall (Z N : Z) (stable : bool),
             lookup (Z, N) known_stable = Some stable ->
             calculate_stability Z N
             = Ok (if stable then (0.8, "stable"%string)
                   else (0.3, "radioactive"%string))).
  { intros Z N stable Hl. unfold calculate_stability. rewrite Hl.
    now destruct stable. }
  split; [exact Ho |]. split; [reflexivity |]. split; [exact H0 |].
  split; [exact Hz |]. split; [| apply Hz].
  apply (Ho 6%Z 6%Z true). reflexivity.
Qed.

(** C5 at the key (6, 8) (carbon-14, marked unstable). *)
Lemma C5_overrides_witness :
  lookup (6, 8)%Z known_stable = Some false /\
  calculate_stability 6 8 = Ok (0.3, "radioactive"%string).
Proof.
  split; [reflexivity |].
  apply (proj1 C5_overrides_and_zero_protons 6%Z 8%Z false). reflexivity.
Defined.

(** C6.  For Z >= 1 and N >= 0, every score that the classifier returns
    lies in the closed interval [[0, 1]], on the override path and on
    the clamped path alike; and the classifier does return one when the
    mass number is below 2^64. *)
Theorem C6_score_in_unit_interval (Z N : Z) :
  (1 <= Z)%Z -> (0 <= N)%Z ->
  (forall s m, calculate_stability Z N = Ok (s, m) -> 0 <= s <= 1) /\
  ((Z + N < 2 ^ 64)%Z ->
   exists s m, calculate_stability Z N = Ok (s, m) /\ 0 <= s <= 1).
Proof.
  intros HZ HN. split.
  - intros s m. apply calculate_stability_score.
  - intros HA. apply calculate_stability_in_range. unfold in_range. lia.
Qed.

(** C6 at Z = 92, N = 146 (U-238). *)
Lemma C6_score_witness :
  (1 <= 92)%Z /\ (0 <= 146)%Z /\ (92 + 146 < 2 ^ 64)%Z /\
  exists s m, calculate_stability 92 146 = Ok (s, m) /\ 0 <= s <= 1.
Proof.
  split; [discriminate |]. split; [discriminate |]. split; [reflexivity |].
  apply (proj2 (@C6_score_in_unit_interval 92 146 ltac:(discriminate)
                  ltac:(discriminate))).
  reflexivity.
Defined.

(** C7.  The search sweeps, for each element of the table, the neutron
    counts of the half-open window [[Z - 10, Z + 20)]: the list before
    the sort holds exactly the accepted pairs of those windows.  The
    sort rearranges that list, stably, into ascending order of the key;
    the result is its first 20 entries, or all of them when there are
    fewer: entries of the sweep, among them every known medical isotope
    of the sweep, and what is cut off has no smaller key than what is
    kept.  An entry flagged as known has stability exactly 0.4; a known
    entry never stands after an entry that is not known, and among
    entries with the same flag the distance [|stability - 0.4|] does
    not decrease. *)
Theorem C7_search_result :
  exists lsweep l,
    sweep = Ok lsweep /\
    find_medical_isotopes = Ok l /\
    l = firstn 20 (sort lsweep) /\
    (forall Z N : Z,
       In N (py_range (Z - 10) (Z + 20)) <-> (Z - 10 <= N < Z + 20)%Z) /\
    (forall Z : Z, List.length (py_range (Z - 10) (Z + 20)) = 30%nat) /\
    Forall swept lsweep /\
    (forall element (Z N : Z) s m,
       In (element, Z) elements_to_check -> (Z - 10 <= N < Z + 20)%Z ->
       calculate_stability Z N = Ok (s, m) ->
       is_known_key element (Z + N) = true \/ 0.2 < s < 0.7 ->
       exists be c, In c lsweep /\ candidate_of element Z N s m be c) /\
    Permutation (sort lsweep) lsweep /\
    StronglySorted key_le (sort lsweep) /\
    (forall k, with_key k (sort lsweep) = with_key k lsweep) /\
    List.length l = Nat.min 20 (List.length lsweep) /\
    (List.length l <= 20)%nat /\
    Forall swept l /\
    (forall c, In c l -> In c lsweep) /\
    (forall c, In c lsweep -> is_known_medical c = true -> In c l) /\
    (forall element (Z N : Z),
       In (element, Z) elements_to_check -> (Z - 10 <= N < Z + 20)%Z ->
       is_known_key element (Z + N) = true ->
       exists c, In c l /\ is_known_medical c = true /\
                 symbol c = (element ++ "-" ++ py_str (Z + N))%string /\
                 iso_Z c = Z /\ iso_N c = N) /\
    (forall c x, In c lsweep -> ~ In c l -> In x l -> key_le x c) /\
    (forall c, In c l -> is_known_medical c = true -> stability c = 0.4) /\
    (forall l1 x l2 y l3,
       l = l1 ++ x :: l2 ++ y :: l3 ->
       (is_known_medical y = true -> is_known_medical x = true) /\
       (is_known_medical x = is_known_medical y ->
        Rabs (stability x - 0.4) <= Rabs (stability y - 0.4))).
Proof.
  destruct sweep_spec as [lsweep [Hsweep Hinv]].
  pose proof Hinv as (O1 & O2 & O3).
  exists lsweep, (firstn 20 (sort lsweep)).
  split; [exact Hsweep |].
  split.
  { unfold find_medical_isotopes, find_medical_isotopes_with.
    fold sweep. now rewrite Hsweep. }
  split; [reflexivity |].
  split; [intros Z N; apply py_range_In |].
  split; [intros Z; rewrite py_range_length; f_equal; lia |].
  split; [exact O1 |].
  split; [exact O3 |].
  split; [apply sort_perm |].
  split; [apply sort_sorted |].
  split; [intros k; apply sort_stable |].
  split; [apply result_length |].
  split; [apply firstn_le_length |].
  split; [apply Forall_forall; intros c Hc; now apply (@result_swept lsweep) |].
  split; [intros c Hc; apply firstn_In in Hc; now apply -> sort_In in Hc |].
  split.
  { intros c Hc Hk. apply known_kept; [| exact Hc | exact Hk].
    fold known_hits in O2. exact O2. }
  split; [intros element Z N; now apply known_found |].
  split; [intros c x; apply dropped_after_kept |].
  split.
  - intros c Hc Hk. apply firstn_In in Hc. apply -> sort_In in Hc.
    rewrite Forall_forall in O1.
    destruct (O1 c Hc) as (element & Z & N & s & m & be & _ & _ & Hcand).
    pose proof (candidate_known Hcand) as Hkc. rewrite Hk in Hkc.
    destruct Hcand as (_ & _ & _ & ->). cbn [stability]. now rewrite <- Hkc.
  - intros l1 x l2 y l3 Hl.
    pose proof (firstn_sorted 20 (sort_sorted lsweep)) as Hs.
    rewrite Hl in Hs.
    assert (Hxy : key_le x y).
    { apply sorted_before with (l1 := l1) (l2 := l2 ++ y :: l3); [exact Hs |].
      apply in_or_app. right. now left. }
    split; [now apply key_le_known | now apply key_le_distance].
Qed.

(** C8, as amended.  Over the reference dict of [__init__] the
    validation returns six records, one per item and in order, none
    dropped; each holds the estimate of its pair and the percent error
    [|estimate - reference| / reference * 100]; the average is the sum
    of the six percent errors over 6; and every reference is nonzero,
    so no division by zero occurs there. *)
Theorem C8_validation_of_reference_set :
  exists results avg,
    validate_against_known_values known_binding_energies
    = Ok (results, NpFloat avg) /\
    List.length results = 6%nat /\
    map (fun r => (isotope_name r, real_be r)) results = known_binding_energies /\
    Forall record_ok results /\
    avg = fold_right Rplus 0 (map (fun r => re (error_percent r)) results) / 6.
Proof.
  destruct validation_loop as [results [Hloop [Hmap Hok]]].
  assert (Hlen : List.length results = 6%nat).
  { rewrite <- (length_map (fun r => (isotope_name r, real_be r))), Hmap.
    reflexivity. }
  exists results.
  exists (fold_right Rplus 0 (map (fun r => re (error_percent r)) results) / 6).
  split; [| repeat split; assumption].
  unfold validate_against_known_values. rewrite Hloop. cbn [bind].
  rewrite np_mean_floats.
  - rewrite length_map, Hlen, map_map. do 3 f_equal. simpl. lra.
  - destruct results; [discriminate Hlen | discriminate].
  - apply Forall_map. revert Hok. apply Forall_impl.
    intros r. apply record_ok_float.
Qed.

(** C8 as the specification states it fails when the helium reference
    of the dict is zero: the item is not skipped, the division raises
    [ZeroDivisionError] and the validation returns no record at all. *)
Lemma C8_counterexample :
  validate_against_known_values
    [("He-4"%string, 0.0); ("C-12"%string, 92.162); ("O-16"%string, 127.619);
     ("Fe-56"%string, 492.254); ("U-235"%string, 1783.9);
     ("U-238"%string, 1801.7)]
  = Raise ZeroDivisionError.
Proof.
  unfold validate_against_known_values. cbn [for_each].
  replace 0.0 with 0 by lra.
  now rewrite validate_entry_helium_zero.
Qed.

(** C9.  Fluorine has Z = 9 in the element table, its window
    [range(Z - 10, Z + 20)] contains N = -1, and (F, 9, -1) is the
    first of the triples the loops of the search go through.  The
    search calls the classifier and then the estimator on that pair:
    whatever the two methods are, an exception of either call at
    (9, -1) is the outcome of the search.  The finder's own two methods
    return values there (no branch rejects the negative count, none
    raises), and the loop body, having run both, leaves the list as it
    is. *)
Theorem C9_search_evaluates_negative_neutron_count :
  In ("F"%string, 9%Z) elements_to_check /\
  In (-1)%Z (py_range (9 - 10) (9 + 20)) /\
  (exists rest, sweep_pairs = ("F"%string, 9%Z, (-1)%Z) :: rest) /\
  (forall cs cb,
     sweep_with cs cb
     = for_each sweep_pairs
         (fun t medical_isotopes =>
            check_isotope_with cs cb (fst (fst t)) (snd (fst t)) (snd t)
              medical_isotopes) []) /\
  (forall cs cb e,
     cs 9%Z (-1)%Z = Raise e -> find_medical_isotopes_with cs cb = Raise e) /\
  (forall cs cb sd e,
     cs 9%Z (-1)%Z = Ok sd -> cb 9%Z (-1)%Z = Raise e ->
     find_medical_isotopes_with cs cb = Raise e) /\
  find_medical_isotopes
  = find_medical_isotopes_with calculate_stability calculate_binding_energy /\
  calculate_binding_energy 9 (-1)
  = Ok (NpFloat (Spec.estimateBindingEnergy 9 (-1))) /\
  calculate_stability 9 (-1) = Ok (0, "beta_plus"%string) /\
  (forall acc,
     check_isotope_with calculate_stability calculate_binding_energy
       "F" 9 (-1) acc = Ok acc).
Proof.
  split; [left; reflexivity |].
  split; [apply py_range_In; lia |].
  split; [exact sweep_pairs_head |].
  split; [exact sweep_flat |].
  split.
  { intros cs cb e H. unfold find_medical_isotopes_with.
    now rewrite (proj1 (first_calls cs cb) e H). }
  split.
  { intros cs cb sd e H1 H2. unfold find_medical_isotopes_with.
    now rewrite (proj2 (first_calls cs cb) sd e H1 H2). }
  split; [reflexivity |].
  split; [exact neg_neutron_estimate |].
  split; [exact neg_neutron_stability | exact neg_neutron_rejected].
Qed.

(** C9 with a classifier that raises [TypeError] on every pair. *)
Lemma C9_search_witness :
  (fun _ _ : Z => @Raise (R * string) TypeError) 9%Z (-1)%Z = Raise TypeError /\
  find_medical_isotopes_with
    (fun _ _ => Raise TypeError) calculate_binding_energy
  = Raise TypeError.
Proof.
  split; [reflexivity |].
  apply (proj1 (proj2 (proj2 (proj2 (proj2
           C9_search_evaluates_negative_neutron_count))))
           (fun _ _ => Raise TypeError) calculate_binding_energy TypeError).
  reflexivity.
Defined.

(** C10.  Every returned entry keeps the label and the binding energy
    that the classifier and the estimator computed for its pair, and
    its other fields, the medical use among them, are those of the
    pair; when the entry is a known medical isotope its stability is
    the forced 0.4, whatever the computed score, and its half-life is
    [exp(10 * 0.4) / 100]; when it is not, both come from the computed
    score.  Fluorine-18 is returned with stability 0.4 and the label
    "stable", which the classifier derived from a score above 0.5. *)
Theorem C10_forced_stability_keeps_label :
  exists l,
    find_medical_isotopes = Ok l /\
    (forall c, In c l ->
       exists (element : string) (Z N : BinNums.Z) (s : R) (m : string)
              (be : pynum),
         In (element, Z) elements_to_check /\
         (Z - 10 <= N < Z + 20)%Z /\
         calculate_stability Z N = Ok (s, m) /\
         m = Spec.decayMode Z N s /\
         calculate_binding_energy Z N = Ok be /\
         decay_mode c = m /\
         binding_energy c = be /\
         iso_Z c = Z /\ iso_N c = N /\ iso_A c = (Z + N)%Z /\
         symbol c = (element ++ "-" ++ py_str (Z + N))%string /\
         is_known_medical c = is_known_key element (Z + N) /\
         medical_use c
         = match get_medical (element, (Z + N)%Z) known_medical with
           | Some e => use e
           | None => "Research"%string
           end /\
         mhm_optimized c = true /\
         (is_known_medical c = true ->
          stability c = 0.4 /\ half_life_hours c = exp (10 * 0.4) / 100) /\
         (is_known_medical c = false ->
          stability c = s /\ half_life_hours c = exp (10 * s) / 100 /\
          medical_use c = "Research"%string)) /\
    (exists c s,
       In c l /\ symbol c = "F-18"%string /\ is_known_medical c = true /\
       calculate_stability 9 9 = Ok (s, "stable"%string) /\ 0.5 < s /\
       stability c = 0.4 /\ decay_mode c = "stable"%string /\
       half_life_hours c = exp (10 * 0.4) / 100 /\
       medical_use c = "PET imaging"%string).
Proof.
  destruct sweep_spec as [lsweep [Hsweep (O1 & O2 & O3)]].
  exists (firstn 20 (sort lsweep)).
  split.
  { unfold find_medical_isotopes, find_medical_isotopes_with.
    fold sweep. now rewrite Hsweep. }
  split.
  - intros c Hc. apply firstn_In in Hc. apply -> sort_In in Hc.
    rewrite Forall_forall in O1.
    destruct (O1 c Hc) as (element & Z & N & s & m & be & Hel & HN & Hcand).
    destruct (@swept_values element Z N s m be c Hel HN Hcand)
      as (_ & _ & Hm).
    exists element, Z, N, s, m, be.
    destruct Hcand as (Hs & Hbe & _ & ->).
    cbn [decay_mode binding_energy iso_Z iso_N iso_A symbol is_known_medical
         mhm_optimized stability half_life_hours medical_use].
    repeat (split; [first [assumption | reflexivity] |]).
    split; intros Hk; rewrite Hk; (split; [reflexivity |]);
      [reflexivity | split; [reflexivity |]].
    unfold is_known_key in Hk.
    destruct (get_medical (element, (Z + N)%Z) known_medical);
      [discriminate Hk | reflexivity].
  - destruct f18_stable as [s [Hs Hgt]].
    destruct (O3 "F"%string 9%Z 9%Z s "stable"%string) as (be & c & Hc & Hcand).
    + left. reflexivity.
    + lia.
    + exact Hs.
    + left. reflexivity.
    + exists c, s.
      pose proof (candidate_known Hcand) as Hk.
      change (is_known_key "F" (9 + 9)) with true in Hk.
      split; [apply known_kept; assumption |].
      destruct Hcand as (_ & _ & _ & ->).
      cbn [symbol is_known_medical stability decay_mode half_life_hours
           medical_use].
      change (is_known_key "F" (9 + 9)) with true. cbn iota.
      repeat split; assumption.
Qed.

End Claims.

(** ** Further properties of the estimator and of the enhancement layer *)

Section EstimatorProperties.
Local Open Scope R_scope.

(** X1.  The resonance factor of the enhancement is 1 exactly when 3
    does not divide the mass number, and is [resonance_factor] cubed
    exactly when 18 divides it (every multiple of 6 or of 9 is one of
    3, so the moduli stack); it always lies between the two. *)
Theorem X1_tesla_boost_values (A : Z) :
  1 <= tesla_boost A <= resonance_factor ^ 3 /\
  (tesla_boost A = 1 <-> (A mod 3 <> 0)%Z) /\
  (tesla_boost A = resonance_factor ^ 3 <-> (A mod 18 = 0)%Z).
Proof.
  unfold tesla_boost, tesla_numbers, resonance_factor. cbn [fold_left pow].
  destruct (Z.eqb_spec (A mod 3) 0) as [H3 | H3];
    destruct (Z.eqb_spec (A mod 6) 0) as [H6 | H6];
    destruct (Z.eqb_spec (A mod 9) 0) as [H9 | H9];
    (split; [lra |]); split; split; intros H; try lra;
    try (exfalso; revert H; try revert H3; try revert H6; try revert H9;
         Z.div_mod_to_equations; lia);
    try (revert H; try revert H3; try revert H6; try revert H9;
         Z.div_mod_to_equations; lia).
Qed.

(** X2.  As long as the mass number converts to a float (its magnitude
    is below 2^1024 - 2^970), the enhancement multiplies a float of magnitude at most 1e300 by a
    factor between 0.971 and 1.147 that depends on the mass number
    only, and returns a [numpy.float64]: it changes a value by less
    than 15 percent and never changes its sign.  A mass number too
    large for a float makes it raise [OverflowError], whatever the
    value. *)
Theorem X2_enhancement_is_a_bounded_factor :
  exists k : Z -> R,
    (forall A, 0.971 <= k A <= 1.147) /\
    (forall (Z N : BinNums.Z) x,
       (Z.abs (Z + N) < 2 ^ 1024 - 2 ^ 970)%Z -> Rabs x <= 1e300 ->
       apply_mhm_enhancement Z N (PyFloat x) = Ok (NpFloat (x * k (Z + N)%Z)) /\
       apply_mhm_enhancement Z N (NpFloat x) = Ok (NpFloat (x * k (Z + N)%Z))) /\
    (forall (Z N : BinNums.Z) v,
       (2 ^ 1024 - 2 ^ 970 <= Z.abs (Z + N))%Z ->
       apply_mhm_enhancement Z N v = Raise OverflowError).
Proof.
  exists (fun A => Spec.teslaBoost A * Spec.goldenFactor A
                   * Spec.consciousnessBoost * Spec.errorCorrection).
  split; [intros A; apply enhancement_factor_bounds |]. split.
  - intros Z N x HA _. split;
      [now apply apply_mhm_enhancement_float | now apply apply_mhm_enhancement_np].
  - intros Z N v. apply apply_mhm_enhancement_overflow.
Qed.

(** X2 at Z = 9, N = 9 and the value 100. *)
Lemma X2_enhancement_witness :
  (Z.abs (9 + 9) < 2 ^ 1024 - 2 ^ 970)%Z /\ Rabs 100 <= 1e300 /\
  exists k : R,
    0.971 <= k <= 1.147 /\
    apply_mhm_enhancement 9 9 (PyFloat 100) = Ok (NpFloat (100 * k)).
Proof.
  split; [reflexivity |].
  assert (H100 : Rabs 100 <= 1e300) by (rewrite Rabs_pos_eq; lra).
  split; [exact H100 |].
  destruct X2_enhancement_is_a_bounded_factor as (k & Hk & Hok & _).
  exists (k 18%Z). split; [apply Hk |].
  apply (proj1 (Hok 9%Z 9%Z 100 eq_refl H100)).
Defined.

(** X3.  With mass number zero (N = -Z, the empty nucleus included) the
    guards [A > 0] skip every division and the estimate is the float 0:
    no division by zero happens. *)
Theorem X3_zero_mass_number_estimate (Z : Z) :
  calculate_binding_energy Z (- Z) = Ok (NpFloat 0).
Proof.
  rewrite calculate_binding_energy_zero by lia. do 2 f_equal.
  unfold Spec.estimateBindingEnergy, Spec.semiEmpiricalSum, Spec.volume,
    Spec.surface, Spec.coulomb, Spec.asymmetry, Spec.pairing, Spec.power.
  replace (Z + - Z)%Z with 0%Z by lia. cbn [Spec.isZero Z.eqb].
  destruct (Req_dec_T 0 0) as [_ | H]; [| exfalso; apply H; reflexivity].
  ring.
Qed.



(** X18.  An isotope whose mass number does not fit 64 bits is beyond
    the estimator and the classifier: for every pair with a mass number
    of 2^64 or more the estimator raises [TypeError] ([numpy.sqrt] or
    [numpy.log] rejects the Python [int]) or [OverflowError] (an [int]
    is too large for a float), and so does the classifier for Z >= 1
    and N >= 0; at (2^64, 0) and at (2^64 + 1, -1) the exception is
    [TypeError]. *)
Theorem X18_mass_number_beyond_64_bits :
  (forall Z N : Z,
     (2 ^ 64 <= Z + N)%Z ->
     exists e, calculate_binding_energy Z N = Raise e /\
               (e = TypeError \/ e = OverflowError)) /\
  (forall Z N : Z,
     (1 <= Z)%Z -> (0 <= N)%Z -> (2 ^ 64 <= Z + N)%Z ->
     exists e, calculate_stability Z N = Raise e) /\
  calculate_binding_energy (2 ^ 64) 0 = Raise TypeError /\
  calculate_binding_energy (2 ^ 64 + 1) (-1) = Raise TypeError /\
  calculate_stability (2 ^ 64) 0 = Raise TypeError.
Proof.
  split; [apply calculate_binding_energy_large |].
  split; [apply calculate_stability_large |].
  assert (H1 : calculate_binding_energy (2 ^ 64) 0 = Raise TypeError).
  { unfold calculate_binding_energy.
    rewrite (guarded_lookup_none _ _ (@above_four_no_override (2 ^ 64) 0 eq_refl)).
    unfold mul_int, div_int, py_pow.
    rewrite !float_of_int_ok by reflexivity.
    change (0 <? 2 ^ 64 + 0)%Z with true. py_simpl.
    rewrite py_truediv_float by apply Rpower_nonzero.
    rewrite py_truediv_float by (apply IZR_pos_nonzero; reflexivity).
    cbn [bind]. rewrite np_sqrt_large by discriminate.
    change ((0 mod 2 =? 0)%Z && (2 ^ 64 mod 2 =? 0)%Z)%bool with true.
    reflexivity. }
  split; [exact H1 |]. split.
  - unfold calculate_binding_energy.
    rewrite (guarded_lookup_none _ _
               (@above_four_no_override (2 ^ 64 + 1) (-1) eq_refl)).
    unfold mul_int, div_int, py_pow.
    rewrite !float_of_int_ok by reflexivity.
    change (0 <? 2 ^ 64 + 1 + -1)%Z with true. py_simpl.
    rewrite py_truediv_float by apply Rpower_nonzero.
    rewrite py_truediv_float by (apply IZR_pos_nonzero; reflexivity).
    cbn [bind]. rewrite np_sqrt_large by discriminate.
    change ((-1 mod 2 =? 0)%Z && ((2 ^ 64 + 1) mod 2 =? 0)%Z)%bool with false.
    change ((-1 mod 2 =? 1)%Z && ((2 ^ 64 + 1) mod 2 =? 1)%Z)%bool with true.
    reflexivity.
  - unfold calculate_stability.
    change (lookup ((2 ^ 64)%Z, 0%Z) known_stable) with (@None bool).
    change (2 ^ 64 =? 0)%Z with false.
    rewrite int_truediv_ok by (try discriminate; reflexivity).
    rewrite optimal_ratio_spec by reflexivity.
    cbn [bind]. rewrite H1. reflexivity.
Qed.

(** X18 at Z = 2^64 + 5, N = 7. *)
Lemma X18_mass_number_witness :
  (2 ^ 64 <= 2 ^ 64 + 5 + 7)%Z /\
  exists e, calculate_binding_energy (2 ^ 64 + 5) 7 = Raise e /\
            (e = TypeError \/ e = OverflowError).
Proof.
  split; [discriminate |].
  apply (proj1 X18_mass_number_beyond_64_bits (2 ^ 64 + 5)%Z 7%Z).
  discriminate.
Defined.

End EstimatorProperties.

(** ** Further properties of the classifier *)

Section ClassifierProperties.
Local Open Scope R_scope.

Lemma decay_mode_stable (Z N : Z) (s : R) :
  Spec.decayMode Z N s = "stable"%string <-> 0.5 < s.
Proof.
  unfold Spec.decayMode. destruct (Rgt_dec s 0.5) as [H | H].
  - split; [intros _; lra | reflexivity].
  - split; [| intros; lra].
    destruct (Rgt_dec (IZR N) (1.5 * IZR Z)); [discriminate |].
    destruct (Rgt_dec (IZR Z) (1.2 * IZR N)); [discriminate |].
    destruct (Z_gt_dec Z 82); discriminate.
Qed.

(** X5.  Whenever the classifier returns, the label is "stable" exactly
    when the score exceeds 0.5, on the override path, on the Z = 0 path
    and on the scored path alike: a result never pairs "stable" with a
    score at or below the threshold, nor another label with a score
    above it.  In range the classifier does return. *)
Theorem X5_stable_label_iff_above_threshold (Z N : Z) :
  (forall s m,
     calculate_stability Z N = Ok (s, m) ->
     (m = "stable"%string <-> 0.5 < s)) /\
  (in_range Z N -> exists s m, calculate_stability Z N = Ok (s, m)).
Proof.
  split.
  - intros s m H.
    destruct (calculate_stability_returns _ _ H)
      as [[stable [_ E]] | [[_ E] | (_ & _ & b & E)]]; injection E as -> ->.
    + destruct stable; split; intros; try lra; try reflexivity; discriminate.
    + split; [discriminate | lra].
    + apply decay_mode_stable.
  - intros Hr. destruct (calculate_stability_in_range Hr) as (s & m & H & _).
    now exists s, m.
Qed.

(** X5 at Z = 26, N = 30. *)
Lemma X5_stable_label_witness :
  in_range 26 30 /\ exists s m, calculate_stability 26 30 = Ok (s, m).
Proof.
  split; [repeat split |].
  apply (proj2 (X5_stable_label_iff_above_threshold 26 30)). repeat split.
Defined.



(** The score of the scored path is at most 0.4164 beyond Z = 92: the
    two penalties take away 0.8 of at most 1.2. *)
Lemma score_beyond_uranium (Z N : Z) (b : R) :
  (92 < Z)%Z -> Spec.score Z N b <= 0.4164.
Proof.
  intros HZ. unfold Spec.score, Spec.heavyPenalty, Spec.bindingAdjustment,
    Spec.clamp01.
  destruct (Z_gt_dec Z 82); [| lia]. destruct (Z_gt_dec Z 92); [| lia].
  pose proof (Rabs_pos (IZR N / IZR Z - Spec.optimalRatio Z)) as Ha.
  set (a := Rabs (IZR N / IZR Z - Spec.optimalRatio Z)) in *.
  unfold Rmax, Rmin.
  destruct (Spec.isMagic Z), (Spec.isMagic N);
    destruct (Rgt_dec b 8.5); try destruct (Rgt_dec b 7.5);
    try destruct (Rlt_dec b 6.0);
    match goal with |- context [Rle_dec 1 ?x] => destruct (Rle_dec 1 x) end;
    match goal with |- context [Rle_dec 0 ?x] => destruct (Rle_dec 0 x) end;
    lra.
Qed.

(** X7.  Beyond uranium (Z > 92) the classifier never answers "stable":
    whenever it returns, the score is at most 0.4164, whatever the
    neutron count and the binding energy.  In range it does return. *)
Theorem X7_transuranics_never_stable (Z N : Z) :
  (92 < Z)%Z ->
  (forall s m,
     calculate_stability Z N = Ok (s, m) ->
     s <= 0.4164 /\ m <> "stable"%string) /\
  (in_range Z N -> exists s m, calculate_stability Z N = Ok (s, m)).
Proof.
  intros HZ. split.
  - intros s m H.
    destruct (calculate_stability_returns _ _ H)
      as [[stable [Hl _]] | [[H0 _] | (_ & _ & b & E)]].
    + apply override_has_protons in Hl. lia.
    + lia.
    + injection E as -> ->.
      pose proof (@score_beyond_uranium Z N b HZ) as Hs.
      split; [exact Hs |].
      intros E. apply decay_mode_stable in E. lra.
  - intros Hr. destruct (calculate_stability_in_range Hr) as (s & m & H & _).
    now exists s, m.
Qed.

(** X7 at Z = 94, N = 145 (Pu-239). *)
Lemma X7_transuranics_witness :
  (92 < 94)%Z /\ in_range 94 145 /\
  exists s m, calculate_stability 94 145 = Ok (s, m).
Proof.
  split; [reflexivity |]. split; [repeat split |].
  apply (proj2 (@X7_transuranics_never_stable 94 145 eq_refl)). repeat split.
Defined.

End ClassifierProperties.

(** ** Further properties of the search *)

Section SearchProperties.
Local Open Scope R_scope.

(** X8.  Every returned entry has a stability strictly inside the
    medical band (0.2, 0.7), known or not; so its half-life is always
    [exp(10 * stability) / 100], between [exp(2)/100] and [exp(7)/100]
    hours, and the fallback value 0.1 of the source is never the
    half-life of a returned entry. *)
Theorem X8_returned_entries_are_in_the_band :
  exists l,
    find_medical_isotopes = Ok l /\
    forall c, In c l ->
      0.2 < stability c < 0.7 /\
      half_life_hours c = exp (10 * stability c) / 100 /\
      exp 2 / 100 < half_life_hours c < exp 7 / 100.
Proof.
  destruct sweep_spec as [lsweep [Hsweep (O1 & _ & _)]].
  exists (firstn 20 (sort lsweep)).
  split.
  { unfold find_medical_isotopes, find_medical_isotopes_with.
    fold sweep. now rewrite Hsweep. }
  intros c Hc.
  destruct (@result_swept lsweep c O1 Hc) as (element & Z & N & s & m & be & _ & _ & Hcand).
  destruct Hcand as (_ & _ & Hacc & ->).
  cbn [stability half_life_hours].
  set (st := if is_known_key element (Z + N) then 0.4 else s).
  assert (Hst : 0.2 < st < 0.7).
  { unfold st. destruct (is_known_key element (Z + N)); [lra |].
    destruct Hacc as [H | H]; [discriminate | exact H]. }
  split; [exact Hst |]. split; [reflexivity |].
  assert (H2 : exp 2 < exp (10 * st)) by (apply exp_increasing; lra).
  assert (H7 : exp (10 * st) < exp 7) by (apply exp_increasing; lra).
  lra.
Qed.

Lemma get_medical_In (k : string * Z) (d : list ((string * Z) * medical_entry))
    (v : medical_entry) :
  get_medical k d = Some v -> In k (map fst d).
Proof.
  induction d as [| [k' v'] d IH]; cbn [get_medical map fst In]; [discriminate |].
  destruct (String.eqb_spec (fst k) (fst k')) as [E1 | E1]; cbn [andb].
  - destruct (Z.eqb_spec (snd k) (snd k')) as [E2 | E2].
    + intros _. left. destruct k, k'. cbn [fst snd] in *. congruence.
    + intros H. right. now apply IH.
  - intros H. right. now apply IH.
Qed.

(** The pairs of the sweep that are keys of [known_medical]: iodine-131
    and lutetium-177 are keys too, but their neutron counts 78 and 106
    lie beyond the windows of Z = 53 and Z = 71. *)
Lemma known_pairs (element : string) (Z N : Z) :
  In (element, Z) elements_to_check -> (Z - 10 <= N < Z + 20)%Z ->
  is_known_key element (Z + N) = true ->
  In (element, Z, N)
     [("F"%string, 9%Z, 9%Z); ("Tc"%string, 43%Z, 56%Z);
      ("Co"%string, 27%Z, 33%Z); ("Y"%string, 39%Z, 51%Z)].
Proof.
  intros Hel HN Hk. unfold is_known_key in Hk.
  destruct (get_medical (element, (Z + N)%Z) known_medical) as [v |] eqn:E;
    [| discriminate Hk].
  apply get_medical_In in E. clear Hk v.
  unfold elements_to_check in Hel. unfold known_medical in E.
  cbn [In map fst] in Hel, E.
  repeat (destruct Hel as [Hel | Hel];
    [ injection Hel as <- <-;
      repeat (destruct E as [E | E];
        [ first
            [ discriminate E
            | pose proof (f_equal snd E) as HA; cbn [snd] in HA;
              first [ exfalso; lia
                    | left; repeat f_equal; lia
                    | right; left; repeat f_equal; lia
                    | right; right; left; repeat f_equal; lia
                    | right; right; right; left; repeat f_equal; lia ] ]
        | ]);
      try destruct E
    | ]);
  try destruct Hel.
Qed.

(** X17.  Although the sweep evaluates the pair Z = 9, N = -1, no
    returned entry has a negative neutron count: that pair is rejected,
    and every other window starts at N >= 17.  Every returned entry has
    9 <= Z <= 75, A = Z + N >= 9 and a binding energy that is a float. *)
Theorem X17_returned_entries_have_no_negative_neutron_count :
  exists l,
    find_medical_isotopes = Ok l /\
    forall c, In c l ->
      (0 <= iso_N c)%Z /\ (9 <= iso_Z c <= 75)%Z /\
      iso_A c = (iso_Z c + iso_N c)%Z /\ (9 <= iso_A c)%Z /\
      binding_energy c
      = NpFloat (Spec.estimateBindingEnergy (iso_Z c) (iso_N c)).
Proof.
  destruct sweep_spec as [lsweep [Hsweep (O1 & _ & _)]].
  exists (firstn 20 (sort lsweep)).
  split.
  { unfold find_medical_isotopes, find_medical_isotopes_with.
    fold sweep. now rewrite Hsweep. }
  intros c Hc.
  destruct (@result_swept lsweep c O1 Hc)
    as (element & Z & N & s & m & be & Hel & HN & Hcand).
  pose proof (@elements_range element Z Hel) as HZ.
  destruct (@swept_values element Z N s m be c Hel HN Hcand)
    as (Hbe & _ & _).
  assert (H0 : (0 <= N)%Z).
  { destruct (Z_lt_le_dec N 0) as [Hneg | Hpos]; [exfalso | exact Hpos].
    assert (Z = 9%Z /\ N = (-1)%Z) as [-> ->] by lia.
    assert (element = "F"%string).
    { unfold elements_to_check in Hel. cbn [In] in Hel.
      repeat (destruct Hel as [Hel | Hel]; [congruence |]).
      destruct Hel. }
    subst element.
    destruct Hcand as (Hs & _ & Hacc & _).
    rewrite neg_neutron_stability in Hs. injection Hs as <- _.
    destruct Hacc as [Hk | Hb]; [discriminate Hk | lra]. }
  destruct Hcand as (_ & _ & _ & ->).
  cbn [iso_N iso_Z iso_A binding_energy].
  repeat split; try lia. exact Hbe.
Qed.

Lemma known_count_firstn (n : nat) (l : list isotope) :
  (known_count (firstn n l) <= known_count l)%nat.
Proof.
  revert n. induction l as [| x l IH]; intros [| n]; cbn [firstn];
    try (unfold known_count; cbn; lia).
  rewrite !known_count_cons. specialize (IH n). lia.
Qed.

(** X9.  The search returns exactly four entries flagged as known
    medical isotopes: F-18, Tc-99, Co-60 and Y-90.  The other two keys
    of [known_medical], I-131 (N = 78) and Lu-177 (N = 106), are never
    found, because those neutron counts lie outside the windows that
    are swept for Z = 53 and Z = 71. *)
Theorem X9_four_known_isotopes_are_found :
  exists l,
    find_medical_isotopes = Ok l /\
    known_count l = 4%nat /\
    (forall c, In c l -> is_known_medical c = true ->
       In (symbol c, iso_Z c, iso_N c)
          [("F-18"%string, 9%Z, 9%Z); ("Tc-99"%string, 43%Z, 56%Z);
           ("Co-60"%string, 27%Z, 33%Z); ("Y-90"%string, 39%Z, 51%Z)]) /\
    (forall t,
       In t [("F-18"%string, 9%Z, 9%Z); ("Tc-99"%string, 43%Z, 56%Z);
             ("Co-60"%string, 27%Z, 33%Z); ("Y-90"%string, 39%Z, 51%Z)] ->
       exists c, In c l /\ is_known_medical c = true /\
                 (symbol c, iso_Z c, iso_N c) = t) /\
    (forall c, In c l ->
       (iso_Z c, iso_N c) <> (53%Z, 78%Z) /\ (iso_Z c, iso_N c) <> (71%Z, 106%Z)).
Proof.
  destruct sweep_spec as [lsweep [Hsweep Hinv]].
  pose proof Hinv as (O1 & O2 & O3).
  exists (firstn 20 (sort lsweep)).
  split.
  { unfold find_medical_isotopes, find_medical_isotopes_with.
    fold sweep. now rewrite Hsweep. }
  destruct (@known_found lsweep "F" 9 9 Hinv) as (c1 & H1 & K1 & S1 & Z1 & N1);
    [cbn; auto 20 | lia | reflexivity |].
  destruct (@known_found lsweep "Tc" 43 56 Hinv) as (c2 & H2 & K2 & S2 & Z2 & N2);
    [cbn; auto 20 | lia | reflexivity |].
  destruct (@known_found lsweep "Co" 27 33 Hinv) as (c3 & H3 & K3 & S3 & Z3 & N3);
    [cbn; auto 20 | lia | reflexivity |].
  destruct (@known_found lsweep "Y" 39 51 Hinv) as (c4 & H4 & K4 & S4 & Z4 & N4);
    [cbn; auto 20 | lia | reflexivity |].
  split; [| split; [| split]].
  - apply Nat.le_antisymm.
    + pose proof (known_count_firstn 20 (sort lsweep)) as Hle.
      rewrite sort_known_count in Hle. fold known_hits in O2.
      rewrite known_hits_value in O2. lia.
    + unfold known_count.
      change 4%nat with (List.length [c1; c2; c3; c4]).
      apply NoDup_incl_length.
      * repeat constructor; cbn [In]; intros H;
          repeat (destruct H as [H | H]; [subst; congruence |]); exact H.
      * intros c Hc. apply filter_In. cbn [In] in Hc.
        destruct Hc as [<- | [<- | [<- | [<- | []]]]]; now split.
  - intros c Hc Hk.
    destruct (@result_swept lsweep c O1 Hc)
      as (element & Z & N & s & m & be & Hel & HN & Hcand).
    pose proof (candidate_known Hcand) as Hkc. rewrite Hk in Hkc.
    pose proof (@known_pairs element Z N Hel HN (eq_sym Hkc)) as Hp.
    destruct Hcand as (_ & _ & _ & ->). cbn [symbol iso_Z iso_N].
    cbn [In] in Hp |- *.
    destruct Hp as [E | [E | [E | [E | []]]]]; injection E as <- <- <-; auto 10.
  - intros t Ht. cbn [In] in Ht.
    destruct Ht as [<- | [<- | [<- | [<- | []]]]].
    + exists c1. now rewrite S1, Z1, N1.
    + exists c2. now rewrite S2, Z2, N2.
    + exists c3. now rewrite S3, Z3, N3.
    + exists c4. now rewrite S4, Z4, N4.
  - intros c Hc.
    destruct (@result_swept lsweep c O1 Hc)
      as (element & Z & N & s & m & be & Hel & HN & Hcand).
    destruct Hcand as (_ & _ & _ & ->). cbn [iso_Z iso_N].
    split; intros E; injection E as -> ->; lia.
Qed.

End SearchProperties.

(** ** Further properties of the validation *)

Section ValidationProperties.
Local Open Scope R_scope.

Lemma validate_loop_skips (l : list (string * R))
    (acc : list validation_result) :
  for_each l validate_entry acc
  = for_each
      (filter (fun e => match parse_isotope (fst e) with
                        | Some _ => true
                        | None => false
                        end) l)
      validate_entry acc.
Proof.
  revert acc. induction l as [| e l IH]; intros acc; [reflexivity |].
  cbn [filter for_each].
  destruct (parse_isotope (fst e)) as [p |] eqn:E.
  - cbn [for_each]. destruct (validate_entry e acc) as [a | x]; cbn [bind];
      [apply IH | reflexivity].
  - unfold validate_entry at 1. rewrite E. cbn [bind]. apply IH.
Qed.

(** X10.  Items of the reference dict whose name is not one of the six
    names the parser knows are skipped: they change neither the records
    nor the average, nor whether the validation fails. *)
Theorem X10_unrecognised_names_are_skipped (l : list (string * R)) :
  validate_against_known_values l
  = validate_against_known_values
      (filter (fun e => match parse_isotope (fst e) with
                        | Some _ => true
                        | None => false
                        end) l).
Proof.
  unfold validate_against_known_values. now rewrite <- validate_loop_skips.
Qed.

(** What the loop does with a list of items: it raises when an item is
    helium-4 with a zero reference; otherwise it appends one record per
    recognised item, in order; a record with a zero reference holds an
    infinity or a NaN, and any other record is well formed. *)
Lemma validate_loop_outcome (l : list (string * R))
    (acc : list validation_result) :
  (In ("He-4"%string, 0) l ->
   for_each l validate_entry acc = Raise ZeroDivisionError) /\
  (~ In ("He-4"%string, 0) l ->
   exists more,
     for_each l validate_entry acc = Ok (acc ++ more) /\
     map (fun r => (isotope_name r, real_be r)) more = filter recognised l /\
     Forall record_shape more).
Proof.
  revert acc. induction l as [| [name real] l IH]; intros acc.
  - split; [intros [] |]. intros _. exists []. rewrite app_nil_r.
    split; [reflexivity |]. split; [reflexivity | constructor].
  - assert (Hstep :
      (name = "He-4"%string /\ real = 0 /\
       validate_entry (name, real) acc = Raise ZeroDivisionError) \/
      (~ (name = "He-4"%string /\ real = 0) /\
       exists one,
         validate_entry (name, real) acc = Ok (acc ++ one) /\
         map (fun r => (isotope_name r, real_be r)) one
         = filter recognised [(name, real)] /\
         Forall record_shape one)).
    { unfold recognised. cbn [filter fst].
      destruct (parse_isotope name) as [[Z N] |] eqn:Hp.
      - destruct (Req_dec_T real 0) as [H0 | H0].
        + subst real. destruct (string_dec name "He-4") as [E | E].
          * left. subst name. split; [reflexivity |]. split; [reflexivity |].
            apply validate_entry_helium_zero.
          * right. split; [now intros [? _] |].
            destruct (@validate_entry_numpy_zero name Z N acc Hp E)
              as (r & Hv & Hn & Hre & Hc & Hf).
            exists [r]. split; [exact Hv |]. cbn [map]. rewrite Hn, Hre.
            split; [reflexivity |]. constructor; [| constructor].
            split; [exact Hc |]. rewrite Hre. split; [intros _; exact Hf |].
            intros H. now contradiction H.
        + right. split; [now intros [_ ?] |].
          destruct (@validate_entry_ok name real Z N acc Hp H0)
            as (r & Hv & Hn & Hre & Hrec).
          exists [r]. split; [exact Hv |]. cbn [map]. rewrite Hn, Hre.
          split; [reflexivity |]. constructor; [| constructor].
          destruct (record_ok_float Hrec) as [Hc Hf].
          split; [exact Hc |]. rewrite Hre. split; [intros H; contradiction |].
          intros _. exact Hrec.
      - right. split.
        + intros [-> _]. discriminate Hp.
        + exists []. rewrite app_nil_r. unfold validate_entry. cbn [fst].
          rewrite Hp. split; [reflexivity |]. split; [reflexivity | constructor]. }
    cbn [for_each].
    destruct Hstep as [(-> & -> & Hv) | (Hne & one & Hv & Hmap & Hall)]; rewrite Hv;
      cbn [bind].
    + split; [reflexivity |]. intros Hn. exfalso. apply Hn. now left.
    + destruct (IH (acc ++ one)) as [IH1 IH2]. split.
      * intros [E | Hin]; [injection E as -> ->; now contradiction Hne |].
        now apply IH1.
      * intros Hn. destruct IH2 as (more & Hf & Hm & Ha).
        { intros Hin. apply Hn. now right. }
        exists (one ++ more). rewrite app_assoc. split; [exact Hf |].
        split.
        -- rewrite map_app, Hmap, Hm. cbn [filter].
           destruct (recognised (name, real)); reflexivity.
        -- apply Forall_app. now split.
Qed.

Lemma He4_zero_dec (l : list (string * R)) :
  In ("He-4"%string, 0) l \/ ~ In ("He-4"%string, 0) l.
Proof.
  induction l as [| [name real] l [IH | IH]].
  - right. intros [].
  - left. now right.
  - destruct (string_dec name "He-4") as [E | E].
    + destruct (Req_dec_T real 0) as [H0 | H0].
      * left. left. now subst.
      * right. intros [H | H]; [injection H as _ H; contradiction | contradiction].
    + right. intros [H | H]; [injection H as H _; contradiction | contradiction].
Qed.

(** X11.  The validation over a reference dict raises, with
    [ZeroDivisionError], exactly when the dict gives helium-4 (the one
    name whose estimate is a Python float) a zero reference.  Otherwise
    it returns one record per recognised name, in order, and an
    average: NaN when no name is recognised, and an infinity or a NaN
    when a recognised name has a zero reference (numpy divides by zero
    and goes on).  When a name is recognised and the recognised
    references are at least 1 in absolute value, every record is well
    formed and the average is the finite mean of the percent errors. *)
Theorem X11_validation_outcome (l : list (string * R)) :
  (validate_against_known_values l = Raise ZeroDivisionError
   <-> In ("He-4"%string, 0) l) /\
  (~ In ("He-4"%string, 0) l ->
   exists results avg,
     validate_against_known_values l = Ok (results, avg) /\
     map (fun r => (isotope_name r, real_be r)) results = filter recognised l /\
     (filter recognised l = [] -> avg = NpNaN) /\
     ((exists e, In e l /\ recognised e = true /\ snd e = 0) ->
      is_finite avg = false) /\
     ((exists e, In e l /\ recognised e = true) ->
      (forall e, In e l -> recognised e = true -> 1 <= Rabs (snd e)) ->
      Forall record_ok results /\
      avg = NpFloat
              (fold_right Rplus 0 (map (fun r => re (error_percent r)) results)
               / INR (List.length results)))).
Proof.
  destruct (validate_loop_outcome l []) as [Hraise Hok].
  assert (Hret : ~ In ("He-4"%string, 0) l ->
    exists results avg,
      validate_against_known_values l = Ok (results, avg) /\
      map (fun r => (isotope_name r, real_be r)) results = filter recognised l /\
      (filter recognised l = [] -> avg = NpNaN) /\
      ((exists e, In e l /\ recognised e = true /\ snd e = 0) ->
       is_finite avg = false) /\
      ((exists e, In e l /\ recognised e = true) ->
       (forall e, In e l -> recognised e = true -> 1 <= Rabs (snd e)) ->
       Forall record_ok results /\
       avg = NpFloat
               (fold_right Rplus 0 (map (fun r => re (error_percent r)) results)
                / INR (List.length results)))).
  { intros Hn. destruct (Hok Hn) as (results & Hloop & Hmap & Hall).
    cbn [app] in Hloop.
    exists results, (np_mean (map error_percent results)).
    unfold validate_against_known_values. rewrite Hloop. cbn [bind].
    split; [reflexivity |]. split; [exact Hmap |].
    assert (Hc : Forall (fun a => is_complex a = false)
                   (map error_percent results)).
    { apply Forall_map. revert Hall. apply Forall_impl. now intros r [H _]. }
    assert (Hrec : forall e, In e l -> recognised e = true ->
              exists r, In r results /\ real_be r = snd e).
    { intros [name real] Hin Hr.
      assert (Hf : In (name, real) (filter recognised l))
        by (apply filter_In; now split).
      rewrite <- Hmap in Hf. apply in_map_iff in Hf.
      destruct Hf as (r & E & Hr'). injection E as _ E. now exists r. }
    assert (Hback : forall r, In r results ->
              In (isotope_name r, real_be r) l /\
              recognised (isotope_name r, real_be r) = true).
    { intros r Hr. apply filter_In. rewrite <- Hmap.
      apply in_map_iff. now exists r. }
    split; [| split].
    - intros Hnil. rewrite Hnil in Hmap. apply map_eq_nil in Hmap.
      now subst results.
    - intros (e & Hin & Hr & H0).
      destruct (is_finite (np_mean (map error_percent results))) eqn:Hfin;
        [exfalso | reflexivity].
      destruct (np_mean_finite Hc Hfin) as [_ Hfl].
      destruct (Hrec e Hin Hr) as (r & Hr' & Hre).
      rewrite Forall_map in Hfl. rewrite Forall_forall in Hfl, Hall.
      destruct (Hfl r Hr') as [_ Hf]. destruct (Hall r Hr') as (_ & Hz & _).
      rewrite Hz in Hf; [discriminate Hf | congruence].
    - intros (e & Hin & Hr) Hbig.
      assert (Hoks : Forall record_ok results).
      { rewrite Forall_forall in *. intros r Hr'.
        destruct (Hall r Hr') as (_ & _ & Hnz). apply Hnz.
        destruct (Hback r Hr') as [Hin' Hrec'].
        specialize (Hbig _ Hin' Hrec'). cbn [snd] in Hbig.
        intros E. rewrite E, Rabs_R0 in Hbig. lra. }
      split; [exact Hoks |].
      rewrite np_mean_floats.
      + now rewrite length_map, map_map.
      + destruct (Hrec e Hin Hr) as (r & Hr' & _).
        intros E. apply map_eq_nil in E. subst results. destruct Hr'.
      + apply Forall_map. revert Hoks. apply Forall_impl.
        intros r. apply record_ok_float. }
  split; [| exact Hret]. split.
  - intros H. destruct (He4_zero_dec l) as [Hin | Hn]; [exact Hin |].
    destruct (Hret Hn) as (results & avg & E & _). rewrite E in H. discriminate H.
  - intros Hin. unfold validate_against_known_values.
    now rewrite (Hraise Hin).
Qed.

(** X11 on the dict that holds carbon-12 alone, with a zero reference:
    one record, and an average that is not finite. *)
Lemma X11_validation_witness :
  ~ In ("He-4"%string, 0) [("C-12"%string, 0)] /\
  exists results avg,
    validate_against_known_values [("C-12"%string, 0)] = Ok (results, avg) /\
    map (fun r => (isotope_name r, real_be r)) results = [("C-12"%string, 0)] /\
    is_finite avg = false.
Proof.
  assert (Hn : ~ In ("He-4"%string, 0) [("C-12"%string, 0)]).
  { intros [E | []]. discriminate E. }
  split; [exact Hn |].
  destruct (proj2 (X11_validation_outcome [("C-12"%string, 0)]) Hn)
    as (results & avg & E & Hmap & _ & Hfin & _).
  exists results, avg. split; [exact E |]. split; [exact Hmap |].
  apply Hfin. exists ("C-12"%string, 0). split; [now left |]. now split.
Defined.

End ValidationProperties.

(** ** The data validator *)

Section ValidatorProperties.
Local Open Scope R_scope.

Lemma medical_loop_spec
    (categories : list (list (string * list (string * Validator.pyval))))
    (isotope_name : string) (matches : Z) :
  Validator.medical_loop categories isotope_name matches
  = (matches
     + if existsb (fun c => Validator.contains c isotope_name) categories
       then 1 else 0)%Z.
Proof.
  induction categories as [| c cs IH]; cbn [Validator.medical_loop existsb].
  - lia.
  - destruct (Validator.contains c isotope_name); cbn [orb]; [reflexivity | exact IH].
Qed.

Lemma existsb_map_snd {A B : Type} (f : B -> bool) (l : list (A * B)) :
  existsb f (map snd l) = existsb (fun x => f (snd x)) l.
Proof.
  induction l as [| x l IH]; cbn [map existsb]; [reflexivity | now rewrite IH].
Qed.

Lemma count_cons (f : Validator.prediction -> bool) (p : Validator.prediction)
    (ps : list Validator.prediction) :
  Validator.count f (p :: ps)
  = ((if f p then 1 else 0) + Validator.count f ps)%Z.
Proof.
  unfold Validator.count. cbn [filter]. destruct (f p); cbn [List.length]; lia.
Qed.

Lemma count_bounds (f : Validator.prediction -> bool)
    (ps : list Validator.prediction) :
  (0 <= Validator.count f ps <= Z.of_nat (List.length ps))%Z.
Proof.
  unfold Validator.count. pose proof (filter_length_le f ps). lia.
Qed.

(** One turn of the loop adds the prediction's own contribution to each
    counter and list. *)
Lemma validate_prediction_spec (p : Validator.prediction)
    (vr : Validator.validation_results) :
  Validator.validate_prediction p vr = Validator.after_loop [p] vr.
Proof.
  unfold Validator.validate_prediction, Validator.after_loop.
  rewrite medical_loop_spec, existsb_map_snd.
  rewrite !count_cons. unfold Validator.count. cbn [filter List.length flat_map map].
  fold (Validator.in_nist p). fold (Validator.is_medical p).
  fold (Validator.has_magic_number p).
  unfold Validator.accuracy_of, Validator.is_novel.
  fold (Validator.in_nist p).
  f_equal.
  - destruct (Validator.in_nist p); lia.
  - rewrite app_nil_r. destruct (Validator.in_nist p); [| now rewrite app_nil_r].
    destruct (Validator.get Validator.binding_energies (Validator.isotope_name_of p));
      [| now rewrite app_nil_r].
    destruct (Rltb 0 r); [reflexivity | now rewrite app_nil_r].
  - destruct (Validator.has_magic_number p); lia.
  - destruct (Validator.is_medical p); lia.
  - destruct (negb (Validator.in_nist p)
              && Rltb 0.5 match Validator.p_discovery_score p with
                          | Some x => x
                          | None => 0
                          end)%bool;
      cbn [map]; [reflexivity | now rewrite app_nil_r].
Qed.

Lemma after_loop_app (ps qs : list Validator.prediction)
    (vr : Validator.validation_results) :
  Validator.after_loop qs (Validator.after_loop ps vr)
  = Validator.after_loop (ps ++ qs) vr.
Proof.
  unfold Validator.after_loop. cbn.
  unfold Validator.count. rewrite !filter_app, !length_app, flat_map_app, map_app.
  rewrite <- !app_assoc. f_equal; lia.
Qed.

Lemma loop_spec (ps : list Validator.prediction)
    (vr : Validator.validation_results) :
  fold_left (fun vr prediction => Validator.validate_prediction prediction vr) ps vr
  = Validator.after_loop ps vr.
Proof.
  revert vr. induction ps as [| p ps IH]; intros vr; cbn [fold_left].
  - unfold Validator.after_loop, Validator.count. cbn.
    rewrite !app_nil_r, !Z.add_0_r. now destruct vr.
  - rewrite IH, validate_prediction_spec.
    now rewrite after_loop_app.
Qed.

Lemma map_re_floats (l : list R) : map re (map PyFloat l) = l.
Proof. induction l as [| x l IH]; cbn [map re]; [reflexivity | now rewrite IH]. Qed.

Lemma floats_are_floats (l : list R) : Forall is_float (map PyFloat l).
Proof. induction l; cbn [map]; constructor; [now split | assumption]. Qed.

(** What the validator returns on a list that is not empty. *)
Lemma validator_result (p : Validator.prediction)
    (ps : list Validator.prediction) :
  Validator.validate_isotope_finder_predictions (p :: ps)
  = Ok {| Validator.total_predictions := Z.of_nat (List.length (p :: ps));
          Validator.validated_against_nist :=
            Validator.count Validator.in_nist (p :: ps);
          Validator.binding_energy_accuracy :=
            flat_map Validator.accuracy_of (p :: ps);
          Validator.magic_number_predictions :=
            Validator.count Validator.has_magic_number (p :: ps);
          Validator.medical_isotope_matches :=
            Validator.count Validator.is_medical (p :: ps);
          Validator.novel_discoveries :=
            map Validator.discovery_of (filter Validator.is_novel (p :: ps));
          Validator.accuracy_metrics :=
            match flat_map Validator.accuracy_of (p :: ps) with
            | [] => []
            | _ :: _ =>
                [("binding_energy_accuracy"%string,
                  NpFloat
                    (fold_right Rplus 0 (flat_map Validator.accuracy_of (p :: ps))
                     / INR (List.length
                              (flat_map Validator.accuracy_of (p :: ps)))))]
            end
            ++ [("nist_validation_rate"%string,
                 PyFloat
                   (IZR (Validator.count Validator.in_nist (p :: ps))
                    / IZR (Z.of_nat (List.length (p :: ps)))))] |}.
Proof.
  unfold Validator.validate_isotope_finder_predictions.
  rewrite loop_spec. set (l := p :: ps).
  unfold Validator.after_loop.
  cbn [Validator.total_predictions Validator.validated_against_nist
       Validator.binding_energy_accuracy Validator.magic_number_predictions
       Validator.medical_isotope_matches Validator.novel_discoveries
       Validator.accuracy_metrics app Z.add].
  assert (Hd : int_truediv (Validator.count Validator.in_nist l)
                 (Z.of_nat (List.length l))
               = Ok (IZR (Validator.count Validator.in_nist l)
                     / IZR (Z.of_nat (List.length l)))).
  { pose proof (count_bounds Validator.in_nist l) as Hc.
    apply int_truediv_le; [unfold l; cbn [List.length]; lia | lia]. }
  destruct (flat_map Validator.accuracy_of l) as [| a accs] eqn:E.
  - cbn [bind app]. rewrite Hd. reflexivity.
  - rewrite np_mean_floats;
      [| discriminate | apply floats_are_floats].
    rewrite map_re_floats, length_map. cbn [bind app]. rewrite Hd. reflexivity.
Qed.


(** X13.  The counters of the result are counts over the predictions:
    those whose name is a NIST key, those with a magic proton or
    neutron number, those whose name is in a medical category (once,
    whatever the number of categories); each lies between 0 and the
    number of predictions. *)
Theorem X13_validator_counters (p : Validator.prediction)
    (ps : list Validator.prediction) :
  exists r,
    Validator.validate_isotope_finder_predictions (p :: ps) = Ok r /\
    Validator.total_predictions r = Z.of_nat (List.length (p :: ps)) /\
    Validator.validated_against_nist r
    = Validator.count Validator.in_nist (p :: ps) /\
    Validator.magic_number_predictions r
    = Validator.count Validator.has_magic_number (p :: ps) /\
    Validator.medical_isotope_matches r
    = Validator.count Validator.is_medical (p :: ps) /\
    (0 <= Validator.validated_against_nist r <= Validator.total_predictions r)%Z /\
    (0 <= Validator.magic_number_predictions r <= Validator.total_predictions r)%Z /\
    (0 <= Validator.medical_isotope_matches r <= Validator.total_predictions r)%Z.
Proof.
  eexists. split; [apply validator_result |].
  cbn [Validator.total_predictions Validator.validated_against_nist
       Validator.magic_number_predictions Validator.medical_isotope_matches].
  repeat (split; [reflexivity |]).
  repeat split; apply count_bounds.
Qed.

Lemma accuracy_of_le_1 (p : Validator.prediction) (a : R) :
  In a (Validator.accuracy_of p) ->
  a <= 1 /\
  exists real_be,
    Validator.get Validator.binding_energies (Validator.isotope_name_of p)
    = Some real_be /\
    0 < real_be /\
    a = 1 - Rabs (match Validator.p_binding_energy p with
                  | Some b => b
                  | None => 0
                  end - real_be) / real_be.
Proof.
  unfold Validator.accuracy_of.
  destruct (Validator.in_nist p); [| intros []].
  destruct (Validator.get Validator.binding_energies (Validator.isotope_name_of p))
    as [real_be |]; [| intros []].
  destruct (Rltb 0 real_be) eqn:E; [| intros []].
  apply Rltb_true in E. intros [<- | []].
  split; [| exists real_be; now repeat split].
  match goal with |- 1 - Rabs ?x / _ <= 1 => pose proof (Rabs_pos x) as Ha end.
  assert (0 <= Rabs (match Validator.p_binding_energy p with
                     | Some b => b
                     | None => 0
                     end - real_be) / real_be).
  { apply Rmult_le_pos; [exact Ha |]. left. now apply Rinv_0_lt_compat. }
  lra.
Qed.

Lemma accuracy_length (ps : list Validator.prediction) :
  (Z.of_nat (List.length (flat_map Validator.accuracy_of ps))
   <= Validator.count Validator.in_nist ps)%Z.
Proof.
  induction ps as [| p ps IH]; [unfold Validator.count; cbn; lia |].
  cbn [flat_map]. rewrite length_app, count_cons.
  assert (H : (List.length (Validator.accuracy_of p)
               <= if Validator.in_nist p then 1 else 0)%nat).
  { unfold Validator.accuracy_of. destruct (Validator.in_nist p); [| cbn; lia].
    destruct (Validator.get _ _); [| cbn; lia].
    destruct (Rltb 0 r); cbn; lia. }
  destruct (Validator.in_nist p); lia.
Qed.

(** X14.  The accuracies of the result are those of the predictions
    whose name is a NIST key with a positive reference binding energy,
    in order: each is [1 - |predicted - reference| / reference], at most
    1, and there are no more of them than validated predictions.  A
    reference that is not positive (H-1, 0.0) contributes none, so the
    loop never divides by zero. *)
Theorem X14_validator_accuracies (p : Validator.prediction)
    (ps : list Validator.prediction) :
  exists r,
    Validator.validate_isotope_finder_predictions (p :: ps) = Ok r /\
    Validator.binding_energy_accuracy r
    = flat_map Validator.accuracy_of (p :: ps) /\
    (forall q a, In a (Validator.accuracy_of q) ->
       a <= 1 /\
       exists real_be,
         Validator.get Validator.binding_energies (Validator.isotope_name_of q)
         = Some real_be /\
         0 < real_be /\
         a = 1 - Rabs (match Validator.p_binding_energy q with
                       | Some b => b
                       | None => 0
                       end - real_be) / real_be) /\
    Forall (fun a => a <= 1) (Validator.binding_energy_accuracy r) /\
    (Z.of_nat (List.length (Validator.binding_energy_accuracy r))
     <= Validator.validated_against_nist r)%Z /\
    (forall q, Validator.isotope_name_of q = "H-1"%string ->
       Validator.in_nist q = true /\ Validator.accuracy_of q = []).
Proof.
  eexists. split; [apply validator_result |].
  cbn [Validator.binding_energy_accuracy Validator.validated_against_nist].
  split; [reflexivity |]. split; [apply accuracy_of_le_1 |]. split; [| split].
  - apply Forall_forall. intros a Ha. apply in_flat_map in Ha.
    destruct Ha as (q & _ & Hq). now apply (accuracy_of_le_1 q).
  - apply accuracy_length.
  - intros q Hq. unfold Validator.accuracy_of, Validator.in_nist. rewrite Hq.
    split; [reflexivity |].
    change (Validator.contains Validator.nist_masses "H-1") with true.
    change (Validator.get Validator.binding_energies "H-1") with (Some 0.0).
    cbn iota.
    assert (E : Rltb 0 0.0 = false) by (apply Rltb_false; lra).
    now rewrite E.
Qed.

Lemma sum_le_length (l : list R) :
  Forall (fun a => a <= 1) l -> fold_right Rplus 0 l <= INR (List.length l).
Proof.
  induction 1 as [| a l Ha _ IH]; [cbn; lra |].
  change (List.length (a :: l)) with (S (List.length l)). rewrite S_INR.
  cbn [fold_right]. lra.
Qed.

Lemma ratio_bounds (a n : R) : 0 <= a <= n -> 0 < n -> 0 <= a / n <= 1.
Proof.
  intros [Ha Han] Hn. assert (Hi : 0 < / n) by now apply Rinv_0_lt_compat.
  split.
  - apply Rmult_le_pos; lra.
  - apply Rmult_le_reg_r with (r := n); [exact Hn |].
    unfold Rdiv. rewrite Rmult_assoc, Rinv_l by lra. lra.
Qed.

Lemma ratio_bounds_upper (a n : R) : a <= n -> 0 < n -> a / n <= 1.
Proof.
  intros Han Hn. apply Rmult_le_reg_r with (r := n); [exact Hn |].
  unfold Rdiv. rewrite Rmult_assoc, Rinv_l by lra. lra.
Qed.

(** X15.  The metrics of the result always hold the validation rate,
    the validated count over the number of predictions, between 0 and
    1; they hold an average accuracy exactly when some accuracy was
    recorded, and that average, the sum of the accuracies over their
    number, is at most 1. *)
Theorem X15_validator_metrics (p : Validator.prediction)
    (ps : list Validator.prediction) :
  exists r rate,
    Validator.validate_isotope_finder_predictions (p :: ps) = Ok r /\
    Validator.get (Validator.accuracy_metrics r) "nist_validation_rate"
    = Some (PyFloat rate) /\
    rate = IZR (Validator.validated_against_nist r)
           / IZR (Validator.total_predictions r) /\
    0 <= rate <= 1 /\
    (Validator.binding_energy_accuracy r = [] ->
     Validator.get (Validator.accuracy_metrics r) "binding_energy_accuracy"
     = None) /\
    (Validator.binding_energy_accuracy r <> [] ->
     exists avg,
       Validator.get (Validator.accuracy_metrics r) "binding_energy_accuracy"
       = Some (NpFloat avg) /\
       avg = fold_right Rplus 0 (Validator.binding_energy_accuracy r)
             / INR (List.length (Validator.binding_energy_accuracy r)) /\
       avg <= 1).
Proof.
  eexists. eexists. split; [apply validator_result |].
  cbn [Validator.accuracy_metrics Validator.validated_against_nist
       Validator.total_predictions Validator.binding_energy_accuracy].
  set (l := p :: ps).
  assert (Hacc : Forall (fun a => a <= 1) (flat_map Validator.accuracy_of l)).
  { apply Forall_forall. intros a Ha. apply in_flat_map in Ha.
    destruct Ha as (q & _ & Hq). now apply (accuracy_of_le_1 q). }
  pose proof (count_bounds Validator.in_nist l) as Hc.
  assert (Hn : 0 < IZR (Z.of_nat (List.length l))).
  { apply IZR_lt. unfold l. cbn [List.length]. lia. }
  destruct (flat_map Validator.accuracy_of l) as [| a accs] eqn:E.
  - cbn [app Validator.get]. split; [reflexivity |]. split; [reflexivity |].
    split; [| split; [reflexivity | intros H; now contradiction H]].
    apply ratio_bounds; [| exact Hn].
    destruct Hc as [Hc0 Hc1]. split; now apply IZR_le.
  - cbn [app Validator.get]. split; [reflexivity |]. split; [reflexivity |].
    split; [| split; [discriminate |]].
    + apply ratio_bounds; [| exact Hn].
      destruct Hc as [Hc0 Hc1]. split; now apply IZR_le.
    + intros _. eexists. split; [reflexivity |]. split; [reflexivity |].
      pose proof (sum_le_length Hacc) as Hs.
      assert (Hlen : 0 < INR (List.length (a :: accs))).
      { apply lt_0_INR. cbn [List.length]. lia. }
      apply (ratio_bounds_upper Hs Hlen).
Qed.

Lemma novel_not_validated (ps : list Validator.prediction) :
  (Validator.count Validator.in_nist ps
   + Z.of_nat (List.length (filter Validator.is_novel ps))
   <= Z.of_nat (List.length ps))%Z.
Proof.
  induction ps as [| p ps IH]; [unfold Validator.count; cbn; lia |].
  rewrite count_cons. cbn [filter List.length].
  unfold Validator.is_novel at 1.
  destruct (Validator.in_nist p); cbn [negb andb]; [lia |].
  destruct (Rltb 0.5 _); cbn [List.length]; lia.
Qed.

(** X16.  The novel discoveries of the result are made, in order, from
    the predictions whose name is no NIST key and whose discovery score
    exceeds 0.5 (a missing score counts as 0); a prediction is never
    both validated against NIST and reported as novel. *)
Theorem X16_validator_novel_discoveries (p : Validator.prediction)
    (ps : list Validator.prediction) :
  exists r,
    Validator.validate_isotope_finder_predictions (p :: ps) = Ok r /\
    Validator.novel_discoveries r
    = map Validator.discovery_of (filter Validator.is_novel (p :: ps)) /\
    (forall d, In d (Validator.novel_discoveries r) ->
       Validator.contains Validator.nist_masses (Validator.d_isotope d) = false /\
       0.5 < Validator.d_discovery_score d) /\
    (Validator.validated_against_nist r
     + Z.of_nat (List.length (Validator.novel_discoveries r))
     <= Validator.total_predictions r)%Z.
Proof.
  eexists. split; [apply validator_result |].
  cbn [Validator.novel_discoveries Validator.validated_against_nist
       Validator.total_predictions].
  split; [reflexivity |]. split.
  - intros d Hd. apply in_map_iff in Hd. destruct Hd as (q & <- & Hq).
    apply filter_In in Hq. destruct Hq as [_ Hq].
    unfold Validator.is_novel, Validator.in_nist in Hq.
    apply andb_true_iff in Hq. destruct Hq as [H1 H2].
    apply negb_true_iff in H1. apply Rltb_true in H2.
    cbn [Validator.discovery_of Validator.d_isotope Validator.d_discovery_score].
    now split.
  - rewrite length_map. apply novel_not_validated.
Qed.

End ValidatorProperties.
